(** * Gutenberg harvester and InvenioRDM publisher: model and verified properties

    A shallow embedding of [download_gutenberg_books.py] (class
    [GutenbergDownloader]) and [upload_gutenberg_books_invenio.py] (class
    [InvenioUploader]).

    - A Python [str] is a list of Unicode code points ([list N]); a [bytes]
      object is a [list Byte.byte].
    - A Python [int] is a [Z]; a [dict] used as a map is a [gmap]; the JSON
      objects the code reads field by field are records whose optional keys
      are [option]s.
    - Remote calls are answered by a script of responses, consumed one per
      request, so that every server behaviour is covered.  *)

From Stdlib Require Import ZArith NArith List String Ascii Bool Lia.
From Stdlib Require Import DecimalPos DecimalN DecimalZ.
From stdpp Require Import gmap.
Import ListNotations.

Abbreviation text := (list N) (only parsing).

(** ** The Python runtime the two programs rely on *)
Module Py.

(** A literal of the source, as code points. *)
Definition str (s : string) : text := map N_of_ascii (list_ascii_of_string s).

(** [Py_UNICODE_ISSPACE]: what [str.strip()], [str.isspace()] and the regular
    expression class [\s] (on [str] patterns) call whitespace. *)
Definition is_space (c : N) : bool :=
  ((9 <=? c) && (c <=? 13) || (28 <=? c) && (c <=? 32)
   || (c =? 0x85) || (c =? 0xA0) || (c =? 0x1680)
   || (0x2000 <=? c) && (c <=? 0x200A)
   || (c =? 0x2028) || (c =? 0x2029) || (c =? 0x202F)
   || (c =? 0x205F) || (c =? 0x3000))%N.

(** Membership of a code point in a set given as a string ([c in chars]). *)
Definition mem (c : N) (chars : text) : bool := existsb (N.eqb c) chars.

Fixpoint drop_while (p : N -> bool) (s : text) : text :=
  match s with
  | [] => []
  | c :: s' => if p c then drop_while p s' else s
  end.

Definition lstrip_by (p : N -> bool) (s : text) : text := drop_while p s.
Definition rstrip_by (p : N -> bool) (s : text) : text :=
  rev (drop_while p (rev s)).
Definition strip_by (p : N -> bool) (s : text) : text :=
  rstrip_by p (lstrip_by p s).

(** [s.strip()] *)
Definition strip (s : text) : text := strip_by is_space s.
(** [s.strip(chars)] *)
Definition strip_chars (chars s : text) : text :=
  strip_by (fun c => mem c chars) s.

(** Puts [c] in front of the first piece of a split. *)
Definition cons_head (c : N) (pieces : list text) : list text :=
  match pieces with
  | [] => [[c]]
  | p :: ps => (c :: p) :: ps
  end.

(** [s.split(sep, maxsplit)] for a one-character separator; [None] is the
    default [maxsplit=-1] (no limit). *)
Fixpoint split (sep : N) (maxsplit : option nat) (s : text) : list text :=
  match maxsplit with
  | Some O => [s]
  | _ =>
    match s with
    | [] => [[]]
    | c :: s' =>
      if (c =? sep)%N
      then [] :: split sep (option_map Nat.pred maxsplit) s'
      else cons_head c (split sep maxsplit s')
    end
  end.

(** [s.rsplit(sep, maxsplit)]: the same, scanning from the right. *)
Definition rsplit (sep : N) (maxsplit : option nat) (s : text) : list text :=
  rev (map (@rev N) (split sep maxsplit (rev s))).

Fixpoint starts_with (prefix s : text) : bool :=
  match prefix, s with
  | [], _ => true
  | _ :: _, [] => false
  | p :: prefix', c :: s' => (p =? c)%N && starts_with prefix' s'
  end.

(** [needle in s] *)
Fixpoint contains (needle s : text) : bool :=
  starts_with needle s ||
  match s with
  | [] => false
  | _ :: s' => contains needle s'
  end.

(** [l[:k]] for any integer [k]: a negative [k] counts from the end. *)
Definition slice_to {A} (k : Z) (l : list A) : list A :=
  if (0 <=? k)%Z then firstn (Z.to_nat k) l
  else firstn (length l - Z.to_nat (- k)) l.

(** [s[a:b]] for offsets [0 <= a] and [0 <= b]. *)
Definition slice {A} (a b : nat) (l : list A) : list A :=
  skipn a (firstn b l).

(** Truth value of a string, a list, an integer. *)
Definition truthy {A} (l : list A) : bool :=
  match l with [] => false | _ => true end.
Definition truthy_int (n : Z) : bool := negb (n =? 0)%Z.

(** *** [str(n)] for an integer *)
Fixpoint digits (d : Decimal.uint) : text :=
  match d with
  | Decimal.Nil => []
  | Decimal.D0 d' => 48%N :: digits d'
  | Decimal.D1 d' => 49%N :: digits d'
  | Decimal.D2 d' => 50%N :: digits d'
  | Decimal.D3 d' => 51%N :: digits d'
  | Decimal.D4 d' => 52%N :: digits d'
  | Decimal.D5 d' => 53%N :: digits d'
  | Decimal.D6 d' => 54%N :: digits d'
  | Decimal.D7 d' => 55%N :: digits d'
  | Decimal.D8 d' => 56%N :: digits d'
  | Decimal.D9 d' => 57%N :: digits d'
  end.

Definition str_of_int (n : Z) : text :=
  match Z.to_int n with
  | Decimal.Pos d => digits d
  | Decimal.Neg d => 45%N :: digits d
  end.

(** *** [int(s)] for a string

    The decimal digits beyond ASCII come from the Unicode database of the
    interpreter, which differs from one release to the next: it is a
    parameter of the model.  Integers are unbounded; the cap that recent
    interpreters put on the number of digits of a conversion (4300 unless
    configured otherwise) is left out. *)
Class UnicodeData := { to_decimal : N -> option N }.

Section Int.
Context `{UnicodeData}.

(** [_PyUnicode_TransformDecimalAndSpaceToASCII]: an ASCII string is taken as
    it is; otherwise spaces become [' '], decimal digits their ASCII digit
    and any other code point from 127 on ['?'] (which no integer literal
    contains). *)
Definition to_ascii_char (c : N) : N :=
  if (c <? 127)%N then c
  else if is_space c then 32%N
  else match to_decimal c with
       | Some d => if (d <? 10)%N then (48 + d)%N else 63%N
       | None => 63%N
       end.

Definition to_ascii (s : text) : text :=
  if forallb (fun c => (c <? 128)%N) s then s else map to_ascii_char s.

(** [Py_ISSPACE], the whitespace [PyLong_FromString] skips. *)
Definition is_c_space (c : N) : bool :=
  ((9 <=? c) && (c <=? 13) || (c =? 32))%N.

Definition digit_value (c : N) : option N :=
  if ((48 <=? c) && (c <=? 57))%N then Some (c - 48)%N else None.

(** Digits with single underscores between them; [prev_digit] tells whether
    the character before was a digit, [acc] is the value read so far. *)
Fixpoint scan_digits (prev_digit : bool) (acc : N) (s : text) : option N :=
  match s with
  | [] => if prev_digit then Some acc else None
  | c :: s' =>
    match digit_value c with
    | Some d => scan_digits true (acc * 10 + d)%N s'
    | None =>
      if ((c =? 95)%N && prev_digit)%bool then scan_digits false acc s'
      else None
    end
  end.

(** [int(s)]: [None] stands for [ValueError]. *)
Definition int (s : text) : option Z :=
  let s := strip_by is_c_space (to_ascii s) in
  match s with
  | 45%N :: body => option_map (fun n => (- Z.of_N n)%Z) (scan_digits false 0%N body)
  | 43%N :: body => option_map Z.of_N (scan_digits false 0%N body)
  | _ => option_map Z.of_N (scan_digits false 0%N s)
  end.

End Int.

(** A database with no decimal digit beyond ASCII, to run examples. *)
Definition ascii_digits_only : UnicodeData := {| to_decimal := fun _ => None |}.

(** *** Decoding bytes *)
Inductive exn := UnicodeDecodeError | RequestException | HTTPError.

Definition latin1_decode (b : list Byte.byte) : exn + text :=
  inr (map Byte.to_N b).

Definition is_cont (b : N) : bool := ((0x80 <=? b) && (b <=? 0xBF))%N.
Definition cont (b : N) : N := (b - 0x80)%N.

(** Strict UTF-8: shortest form only, no surrogate, nothing above U+10FFFF. *)
Fixpoint utf8_decode_N (b : list N) : option text :=
  match b with
  | [] => Some []
  | b0 :: r0 =>
    if (b0 <? 0x80)%N then option_map (cons b0) (utf8_decode_N r0)
    else if ((0xC2 <=? b0) && (b0 <=? 0xDF))%N then
      match r0 with
      | b1 :: r1 =>
        if is_cont b1
        then option_map (cons ((b0 - 0xC0) * 64 + cont b1)%N) (utf8_decode_N r1)
        else None
      | _ => None
      end
    else if ((0xE0 <=? b0) && (b0 <=? 0xEF))%N then
      match r0 with
      | b1 :: b2 :: r2 =>
        let c := ((b0 - 0xE0) * 4096 + cont b1 * 64 + cont b2)%N in
        if (is_cont b1 && is_cont b2 && (0x800 <=? c)
            && negb ((0xD800 <=? c) && (c <=? 0xDFFF)))%N
        then option_map (cons c) (utf8_decode_N r2)
        else None
      | _ => None
      end
    else if ((0xF0 <=? b0) && (b0 <=? 0xF4))%N then
      match r0 with
      | b1 :: b2 :: b3 :: r3 =>
        let c := ((b0 - 0xF0) * 262144 + cont b1 * 4096
                  + cont b2 * 64 + cont b3)%N in
        if (is_cont b1 && is_cont b2 && is_cont b3
            && (0x10000 <=? c) && (c <=? 0x10FFFF))%N
        then option_map (cons c) (utf8_decode_N r3)
        else None
      | _ => None
      end
    else None
  end.

Definition utf8_decode (b : list Byte.byte) : exn + text :=
  match utf8_decode_N (map Byte.to_N b) with
  | Some s => inr s
  | None => inl UnicodeDecodeError
  end.

End Py.


(** ** The fragment of regular expressions the source uses *)
Module Re.

(** A pattern is a sequence of literal characters and of [.+]. *)
Inductive item := Lit (c : N) | AnyPlus.

Definition lits (s : string) : list item := map Lit (Py.str s).

(** Case folding under [re.IGNORECASE], as far as it reaches the ASCII
    letters: besides the 52 letters, U+0130 and U+212A lower to [i] and [k]. *)
Definition fold_case (c : N) : N :=
  if ((65 <=? c) && (c <=? 90))%N then (c + 32)%N
  else if (c =? 0x130)%N then 105%N
  else if (c =? 0x212A)%N then 107%N
  else c.

(** Does the text character [c] match the pattern character [a], an ASCII
    character, when case is ignored?  U+0131 and U+017F are the two further
    characters that [i] and [s] match. *)
Definition lit_matches (a c : N) : bool :=
  ((fold_case c =? fold_case a)
   || (fold_case a =? 105) && (c =? 0x131)
   || (fold_case a =? 115) && (c =? 0x17F))%N.

(** Length of the match of [p] at the start of the text, found as the
    backtracking matcher finds it: [.+] takes as many characters other than
    a newline as it can and gives them back one by one. *)
Fixpoint match_here (p : list item) : text -> option nat :=
  match p with
  | [] => fun _ => Some O
  | Lit a :: p' => fun s =>
    match s with
    | c :: s' => if lit_matches a c then option_map S (match_here p' s') else None
    | [] => None
    end
  | AnyPlus :: p' =>
    fix more (s : text) : option nat :=
      match s with
      | [] => None
      | c :: s' =>
        if (c =? 10)%N then None
        else match more s' with
             | Some n => Some (S n)
             | None => option_map S (match_here p' s')
             end
      end
  end.

(** [re.search(p, s, re.IGNORECASE)]: the first offset, from [off] on, where
    the pattern matches, as [(match.start(), match.end())]. *)
Fixpoint search_from (p : list item) (off : nat) (s : text) : option (nat * nat) :=
  match match_here p s with
  | Some n => Some (off, off + n)%nat
  | None =>
    match s with
    | [] => None
    | _ :: s' => search_from p (S off) s'
    end
  end.

Definition search (p : list item) (s : text) : option (nat * nat) :=
  search_from p O s.

End Re.

(** ** [download_gutenberg_books.py] *)
Module Downloader.

Definition GUTENDEX_API : text := Py.str "https://gutendex.com/books".

(** *** [fetch_metadata] (lines 31-67) *)

(** What one page request comes to: an exception somewhere between
    [requests.get] and [data['results']], or a page of results with its
    [next] link ([None] for JSON [null] or a missing key). *)
Inductive page_error := Transport | BadStatus | BadJson | NoResults.

Inductive response (A : Type) :=
| Failed (e : page_error)
| Page (results : list A) (next : option text).
Arguments Failed {A} e.
Arguments Page {A} results next.

(** Truth value of [url]. *)
Definition url_truthy (url : option text) : bool :=
  match url with
  | Some u => Py.truthy u
  | None => false
  end.

(** The [while] loop.  [script] holds the responses to the requests still to
    come; the loop has no result ([None]) when it asks for more than the
    script holds. *)
Fixpoint fetch_loop {A} (script : list (response A)) (num_books : Z)
    (books : list A) (url : option text) : option (list A) :=
  if ((Z.of_nat (length books) <? num_books)%Z && url_truthy url)%bool then
    match script with
    | [] => None
    | Failed _ :: _ => Some books
    | Page results next :: script' =>
      fetch_loop script' num_books (books ++ results) next
    end
  else Some books.

Definition fetch_metadata {A} (script : list (response A)) (num_books : Z)
    (language : text) : option (list A) :=
  let url := GUTENDEX_API ++ Py.str "?languages=" ++ language in
  option_map (Py.slice_to num_books) (fetch_loop script num_books [] (Some url)).

(** *** [strip_gutenberg_headers] (lines 69-109) *)

Definition start_markers : list (list Re.item) :=
  [ Re.lits "*** START OF THIS PROJECT GUTENBERG EBOOK " ++ [Re.AnyPlus] ++ Re.lits " ***";
    Re.lits "***START OF THE PROJECT GUTENBERG EBOOK " ++ [Re.AnyPlus] ++ Re.lits " ***";
    Re.lits "START OF THIS PROJECT GUTENBERG EBOOK" ].

Definition end_markers : list (list Re.item) :=
  [ Re.lits "*** END OF THIS PROJECT GUTENBERG EBOOK " ++ [Re.AnyPlus] ++ Re.lits " ***";
    Re.lits "***END OF THE PROJECT GUTENBERG EBOOK " ++ [Re.AnyPlus] ++ Re.lits " ***";
    Re.lits "END OF THIS PROJECT GUTENBERG EBOOK" ].

(** [for marker in markers: match = re.search(...); if match: ...; break] *)
Fixpoint first_match (markers : list (list Re.item)) (s : text) : option (nat * nat) :=
  match markers with
  | [] => None
  | marker :: markers' =>
    match Re.search marker s with
    | Some m => Some m
    | None => first_match markers' s
    end
  end.

Definition start_pos (s : text) : nat :=
  match first_match start_markers s with
  | Some (_, match_end) => match_end
  | None => O
  end.

Definition end_pos (s : text) : nat :=
  match first_match end_markers s with
  | Some (match_start, _) => match_start
  | None => length s
  end.

Definition strip_gutenberg_headers (s : text) : text :=
  Py.strip (Py.slice (start_pos s) (end_pos s) s).

(** *** [download_book_text] (lines 111-140) *)

(** [requests.get] then [raise_for_status]: an exception, or the body. *)
Definition http_result : Type := Py.exn + list Byte.byte.

Definition GUTENBERG_TEXT_URL (book_id : Z) : text :=
  Py.str "https://www.gutenberg.org/files/" ++ Py.str_of_int book_id
  ++ Py.str "/" ++ Py.str_of_int book_id ++ Py.str "-0.txt".

(** The inner [try]: UTF-8, and latin-1 on [UnicodeDecodeError]. *)
Definition decode (content : list Byte.byte) : Py.exn + text :=
  match Py.utf8_decode content with
  | inl Py.UnicodeDecodeError => Py.latin1_decode content
  | other => other
  end.

(** The outer [try]: any exception gives [None]. *)
Definition download_book_text (get : text -> http_result) (book_id : Z) : option text :=
  let attempt :=
    match get (GUTENBERG_TEXT_URL book_id) with
    | inl e => inl e
    | inr content =>
      match decode content with
      | inl e => inl e
      | inr s => inr (strip_gutenberg_headers s)
      end
    end in
  match attempt with
  | inr clean_text => Some clean_text
  | inl _ => None
  end.

(** *** [sanitize_filename] (lines 142-153) *)

(** [re.sub] of the class of the nine characters [<], [>], [:], the double
    quote, [/], the backslash, [|], [?] and [*], with the empty string. *)
Definition illegal : text := [60; 62; 58; 34; 47; 92; 124; 63; 42]%N.
Definition remove_illegal (s : text) : text :=
  List.filter (fun c => negb (Py.mem c illegal)) s.

(** [re.sub(r'\s+', '_', text)]: [in_run] tells whether the character before
    was whitespace, so that a run gives one underscore. *)
Fixpoint sub_spaces (in_run : bool) (s : text) : text :=
  match s with
  | [] => []
  | c :: s' =>
    if Py.is_space c
    then (if in_run then sub_spaces true s' else 95%N :: sub_spaces true s')
    else c :: sub_spaces false s'
  end.

Definition cleaned (s : text) : text :=
  Py.strip_chars (Py.str "._") (sub_spaces false (remove_illegal s)).

Definition sanitize_filename (s : text) (max_length : Z) : text :=
  let s := cleaned s in
  if (max_length <? Z.of_nat (length s))%Z
  then hd [] (Py.rsplit 95%N (Some 1%nat) (Py.slice_to max_length s))
  else s.

End Downloader.


(** ** [upload_gutenberg_books_invenio.py] *)
Module Uploader.

(** *** The JSON objects read and written *)

(** An author, editor or translator of a Gutendex entry. *)
Record Person := { person_name : option text }.

(** A Gutendex entry, with the keys [create_metadata] reads.  A list that is
    absent reads as the empty list, as [book_meta.get(key, [])] gives it. *)
Record BookMeta := {
  meta_id : option Z;
  meta_title : option text;
  meta_authors : list Person;
  meta_editors : list Person;
  meta_translators : list Person;
  meta_subjects : list text;
  meta_bookshelves : list text;
  meta_summaries : list text;
  meta_languages : list text
}.

Record PersonOrOrg := {
  po_type : text;
  po_name : text;
  given_name : option text;
  family_name : option text
}.

(** An entry of [creators] (no role) or of [contributors]. *)
Record Creator := { person_or_org : PersonOrOrg; role : option text }.

Record Identifier := { identifier : text; scheme : text }.

Record Rights := { rights_title_en : text; rights_description_en : text }.

Record AdditionalDescription := { description : option text; description_type : text }.

Record RelatedIdentifier := {
  rel_identifier : text;
  rel_scheme : text;
  relation_type : text;
  rel_resource_type : text
}.

(** The dictionary [create_metadata] returns; a key set under a condition is
    an [option]. *)
Record Metadata := {
  resource_type : text;
  title : text;
  creators : list Creator;
  publication_date : text;
  languages : option (list text);
  md_description : option text;
  subjects : option (list text);
  identifiers : option (list Identifier);
  contributors : option (list Creator);
  formats : list text;
  publisher : text;
  rights : list Rights;
  additional_descriptions : list AdditionalDescription;
  related_identifiers : option (list RelatedIdentifier)
}.

(** A record of the repository, with the keys the update path reads. *)
Record RecordMetadata := {
  rec_title : option text;
  rec_publisher : option text;
  rec_additional_descriptions : list AdditionalDescription
}.

Record InvenioRecord := { rec_id : option text; rec_metadata : option RecordMetadata }.

(** The fields of [self] that [create_metadata] reads. *)
Record InvenioUploader := {
  publication_years : gmap Z Z;
  wikipedia_urls : gmap Z text
}.

(** *** [create_metadata] (lines 96-306) *)

(** What [pycountry.languages.get(alpha_2=code)] comes to: a language with
    its [alpha_3] attribute (when it has one), [None], or a [KeyError]. *)
Inductive language_lookup :=
| Language (alpha_3 : option text)
| NoLanguage
| LookupKeyError.

(** [f"{x}"] for the value of [book_meta.get('id')]. *)
Definition format_id (book_id : option Z) : text :=
  match book_id with
  | Some n => Py.str_of_int n
  | None => Py.str "None"
  end.

(** The block that parses the "Last, First" format; the source has it three
    times, for authors, editors and translators.  Gives
    [(family_name, given_name)]. *)
Definition split_name (full_name : text) : text * text :=
  if Py.contains (Py.str ",") full_name then
    let parts := Py.split 44%N (Some 1%nat) full_name in
    (Py.strip (nth 0 parts []),
     if (1 <? length parts)%nat then Py.strip (nth 1 parts []) else [])
  else (full_name, []).

Definition set_if_truthy (s : text) : option text :=
  if Py.truthy s then Some s else None.

Definition make_person (default_name : text) (role_id : option text) (p : Person) : Creator :=
  let full_name := default default_name (person_name p) in
  let '(family, given) := split_name full_name in
  {| person_or_org :=
       {| po_type := Py.str "personal";
          po_name := full_name;
          given_name := set_if_truthy given;
          family_name := set_if_truthy family |};
     role := role_id |}.

Definition unknown_author : Creator :=
  {| person_or_org :=
       {| po_type := Py.str "personal";
          po_name := Py.str "Unknown Author";
          given_name := None;
          family_name := Some (Py.str "Unknown") |};
     role := None |}.

Definition set_if_nonempty {A} (l : list A) : option (list A) :=
  if Py.truthy l then Some l else None.

Section CreateMetadata.
(** The module [pycountry], [None] when its import failed. *)
Variable pycountry : option (text -> language_lookup).

Definition convert_language (lang_code : text) : text :=
  match pycountry with
  | Some get =>
    if (length lang_code =? 2)%nat then
      match get lang_code with
      | Language (Some alpha_3) => alpha_3
      | Language None => lang_code
      | NoLanguage => lang_code
      | LookupKeyError => lang_code
      end
    else lang_code
  | None => lang_code
  end.

Definition create_metadata (self : InvenioUploader) (book_meta : BookMeta) : Metadata :=
  let creators_ := map (make_person (Py.str "Unknown Author") None) (meta_authors book_meta) in
  let creators_ := if Py.truthy creators_ then creators_ else [unknown_author] in
  let subjects_ :=
    meta_subjects book_meta ++
    (if Py.truthy (meta_bookshelves book_meta)
     then firstn 3 (meta_bookshelves book_meta) else []) in
  let description_ :=
    match meta_summaries book_meta with
    | summary :: _ => summary
    | [] => []
    end in
  let book_id := meta_id book_meta in
  let known_id := match book_id with Some n => if Py.truthy_int n then Some n else None | None => None end in
  let pub_date :=
    match known_id ≫= (fun n => publication_years self !! n) with
    | Some pub_year => Py.str_of_int pub_year
    | None => Py.str "1900"
    end in
  let languages_list := meta_languages book_meta in
  let converted_langs := map convert_language languages_list in
  let contributors_ :=
    map (make_person (Py.str "Unknown Editor") (Some (Py.str "editor"))) (meta_editors book_meta)
    ++ map (make_person (Py.str "Unknown Translator") (Some (Py.str "other"))) (meta_translators book_meta) in
  {| resource_type := Py.str "publication-book";
     title := default (Py.str "Book " ++ format_id book_id) (meta_title book_meta);
     creators := creators_;
     publication_date := pub_date;
     languages :=
       if Py.truthy languages_list then set_if_nonempty converted_langs else None;
     md_description := set_if_truthy description_;
     subjects := set_if_nonempty subjects_;
     identifiers :=
       set_if_nonempty
         (match known_id with
          | Some n => [ {| identifier := Py.str_of_int n; scheme := Py.str "other" |} ]
          | None => []
          end);
     contributors := set_if_nonempty contributors_;
     formats := [Py.str "text/plain"];
     publisher := Py.str "Project Gutenberg";
     rights :=
       [ {| rights_title_en := Py.str "Public Domain";
            rights_description_en :=
              Py.str "This work is in the public domain in the United States." |} ];
     additional_descriptions :=
       [ {| description :=
              Some (Py.str "Project Gutenberg eBook #" ++ format_id book_id ++ Py.str ". "
                    ++ Py.str "Downloaded from https://www.gutenberg.org/ebooks/"
                    ++ format_id book_id);
            description_type := Py.str "other" |} ];
     related_identifiers :=
       match known_id ≫= (fun n => wikipedia_urls self !! n) with
       | Some wiki_url =>
         Some [ {| rel_identifier := wiki_url;
                   rel_scheme := Py.str "url";
                   relation_type := Py.str "describes";
                   rel_resource_type := Py.str "other" |} ]
       | None => None
       end |}.

End CreateMetadata.

(** *** [extract_gutenberg_id] (lines 578-600) *)
Section ExtractId.
Context `{Py.UnicodeData}.

(** The [for] loop over the descriptions; going on to the next one is the
    [continue] of the handler of [IndexError] and [ValueError]. *)
Fixpoint extract_from (descs : list AdditionalDescription) : option Z :=
  match descs with
  | [] => None
  | desc :: descs' =>
    let desc_text := default [] (description desc) in
    if Py.contains (Py.str "Project Gutenberg eBook #") desc_text then
      match Py.split 35%N None desc_text !! 1%nat with
      | Some after_hash =>
        match Py.split 46%N None after_hash !! 0%nat with
        | Some id_str =>
          match Py.int id_str with
          | Some n => Some n
          | None => extract_from descs'
          end
        | None => extract_from descs'
        end
      | None => extract_from descs'
      end
    else extract_from descs'
  end.

Definition extract_gutenberg_id (record : InvenioRecord) : option Z :=
  match rec_metadata record with
  | Some metadata => extract_from (rec_additional_descriptions metadata)
  | None => None
  end.

End ExtractId.

(** *** [upload_all] (lines 481-530), [get_existing_records] (lines 532-576)
    and [update_all] (lines 753-795) *)

(** How a call ends: with an exception that the caller does not catch, or
    with a value.  [upload_book] and [update_record] can raise (reading the
    metadata file, [gutenberg_meta['id']], [draft['id']]); the two loops
    have no handler, and [main] has none. *)
Inductive run (A : Type) := Raised | Returned (a : A).
Arguments Raised {A}.
Arguments Returned {A} _.

(** The two variables that the summary of a batch prints. *)
Record Summary (F : Type) := { successful : nat; failed : list F }.
Arguments successful {F} _.
Arguments failed {F} _.

(** [if worker(x): successful += 1 else: failed.append(f)] *)
Definition record_outcome {F} (summary : Summary F) (ok : bool) (f : F) : Summary F :=
  {| successful := if ok then S (successful summary) else successful summary;
     failed := if ok then failed summary else failed summary ++ [f] |}.

(** Truth value of the optional [limit]. *)
Definition limit_truthy (limit : option Z) : bool :=
  match limit with
  | Some n => Py.truthy_int n
  | None => false
  end.

Section UploadAll.
(** [World] is what the calls act on: the data directory and the
    repository. *)
Context {File World : Type}.
(** The stem of a path, and [upload_book] on a path: how the call ends, and
    the state it leaves. *)
Variable stem : File -> text.
Variable upload_book : File -> World -> run bool * World.

Fixpoint upload_loop (metadata_files : list File) (summary : Summary text) (w : World)
    : run (Summary text) * World :=
  match metadata_files with
  | [] => (Returned summary, w)
  | metadata_file :: rest =>
    match upload_book metadata_file w with
    | (Raised, w') => (Raised, w')
    | (Returned ok, w') =>
      upload_loop rest (record_outcome summary ok (stem metadata_file)) w'
    end
  end.

(** [metadata_dir] is the sorted listing of the metadata directory, [None]
    when the directory does not exist: the function then returns early
    ([None] here), before anything is done. *)
Definition upload_all (metadata_dir : option (list File)) (limit : option Z) (w : World)
    : option (run (Summary text) * World) :=
  match metadata_dir with
  | None => None
  | Some listing =>
    let metadata_files :=
      match limit with
      | Some n => if Py.truthy_int n then Py.slice_to n listing else listing
      | None => listing
      end in
    Some (upload_loop metadata_files {| successful := O; failed := [] |} w)
  end.

End UploadAll.

(** [get_existing_records].  [script] holds the responses to the page
    requests, an exception ([inl]) or the hits of the page; there is no
    result when the script runs out.  Two readings of the generator follow:
    the list of the records it yields when it is drawn to its end, and the
    generator under a [for] loop, which draws them one at a time. *)
Definition is_gutenberg (record : InvenioRecord) : bool :=
  match rec_metadata record ≫= rec_publisher with
  | Some p => bool_decide (p = Py.str "Project Gutenberg")
  | None => false
  end.

Fixpoint get_existing_records (script : list (Py.exn + list InvenioRecord))
    : option (list InvenioRecord) :=
  match script with
  | [] => None
  | inl _ :: _ => Some []
  | inr hits :: script' =>
    if Py.truthy hits
    then option_map (app (List.filter is_gutenberg hits)) (get_existing_records script')
    else Some []
  end.

(** How the body of a [for] loop ends on one item: at its end, with
    [break], or with an exception that nothing catches. *)
Inductive flow (State : Type) := Next (s : State) | Break (s : State) | Raise.
Arguments Next {State} _.
Arguments Break {State} _.
Arguments Raise {State}.

Section Generator.
Context {State World : Type}.
(** The body of the loop that draws from the generator, on the variables of
    the loop and the state of the world. *)
Variable body : InvenioRecord -> State -> World -> flow State * World.

(** [for record in hits: if publisher == 'Project Gutenberg': yield record]:
    the body of the loop runs at each [yield], before the next hit is
    looked at. *)
Fixpoint yield_hits (hits : list InvenioRecord) (s : State) (w : World)
    : flow State * World :=
  match hits with
  | [] => (Next s, w)
  | record :: hits' =>
    if is_gutenberg record then
      match body record s w with
      | (Next s', w') => yield_hits hits' s' w'
      | ended => ended
      end
    else yield_hits hits' s w
  end.

(** [for record in self.get_existing_records(): body].  A page is asked for
    only when the loop draws a record after the last hit of the page
    before; a loop that ends with [break] or an exception leaves the
    generator where it is, and no further page is asked for.  The loop ends
    normally when the generator returns: at an exception of the request or
    a page without hits. *)
Fixpoint for_existing_records (script : list (Py.exn + list InvenioRecord))
    (s : State) (w : World) : option (flow State * World) :=
  match script with
  | [] => None
  | inl _ :: _ => Some (Next s, w)
  | inr hits :: script' =>
    if Py.truthy hits then
      match yield_hits hits s w with
      | (Next s', w') => for_existing_records script' s' w'
      | ended => Some ended
      end
    else Some (Next s, w)
  end.

End Generator.

(** The entry of [failed] for a record. *)
Definition failure_entry (record : InvenioRecord) : option text * text :=
  (rec_id record,
   default (Py.str "Unknown") (rec_metadata record ≫= rec_title)).

Section UpdateAll.
Context {World : Type}.
(** [update_record] on a record: how the call ends, and the state it
    leaves. *)
Variable update_record : InvenioRecord -> World -> run bool * World.

(** The body of the loop, on [count] and the two variables of the
    summary. *)
Definition update_body (limit : option Z) (record : InvenioRecord)
    (st : Z * Summary (option text * text)) (w : World)
    : flow (Z * Summary (option text * text)) * World :=
  let count := (fst st + 1)%Z in
  if (limit_truthy limit && (default 0%Z limit <? count)%Z)%bool then (Break (count, snd st), w)
  else
    match update_record record w with
    | (Raised, w') => (Raise, w')
    | (Returned ok, w') =>
      (Next (count, record_outcome (snd st) ok (failure_entry record)), w')
    end.

(** There is no result ([None]) when the loop draws a record that the
    script cannot supply. *)
Definition update_all (script : list (Py.exn + list InvenioRecord)) (limit : option Z)
    (w : World) : option (run (Summary (option text * text)) * World) :=
  match for_existing_records (update_body limit) script
          (0%Z, {| successful := O; failed := [] |}) w with
  | None => None
  | Some (Next st, w') => Some (Returned (snd st), w')
  | Some (Break st, w') => Some (Returned (snd st), w')
  | Some (Raise, w') => Some (Raised, w')
  end.

End UpdateAll.

End Uploader.


(** * The vocabulary of the specification *)
Module Spec.

(** A character outside the illegal set of [sanitize_filename]. *)
Definition legal (c : N) : Prop := Py.mem c Downloader.illegal = false.

(** The separator that [sanitize_filename] puts between words. *)
Definition separator : N := 95%N.

Definition no_leading_separator (out : text) : Prop := hd_error out <> Some separator.
Definition no_trailing_separator (out : text) : Prop :=
  forall r c, out = r ++ [c] -> c <> separator.

(** [out] stops inside a word of [t]: its last character and the character
    that follows it in [t] both belong to a word. *)
Definition splits_word (t out : text) : Prop :=
  exists pre c d rest,
    out = pre ++ [c] /\ t = pre ++ c :: d :: rest /\ c <> separator /\ d <> separator.

(** Filename sanitization as the specification words it. *)
Definition sanitize_claim (s : text) (max_length : Z) : Prop :=
  let out := Downloader.sanitize_filename s max_length in
  Forall legal out /\ no_leading_separator out /\ no_trailing_separator out
  /\ (Z.of_nat (length out) <= max_length)%Z
  /\ ~ splits_word (Downloader.cleaned s) out.

(** An ASCII decimal digit. *)
Definition is_digit (c : N) : Prop := (48 <= c <= 57)%N.

(** The descriptive string that [create_metadata] embeds for identifier [n]. *)
Definition embedded (n : Z) : text :=
  Py.str "Project Gutenberg eBook #" ++ Py.str_of_int n ++ Py.str ". "
  ++ Py.str "Downloaded from https://www.gutenberg.org/ebooks/" ++ Py.str_of_int n.


(** The family and given names of an entry; a key that is not set reads as
    the empty string. *)
Definition family_of (c : Uploader.Creator) : text :=
  default [] (Uploader.family_name (Uploader.person_or_org c)).
Definition given_of (c : Uploader.Creator) : text :=
  default [] (Uploader.given_name (Uploader.person_or_org c)).
Definition name_of (c : Uploader.Creator) : text :=
  Uploader.po_name (Uploader.person_or_org c).

Definition comma : N := 44%N.

(** The names of the entry [c] are those of its full name, split on its
    first comma. *)
Definition name_parsed (c : Uploader.Creator) : Prop :=
  (forall family given,
      name_of c = family ++ comma :: given -> ~ In comma family ->
      family_of c = Py.strip family /\ given_of c = Py.strip given)
  /\ (~ In comma (name_of c) -> family_of c = name_of c /\ given_of c = []).

(** The entry [c] stands for the person [p], whose name defaults to
    [unknown], in the role [role_id]. *)
Definition entry_of (unknown : string) (role_id : option text)
    (p : Uploader.Person) (c : Uploader.Creator) : Prop :=
  name_of c = default (Py.str unknown) (Uploader.person_name p)
  /\ Uploader.role c = role_id
  /\ name_parsed c.

(** The language code [out] is what the specification converts [code] to. *)
Definition language_converted (pycountry : option (text -> Uploader.language_lookup))
    (code out : text) : Prop :=
  (forall get alpha_3,
      pycountry = Some get -> length code = 2%nat ->
      get code = Uploader.Language (Some alpha_3) -> out = alpha_3)
  /\ (forall get,
      pycountry = Some get -> length code = 2%nat ->
      get code = Uploader.NoLanguage \/ get code = Uploader.LookupKeyError
      \/ get code = Uploader.Language None -> out = code)
  /\ (length code <> 2%nat -> out = code)
  /\ (pycountry = None -> out = code).


(** A sequence of pages that the API serves: the results of each page and
    its [next] link. *)
Definition entries {A} (pages : list (list A * option text)) : list A :=
  concat (map fst pages).
Definition served {A} (pages : list (list A * option text)) : list (Downloader.response A) :=
  map (fun p => Downloader.Page (fst p) (snd p)) pages.
Definition has_next {A} (p : list A * option text) : Prop :=
  Downloader.url_truthy (snd p) = true.
(** Every page but the last links to the next one. *)
Definition linked {A} (pages : list (list A * option text)) : Prop :=
  Forall has_next (removelast pages).
(** The last page reports no next page. *)
Definition closed {A} (pages : list (list A * option text)) : Prop :=
  exists pages' p, pages = pages' ++ [p] /\ Downloader.url_truthy (snd p) = false.


(** What it is for a pattern to match a string as a whole: literals match
    character by character, whatever the case, and [.+] matches one or more
    characters, none of them a newline. *)
Inductive matches : list Re.item -> text -> Prop :=
| matches_nil : matches [] []
| matches_lit a c p w :
    Re.lit_matches a c = true -> matches p w -> matches (Re.Lit a :: p) (c :: w)
| matches_any p u w :
    u <> [] -> Forall (fun c => c <> 10%N) u -> matches p w ->
    matches (Re.AnyPlus :: p) (u ++ w).

(** The pattern matches somewhere in the text. *)
Definition occurs (p : list Re.item) (s : text) : Prop :=
  exists pre w post, s = pre ++ w ++ post /\ matches p w.

(** [m] is the match of the first marker of the list, in list order, that
    occurs in the text. *)
Definition first_matching (markers : list (list Re.item)) (s : text) (m : nat * nat) : Prop :=
  exists i marker,
    markers !! i = Some marker /\ Re.search marker s = Some m
    /\ forall j marker', (j < i)%nat -> markers !! j = Some marker' -> ~ occurs marker' s.

Definition none_matching (markers : list (list Re.item)) (s : text) : Prop :=
  forall marker, In marker markers -> ~ occurs marker s.


(** The records of this system among the pages of hits that the repository
    serves, and a response that ends the listing: an exception or a page
    without hits. *)
Definition matching_records (pages : list (list Uploader.InvenioRecord))
    : list Uploader.InvenioRecord :=
  List.filter Uploader.is_gutenberg (concat pages).
Definition ends_listing (r : Py.exn + list Uploader.InvenioRecord) : Prop :=
  match r with
  | inl _ => True
  | inr hits => hits = []
  end.

(** ** Whitespace *)

(** A string of whitespace only. *)
Definition whitespace (s : text) : Prop := Forall (fun c => Py.is_space c = true) s.

(** ** Batches *)

Section Batch.
Context {X World : Type}.
Variable worker : X -> World -> Uploader.run bool * World.

(** The worker is called on the items, in order, each call in the state
    that the call before left; every call returns, with the answers
    [oks]. *)
Inductive calls : list X -> World -> list bool -> World -> Prop :=
| calls_nil w : calls [] w [] w
| calls_cons x items w ok w1 oks w' :
    worker x w = (Uploader.Returned ok, w1) ->
    calls items w1 oks w' ->
    calls (x :: items) w (ok :: oks) w'.

End Batch.

(** The summary for the answers [oks] on [items]: the number of answers
    [True], and the entries of the items with the answer [False], in
    order. *)
Definition successes (oks : list bool) : nat := length (List.filter id oks).
Definition failures {X} (items : list X) (oks : list bool) : list X :=
  map fst (List.filter (fun p => negb (snd p)) (combine items oks)).
Definition report {X F} (failure : X -> F) (items : list X) (oks : list bool)
    : Uploader.Summary F :=
  {| Uploader.successful := successes oks;
     Uploader.failed := map failure (failures items oks) |}.
(** The same, added to a summary. *)
Definition extended {X F} (summary : Uploader.Summary F) (failure : X -> F)
    (items : list X) (oks : list bool) : Uploader.Summary F :=
  {| Uploader.successful := Uploader.successful summary + successes oks;
     Uploader.failed := Uploader.failed summary ++ map failure (failures items oks) |}.

(** What a batch over [items] comes to.  When every call returns: the
    summary of the answers.  When a call raises: that exception, and the
    items after it are left alone.  The state is the one that the last call
    left. *)
Inductive batch {X F World} (worker : X -> World -> Uploader.run bool * World)
    (failure : X -> F) (items : list X) (w : World)
    : Uploader.run (Uploader.Summary F) * World -> Prop :=
| batch_returns oks w' :
    calls worker items w oks w' ->
    batch worker failure items w (Uploader.Returned (report failure items oks), w')
| batch_raises pre x post oks w1 w2 :
    items = pre ++ x :: post ->
    calls worker pre w oks w1 ->
    worker x w1 = (Uploader.Raised, w2) ->
    batch worker failure items w (Uploader.Raised, w2).

(** The items that a batch takes under a limit, in the words of the claim:
    all of them without a limit and with a limit of 0, the first [n] with a
    positive limit [n]. *)
Inductive taken {X} (items : list X) : option Z -> list X -> Prop :=
| taken_all : taken items None items
| taken_all_at_zero : taken items (Some 0%Z) items
| taken_first n : (0 < n)%Z -> taken items (Some n) (firstn (Z.to_nat n) items).

(** A [for] loop over a list, with a body as in
    [Uploader.for_existing_records]. *)
Fixpoint for_each {X State World} (body : X -> State -> World -> Uploader.flow State * World)
    (items : list X) (s : State) (w : World) : Uploader.flow State * World :=
  match items with
  | [] => (Uploader.Next s, w)
  | x :: items' =>
    match body x s w with
    | (Uploader.Next s', w') => for_each body items' s' w'
    | ended => ended
    end
  end.

End Spec.

(** * Sample data *)
Module Samples.

Definition frankenstein : Uploader.BookMeta :=
  {| Uploader.meta_id := Some 84%Z;
     Uploader.meta_title := Some (Py.str "Frankenstein; Or, The Modern Prometheus");
     Uploader.meta_authors :=
       [ {| Uploader.person_name := Some (Py.str "Shelley, Mary Wollstonecraft") |} ];
     Uploader.meta_editors := [ {| Uploader.person_name := Some (Py.str "Plato") |} ];
     Uploader.meta_translators := [ {| Uploader.person_name := Some (Py.str "Doe, Jane") |} ];
     Uploader.meta_subjects := [Py.str "Horror tales"; Py.str "Science fiction"];
     Uploader.meta_bookshelves := [Py.str "Gothic Fiction"];
     Uploader.meta_summaries := [];
     Uploader.meta_languages := [Py.str "en"; Py.str "xx"; Py.str "fra"] |}.

Definition anonymous : Uploader.BookMeta :=
  {| Uploader.meta_id := Some 1%Z;
     Uploader.meta_title := None;
     Uploader.meta_authors := [];
     Uploader.meta_editors := [];
     Uploader.meta_translators := [];
     Uploader.meta_subjects := [];
     Uploader.meta_bookshelves := [];
     Uploader.meta_summaries := [];
     Uploader.meta_languages := [] |}.

Definition uploader : Uploader.InvenioUploader :=
  {| Uploader.publication_years := {[ 84%Z := 1818%Z ]};
     Uploader.wikipedia_urls := ∅ |}.

(** A language table that knows English only. *)
Definition english_only (code : text) : Uploader.language_lookup :=
  if bool_decide (code = Py.str "en")
  then Uploader.Language (Some (Py.str "eng"))
  else Uploader.NoLanguage.

(** The record that publishing the metadata of [frankenstein] gives. *)
Definition published_metadata : Uploader.RecordMetadata :=
  let md := Uploader.create_metadata None uploader frankenstein in
  {| Uploader.rec_title := Some (Uploader.title md);
     Uploader.rec_publisher := Some (Uploader.publisher md);
     Uploader.rec_additional_descriptions := Uploader.additional_descriptions md |}.

Definition published : Uploader.InvenioRecord :=
  {| Uploader.rec_id := Some (Py.str "abcde-12345");
     Uploader.rec_metadata := Some published_metadata |}.

Definition foreign : Uploader.InvenioRecord :=
  {| Uploader.rec_id := Some (Py.str "fghij-67890");
     Uploader.rec_metadata :=
       Some {| Uploader.rec_title := Some (Py.str "A thesis");
               Uploader.rec_publisher := Some (Py.str "Some University");
               Uploader.rec_additional_descriptions := [] |} |}.

(** Two pages of the listing of the API, each with a link to the next. *)
Definition two_pages : list (list nat * option text) :=
  [ ([1; 2]%nat, Some (Py.str "https://gutendex.com/books?languages=en&page=2"));
    ([3; 4]%nat, Some (Py.str "https://gutendex.com/books?languages=en&page=3")) ].

(** A word of 101 letters, and 98 letters before two separators. *)
Definition long_word : text := repeat 97%N 101.
Definition double_separator : text := repeat 97%N 98 ++ Py.str "_ b".

(** A text without marker, and one whose end marker comes first. *)
Definition plain_text : text := Py.str "  Call me Ishmael.  ".
Definition end_before_start : text :=
  Py.str "End of this Project Gutenberg eBook. Start of this Project Gutenberg eBook".

(** A server that answers every request with one byte that is not UTF-8. *)
Definition latin1_server (url : text) : Downloader.http_result := inr [Byte.xe9].

(** A text with both markers. *)
Definition between_markers : text :=
  Py.str "Legal header
*** START OF THIS PROJECT GUTENBERG EBOOK MOBY DICK ***

Call me Ishmael.

*** END OF THIS PROJECT GUTENBERG EBOOK MOBY DICK ***
Legal footer".

(** A worker that answers [ok x] and adds [x] to the log of its calls, and
    one that raises on the items that [bad] holds of. *)
Definition logging {X} (ok : X -> bool) (x : X) (log : list X)
    : Uploader.run bool * list X :=
  (Uploader.Returned (ok x), log ++ [x]).
Definition raising_on {X} (bad : X -> bool) (x : X) (log : list X)
    : Uploader.run bool * list X :=
  (if bad x then Uploader.Raised else Uploader.Returned true, log ++ [x]).

End Samples.

(** * The rest of the two programs *)

(** ** Local storage: [save_book] (lines 155-191) and [download_all]
    (lines 193-253) of [download_gutenberg_books.py] *)
Module Storage.

(** What a call comes to when an exception can leave it. *)
Inductive result (A : Type) := Raises | Returns (a : A).
Arguments Raises {A}.
Arguments Returns {A} a.

(** The output directory: the text files of [books/] and the JSON files of
    [metadata/], by file name, and [all_books_metadata.json]. *)
Record store := {
  books : gmap (list N) (list N);
  metadata : gmap (list N) Uploader.BookMeta;
  master : option (list Uploader.BookMeta)
}.

Definition empty_store : store := {| books := ∅; metadata := ∅; master := None |}.

(** [f"{book_id}_{safe_title}"] *)
Definition filename_base (book_id : Z) (title : text) : text :=
  Py.str_of_int book_id ++ Py.str "_" ++ Downloader.sanitize_filename title 100.

(** A failure of the batch: [(book_id, title, reason)]. *)
Definition failure : Type := Z * list N * list N.

Record report := { successful : nat; failed : list failure }.

Section Harvest.
(** Whether opening the file of that path for writing, and writing it,
    succeeds; a write that fails leaves the directory as it was. *)
Variable can_write : text -> bool.
(** [requests.get] followed by [raise_for_status], by URL. *)
Variable get : text -> Downloader.http_result.

Definition save_book (st : store) (book_metadata : Uploader.BookMeta) (book_text : text)
    : result (bool * store) :=
  match Uploader.meta_id book_metadata with
  | None => Raises
  | Some book_id =>
    let title :=
      default (Py.str "Book_" ++ Py.str_of_int book_id) (Uploader.meta_title book_metadata) in
    let base := filename_base book_id title in
    let text_name := base ++ Py.str ".txt" in
    if can_write (Py.str "books/" ++ text_name) then
      let st := {| books := <[text_name := book_text]> (books st);
                   metadata := metadata st;
                   master := master st |} in
      let json_name := base ++ Py.str ".json" in
      if can_write (Py.str "metadata/" ++ json_name) then
        Returns (true, {| books := books st;
                          metadata := <[json_name := book_metadata]> (metadata st);
                          master := master st |})
      else Returns (false, st)
    else Returns (false, st)
  end.

(** The [for] loop of [download_all]. *)
Fixpoint download_loop (books_metadata : list Uploader.BookMeta) (st : store)
    (successful_ : nat) (failed_ : list failure) : result (store * report) :=
  match books_metadata with
  | [] => Returns (st, {| successful := successful_; failed := failed_ |})
  | book_meta :: rest =>
    match Uploader.meta_id book_meta with
    | None => Raises
    | Some book_id =>
      let title := default (Py.str "Unknown") (Uploader.meta_title book_meta) in
      let download_failed := failed_ ++ [(book_id, title, Py.str "Download failed")] in
      match Downloader.download_book_text get book_id with
      | Some book_text =>
        if Py.truthy book_text then
          match save_book st book_meta book_text with
          | Raises => Raises
          | Returns (true, st') => download_loop rest st' (S successful_) failed_
          | Returns (false, st') =>
            download_loop rest st' successful_
              (failed_ ++ [(book_id, title, Py.str "Save failed")])
          end
        else download_loop rest st successful_ download_failed
      | None => download_loop rest st successful_ download_failed
      end
    end
  end.

(** [download_all]: no result ([None]) when the script of page responses
    runs out; otherwise the directory and the report, the report being
    absent when no book was found. *)
Definition download_all (script : list (Downloader.response Uploader.BookMeta))
    (st : store) (num_books : Z) (language : text)
    : option (result (store * option report)) :=
  match Downloader.fetch_metadata script num_books language with
  | None => None
  | Some books_metadata =>
    Some
      (if Py.truthy books_metadata then
         match download_loop books_metadata st O [] with
         | Raises => Raises
         | Returns (st', rep) =>
           if can_write (Py.str "all_books_metadata.json") then
             Returns ({| books := books st';
                         metadata := metadata st';
                         master := Some books_metadata |}, Some rep)
           else Raises
         end
       else Returns (st, None))
  end.

End Harvest.

End Storage.

(** ** [_load_publication_data] (lines 55-94) of
    [upload_gutenberg_books_invenio.py] *)
Module Publication.

(** What a row of [csv.DictReader] holds under a column name: no such key
    (the header lacks the column), [None] (the row is shorter than the
    header), or the text of the cell. *)
Inductive cell := NoColumn | NoValue | Value (s : text).

Record row := { gutenberg_id : cell; publication_year : cell; wikipedia_url : cell }.

(** The file: absent, unreadable, or its rows. *)
Inductive csv_file := NotFound | Unreadable | Rows (rows : list row).

(** [int(row[key])]: a [KeyError] or [ValueError], which the inner handler
    catches, a [TypeError], which it does not, or the integer. *)
Inductive conversion := Caught | Uncaught | Int (n : Z).

Section Load.
Context `{Py.UnicodeData}.

Definition int_cell (c : cell) : conversion :=
  match c with
  | NoColumn => Caught
  | NoValue => Uncaught
  | Value s =>
    match Py.int s with
    | Some n => Int n
    | None => Caught
    end
  end.

(** The loop over the rows; [None] when an exception reaches the outer
    handler. *)
Fixpoint load_rows (rows : list row) (pub_years : gmap Z Z) (wiki_urls : gmap Z (list N))
    : option (gmap Z Z * gmap Z (list N)) :=
  match rows with
  | [] => Some (pub_years, wiki_urls)
  | r :: rows' =>
    match int_cell (gutenberg_id r) with
    | Caught => load_rows rows' pub_years wiki_urls
    | Uncaught => None
    | Int gid =>
      match int_cell (publication_year r) with
      | Caught => load_rows rows' pub_years wiki_urls
      | Uncaught => None
      | Int pub_year =>
        let pub_years := <[gid := pub_year]> pub_years in
        match wikipedia_url r with
        | NoValue => None
        | NoColumn => load_rows rows' pub_years wiki_urls
        | Value s =>
          let wiki_url := Py.strip s in
          if Py.truthy wiki_url
          then load_rows rows' pub_years (<[gid := wiki_url]> wiki_urls)
          else load_rows rows' pub_years wiki_urls
        end
      end
    end
  end.

Definition _load_publication_data (file : csv_file) : gmap Z Z * gmap Z (list N) :=
  match file with
  | NotFound => (∅, ∅)
  | Unreadable => (∅, ∅)
  | Rows rows => default (∅, ∅) (load_rows rows ∅ ∅)
  end.

(** The two fields that [__init__] sets from it (line 53). *)
Definition uploader_of (file : csv_file) : Uploader.InvenioUploader :=
  {| Uploader.publication_years := fst (_load_publication_data file);
     Uploader.wikipedia_urls := snd (_load_publication_data file) |}.

End Load.

End Publication.

(** ** The record lifecycle: [create_draft] (lines 308-342), [upload_file]
    (lines 344-395), [publish_draft] (lines 397-419), [upload_book]
    (lines 421-479), [create_new_version] (lines 602-624),
    [import_files_from_previous_version] (lines 626-648),
    [update_draft_metadata] (lines 650-676) and [update_record]
    (lines 678-751) *)
Module Workflow.

(** The requests sent to the repository, by URL and body. *)
Inductive request :=
| CreateDraft (metadata : Uploader.Metadata)
| InitFile (record_id filename : text)
| PutContent (record_id filename content : text)
| CommitFile (record_id filename : text)
| Publish (record_id : text)
| NewVersion (record_id : text)
| ImportFiles (draft_id : text)
| UpdateDraft (draft_id : text) (metadata : Uploader.Metadata).

(** The JSON object of a response: its [id], and whether it has other keys. *)
Record reply := { reply_id : option text; reply_other_keys : bool }.

(** Truth value of the dictionary. *)
Definition reply_truthy (r : reply) : bool :=
  match reply_id r with
  | Some _ => true
  | None => reply_other_keys r
  end.

(** [f"{x}"] for an identifier read with [.get('id')]. *)
Definition format_record_id (record_id : option text) : text :=
  default (Py.str "None") record_id.

(** How a function that can raise ends. *)
Inductive outcome := Raised | Done (b : bool).

(** [name] matches the pattern [prefix*suffix]. *)
Definition ends_with (suffix s : text) : bool :=
  Py.starts_with (rev suffix) (rev s).

Definition glob_match (prefix suffix name : text) : bool :=
  Py.starts_with prefix name && ends_with suffix name
  && (length prefix + length suffix <=? length name)%nat.

Section Lifecycle.
Context `{Py.UnicodeData}.
Variable pycountry : option (text -> Uploader.language_lookup).
Variable self : Uploader.InvenioUploader.
(** The repository: what a request comes to, [None] when the call raises
    (no connection, a status of 400 or more, a body read with [.json()]
    that is not JSON). *)
Variable server : request -> option reply.
(** The order in which the file system lists a directory. *)
Variable listdir : gmap (list N) Uploader.BookMeta -> list (list N * Uploader.BookMeta).

(** Each function gives its result and the requests it sent, in order. *)

Definition upload_file (record_id filename : text) (file : option text)
    : bool * list request :=
  let init := InitFile record_id filename in
  match server init with
  | None => (false, [init])
  | Some _ =>
    match file with
    | None => (false, [init])
    | Some content =>
      let put := PutContent record_id filename content in
      match server put with
      | None => (false, [init; put])
      | Some _ =>
        let commit := CommitFile record_id filename in
        match server commit with
        | None => (false, [init; put; commit])
        | Some _ => (true, [init; put; commit])
        end
      end
    end
  end.

(** [metadata_file] is the stem of the path. *)
Definition upload_book (data_dir : Storage.store) (metadata_file : text)
    : outcome * list request :=
  match Storage.metadata data_dir !! (metadata_file ++ Py.str ".json") with
  | None => (Raised, [])
  | Some gutenberg_meta =>
    match Uploader.meta_id gutenberg_meta with
    | None => (Raised, [])
    | Some book_id =>
      let filename := metadata_file ++ Py.str ".txt" in
      match Storage.books data_dir !! filename with
      | None => (Done false, [])
      | Some content =>
        let create := CreateDraft (Uploader.create_metadata pycountry self gutenberg_meta) in
        match server create with
        | None => (Done false, [create])
        | Some draft =>
          if reply_truthy draft then
            match reply_id draft with
            | None => (Raised, [create])
            | Some record_id =>
              let '(uploaded, sent) := upload_file record_id filename (Some content) in
              if uploaded then
                let publish := Publish record_id in
                match server publish with
                | None => (Done false, create :: sent ++ [publish])
                | Some published =>
                  if reply_truthy published then
                    match reply_id published with
                    | None => (Raised, create :: sent ++ [publish])
                    | Some _ => (Done true, create :: sent ++ [publish])
                    end
                  else (Done false, create :: sent ++ [publish])
                end
              else (Done false, create :: sent)
            end
          else (Done false, [create])
        end
      end
    end
  end.

(** [list(metadata_dir.glob(f"{gutenberg_id}_*.json"))] *)
Definition glob_metadata (data_dir : Storage.store) (gutenberg_id : Z)
    : list (list N * Uploader.BookMeta) :=
  List.filter
    (fun f => glob_match (Py.str_of_int gutenberg_id ++ Py.str "_") (Py.str ".json") (fst f))
    (listdir (Storage.metadata data_dir)).

Definition update_record (data_dir : Storage.store) (record : Uploader.InvenioRecord)
    : bool * list request :=
  match Uploader.extract_gutenberg_id record with
  | None => (false, [])
  | Some gutenberg_id =>
    if Py.truthy_int gutenberg_id then
      match glob_metadata data_dir gutenberg_id with
      | [] => (false, [])
      | (_, gutenberg_meta) :: _ =>
        let enhanced_metadata := Uploader.create_metadata pycountry self gutenberg_meta in
        let version := NewVersion (format_record_id (Uploader.rec_id record)) in
        match server version with
        | None => (false, [version])
        | Some new_draft =>
          if reply_truthy new_draft then
            let draft_id := format_record_id (reply_id new_draft) in
            let import := ImportFiles draft_id in
            match server import with
            | None => (false, [version; import])
            | Some _ =>
              let update := UpdateDraft draft_id enhanced_metadata in
              match server update with
              | None => (false, [version; import; update])
              | Some _ =>
                let publish := Publish draft_id in
                match server publish with
                | None => (false, [version; import; update; publish])
                | Some published =>
                  (reply_truthy published, [version; import; update; publish])
                end
              end
            end
          else (false, [version])
        end
      end
    else (false, [])
  end.

End Lifecycle.

End Workflow.

(** ** Further vocabulary *)
Module Terms.

(** The entries that a script of page responses holds, in order. *)
Definition page_results {A} (r : Downloader.response A) : list A :=
  match r with
  | Downloader.Page results _ => results
  | Downloader.Failed _ => []
  end.
Definition script_entries {A} (script : list (Downloader.response A)) : list A :=
  concat (map page_results script).

(** A string without whitespace, and one that whitespace does not bound. *)
Definition no_space (s : text) : Prop := Forall (fun c => Py.is_space c = false) s.
Definition trimmed (s : text) : Prop :=
  (forall c r, s = c :: r -> Py.is_space c = false)
  /\ (forall r c, s = r ++ [c] -> Py.is_space c = false).


(** The directory keeps its files in pairs: every metadata file is named
    after the identifier of the book it holds and has a text file of the
    same stem. *)
Definition paired (st : Storage.store) : Prop :=
  forall name book,
    Storage.metadata st !! name = Some book ->
    exists book_id title,
      Uploader.meta_id book = Some book_id
      /\ name = Storage.filename_base book_id title ++ Py.str ".json"
      /\ is_Some (Storage.books st !! (Storage.filename_base book_id title ++ Py.str ".txt")).

(** Every text file that [st'] has and [st] had not, or had otherwise. *)
Definition new_texts (P : text -> Prop) (st st' : Storage.store) : Prop :=
  forall name s,
    Storage.books st' !! name = Some s -> Storage.books st !! name = Some s \/ P s.

(** The first character of a file stem: a digit or the minus sign. *)
Definition starts_like_a_number (s : text) : Prop :=
  exists c r, s = c :: r /\ (Spec.is_digit c \/ c = 45%N).


Section Rows.
Context `{Py.UnicodeData}.

(** A row that is loaded: both numbers read, and a cell (or no column) for
    the URL. *)
Definition row_loaded (r : Publication.row) (gid pub_year : Z) : Prop :=
  Publication.int_cell (Publication.gutenberg_id r) = Publication.Int gid
  /\ Publication.int_cell (Publication.publication_year r) = Publication.Int pub_year
  /\ Publication.wikipedia_url r <> Publication.NoValue.

(** A row that is skipped: a number that is missing or does not read. *)
Definition row_skipped (r : Publication.row) : Prop :=
  Publication.int_cell (Publication.gutenberg_id r) = Publication.Caught
  \/ (exists gid, Publication.int_cell (Publication.gutenberg_id r) = Publication.Int gid)
     /\ Publication.int_cell (Publication.publication_year r) = Publication.Caught.

(** A row that is too short: [None] where a cell is read. *)
Definition row_short (r : Publication.row) : Prop :=
  Publication.int_cell (Publication.gutenberg_id r) = Publication.Uncaught
  \/ (exists gid, Publication.int_cell (Publication.gutenberg_id r) = Publication.Int gid)
     /\ (Publication.int_cell (Publication.publication_year r) = Publication.Uncaught
         \/ (exists y, Publication.int_cell (Publication.publication_year r) = Publication.Int y)
            /\ Publication.wikipedia_url r = Publication.NoValue).

(** The URL that a loaded row adds, if any. *)
Definition row_url (r : Publication.row) : option text :=
  match Publication.wikipedia_url r with
  | Publication.Value s => if Py.truthy (Py.strip s) then Some (Py.strip s) else None
  | _ => None
  end.

End Rows.

(** An identifier with a URL has a year, and the URL is trimmed and not
    empty. *)
Definition urls_have_years (pub_years : gmap Z Z) (wiki_urls : gmap Z (list N)) : Prop :=
  forall gid url,
    wiki_urls !! gid = Some url ->
    is_Some (pub_years !! gid) /\ url <> [] /\ trimmed url.

(** The identifier that [create_metadata] takes the book to have: none when
    the key is missing or the identifier is 0. *)
Definition known_id (book : Uploader.BookMeta) : option Z :=
  match Uploader.meta_id book with
  | Some n => if (n =? 0)%Z then None else Some n
  | None => None
  end.

(** A key that is set, or not, but never to an empty value. *)
Definition never_empty {A} (value : option (list A)) : Prop := value <> Some [].

(** The text of a description up to the first [#], the field between it and
    the next [#] or [.], and what follows. *)
Definition id_field (s field : text) : Prop :=
  exists pre post,
    s = pre ++ 35%N :: field ++ post
    /\ ~ In 35%N pre /\ ~ In 35%N field /\ ~ In 46%N field
    /\ (post = [] \/ exists c post', post = c :: post' /\ (c = 35%N \/ c = 46%N)).

Definition marker : text := Py.str "Project Gutenberg eBook #".

(** The repository accepted the request. *)
Definition accepted (server : Workflow.request -> option Workflow.reply)
    (r : Workflow.request) : Prop :=
  is_Some (server r).

(** A request of the update path: none of them creates a record or sends
    the content of a file. *)
Definition update_request (r : Workflow.request) : Prop :=
  match r with
  | Workflow.NewVersion _ | Workflow.ImportFiles _
  | Workflow.UpdateDraft _ _ | Workflow.Publish _ => True
  | _ => False
  end.

(** The five requests that publish a book, and the four that update a
    record. *)
Definition publish_sequence (metadata : Uploader.Metadata) (record_id filename content : text)
    : list Workflow.request :=
  [ Workflow.CreateDraft metadata;
    Workflow.InitFile record_id filename;
    Workflow.PutContent record_id filename content;
    Workflow.CommitFile record_id filename;
    Workflow.Publish record_id ].

Definition update_sequence (record_id draft_id : text) (metadata : Uploader.Metadata)
    : list Workflow.request :=
  [ Workflow.NewVersion record_id;
    Workflow.ImportFiles draft_id;
    Workflow.UpdateDraft draft_id metadata;
    Workflow.Publish draft_id ].

(** The file system lists the files of a directory, each once, in an order
    of its own. *)
Definition lists_files
    (listdir : gmap (list N) Uploader.BookMeta -> list (list N * Uploader.BookMeta)) : Prop :=
  forall m name book, In (name, book) (listdir m) <-> m !! name = Some book.

End Terms.

(** ** Further sample data *)
Module Cases.

Definition book_zero : Uploader.BookMeta :=
  {| Uploader.meta_id := Some 0%Z;
     Uploader.meta_title := None;
     Uploader.meta_authors := [];
     Uploader.meta_editors := [];
     Uploader.meta_translators := [];
     Uploader.meta_subjects := [];
     Uploader.meta_bookshelves := [];
     Uploader.meta_summaries := [];
     Uploader.meta_languages := [] |}.

(** Tables with an entry for the identifier 0. *)
Definition tables_with_zero : Uploader.InvenioUploader :=
  {| Uploader.publication_years := {[ 0%Z := 1605%Z ]};
     Uploader.wikipedia_urls := {[ 0%Z := Py.str "https://en.wikipedia.org/wiki/Zero" ]} |}.

(** The record that publishing [book_zero] gives. *)
Definition published_zero : Uploader.InvenioRecord :=
  {| Uploader.rec_id := Some (Py.str "zzzzz-00000");
     Uploader.rec_metadata :=
       Some {| Uploader.rec_title := None;
               Uploader.rec_publisher := Some (Py.str "Project Gutenberg");
               Uploader.rec_additional_descriptions :=
                 Uploader.additional_descriptions
                   (Uploader.create_metadata None tables_with_zero book_zero) |} |}.

(** Rows of the CSV file: one that loads, one whose identifier is not a
    number, one that is cut short after the identifier. *)
Definition row_frankenstein : Publication.row :=
  {| Publication.gutenberg_id := Publication.Value (Py.str "84");
     Publication.publication_year := Publication.Value (Py.str "1818");
     Publication.wikipedia_url :=
       Publication.Value (Py.str " https://en.wikipedia.org/wiki/Frankenstein ") |}.

(** A later row for the same book. *)
Definition row_frankenstein_revised : Publication.row :=
  {| Publication.gutenberg_id := Publication.Value (Py.str "84");
     Publication.publication_year := Publication.Value (Py.str "1831");
     Publication.wikipedia_url :=
       Publication.Value (Py.str "https://en.wikipedia.org/wiki/Mary_Shelley") |}.

Definition row_not_a_number : Publication.row :=
  {| Publication.gutenberg_id := Publication.Value (Py.str "n/a");
     Publication.publication_year := Publication.Value (Py.str "1851");
     Publication.wikipedia_url := Publication.Value [] |}.

Definition row_cut_short : Publication.row :=
  {| Publication.gutenberg_id := Publication.Value (Py.str "2701");
     Publication.publication_year := Publication.NoValue;
     Publication.wikipedia_url := Publication.NoValue |}.

(** The directory after [frankenstein] was saved with its text. *)
Definition harvested : Storage.store :=
  {| Storage.books :=
       {[ Storage.filename_base 84 (Py.str "Frankenstein; Or, The Modern Prometheus")
          ++ Py.str ".txt" := Py.str "You will rejoice to hear" ]};
     Storage.metadata :=
       {[ Storage.filename_base 84 (Py.str "Frankenstein; Or, The Modern Prometheus")
          ++ Py.str ".json" := Samples.frankenstein ]};
     Storage.master := Some [Samples.frankenstein] |}.

(** A repository that accepts every request, and one that refuses all. *)
Definition accepting (r : Workflow.request) : option Workflow.reply :=
  Some {| Workflow.reply_id := Some (Py.str "k3x9q-7c2aa"); Workflow.reply_other_keys := true |}.

Definition refusing (r : Workflow.request) : option Workflow.reply := None.

(** One that accepts every request but the content of a file. *)
Definition refusing_content (r : Workflow.request) : option Workflow.reply :=
  match r with
  | Workflow.PutContent _ _ _ => None
  | _ => accepting r
  end.

End Cases.

(** * Properties *)

(** ** Lists and strings *)

Lemma drop_while_suffix p (s : text) : exists pre, s = pre ++ Py.drop_while p s.
Proof.
  induction s as [|c s [pre IH]]; simpl.
  - exists []. reflexivity.
  - destruct (p c).
    + exists (c :: pre). simpl. f_equal. exact IH.
    + exists []. reflexivity.
Qed.

Lemma drop_while_head p (s : text) c r :
  Py.drop_while p s = c :: r -> p c = false.
Proof.
  induction s as [|d s IH]; simpl; [discriminate|].
  destruct (p d) eqn:E; [exact IH|].
  intros [= -> _]. exact E.
Qed.

Lemma drop_while_none p (s : text) :
  hd_error s = None \/ (exists c, hd_error s = Some c /\ p c = false) ->
  Py.drop_while p s = s.
Proof.
  destruct s as [|c s]; simpl; [reflexivity|].
  intros [?|(d & [= <-] & ->)]; [discriminate|reflexivity].
Qed.

(** What stripping leaves is a contiguous part of the string. *)
Lemma strip_by_infix p (s : text) :
  exists pre post, s = pre ++ Py.strip_by p s ++ post.
Proof.
  unfold Py.strip_by, Py.rstrip_by, Py.lstrip_by.
  destruct (drop_while_suffix p s) as [pre Hpre].
  destruct (drop_while_suffix p (rev (Py.drop_while p s))) as [post Hpost].
  exists pre, (rev post).
  rewrite <- rev_app_distr, <- Hpost, rev_involutive. exact Hpre.
Qed.

Lemma rstrip_by_prefix p (s : text) : exists post, s = Py.rstrip_by p s ++ post.
Proof.
  unfold Py.rstrip_by.
  destruct (drop_while_suffix p (rev s)) as [post Hpost].
  exists (rev post). rewrite <- rev_app_distr, <- Hpost, rev_involutive. reflexivity.
Qed.

Lemma strip_by_first p (s : text) c r : Py.strip_by p s = c :: r -> p c = false.
Proof.
  unfold Py.strip_by, Py.lstrip_by. intros E.
  destruct (rstrip_by_prefix p (Py.drop_while p s)) as [post Hpost].
  rewrite E in Hpost. simpl in Hpost.
  eapply drop_while_head. exact Hpost.
Qed.

Lemma strip_by_last p (s : text) r c : Py.strip_by p s = r ++ [c] -> p c = false.
Proof.
  unfold Py.strip_by, Py.rstrip_by. intros E.
  apply (f_equal (@rev N)) in E. rewrite rev_involutive, rev_app_distr in E.
  simpl in E. eapply drop_while_head. exact E.
Qed.

(** A string that neither starts nor ends with a stripped character is left
    as it is. *)
Lemma strip_by_id p (s : text) : Forall (fun c => p c = false) s -> Py.strip_by p s = s.
Proof.
  intros Hs. unfold Py.strip_by, Py.rstrip_by, Py.lstrip_by.
  assert (D : forall t : text, Forall (fun c => p c = false) t -> Py.drop_while p t = t).
  { intros t Ht. destruct Ht as [|c t Hc _]; simpl; [reflexivity|]. rewrite Hc. reflexivity. }
  rewrite (D s Hs), D, rev_involutive; [reflexivity|].
  apply Forall_rev. exact Hs.
Qed.

Lemma split_absent sep (s : text) :
  ~ In sep s -> Py.split sep None s = [s].
Proof.
  induction s as [|c s IH]; simpl; [reflexivity|].
  intros Hn. destruct (N.eqb_spec c sep) as [->|_]; [tauto|].
  rewrite IH by tauto. reflexivity.
Qed.

(** Splitting cuts at the first separator. *)
Lemma split_first sep (pre post : text) :
  ~ In sep pre ->
  Py.split sep None (pre ++ sep :: post) = pre :: Py.split sep None post.
Proof.
  induction pre as [|c pre IH]; simpl; intros Hn.
  - rewrite N.eqb_refl. reflexivity.
  - destruct (N.eqb_spec c sep) as [->|_]; [tauto|].
    rewrite IH by tauto. reflexivity.
Qed.

Lemma split_once_absent sep (s : text) :
  ~ In sep s -> Py.split sep (Some 1%nat) s = [s].
Proof.
  induction s as [|c s IH]; simpl; [reflexivity|].
  intros Hn. destruct (N.eqb_spec c sep) as [->|_]; [tauto|].
  rewrite IH by tauto. reflexivity.
Qed.

Lemma split_once_first sep (pre post : text) :
  ~ In sep pre ->
  Py.split sep (Some 1%nat) (pre ++ sep :: post) = [pre; post].
Proof.
  induction pre as [|c pre IH]; simpl; intros Hn.
  - rewrite N.eqb_refl. destruct post; reflexivity.
  - destruct (N.eqb_spec c sep) as [->|_]; [tauto|].
    rewrite IH by tauto. reflexivity.
Qed.

(** [rsplit(sep, 1)[0]] is what stands before the last separator, or the
    whole string when it has none. *)
Lemma rsplit_once_absent sep (s : text) :
  ~ In sep s -> hd [] (Py.rsplit sep (Some 1%nat) s) = s.
Proof.
  intros Hn. unfold Py.rsplit. rewrite split_once_absent.
  - simpl. apply rev_involutive.
  - rewrite <- in_rev. exact Hn.
Qed.

Lemma rsplit_once_last sep (pre post : text) :
  ~ In sep post -> hd [] (Py.rsplit sep (Some 1%nat) (pre ++ sep :: post)) = pre.
Proof.
  intros Hn. unfold Py.rsplit.
  rewrite rev_app_distr. simpl. rewrite <- app_assoc. simpl.
  rewrite split_once_first by (rewrite <- in_rev; exact Hn).
  simpl. rewrite !rev_involutive. reflexivity.
Qed.

(** Every string either lacks the separator or has a last one. *)
Lemma last_separator sep (s : text) :
  ~ In sep s \/ exists pre post, s = pre ++ sep :: post /\ ~ In sep post.
Proof.
  induction s as [|c s IH].
  - left. intros [].
  - destruct IH as [Hn|(pre & post & -> & Hn)].
    + destruct (N.eq_dec c sep) as [->|Hc].
      * right. exists [], s. split; [reflexivity|exact Hn].
      * left. intros [?|?]; tauto.
    + right. exists (c :: pre), post. split; [reflexivity|exact Hn].
Qed.

Lemma rsplit_once_prefix sep (s : text) :
  exists post, s = hd [] (Py.rsplit sep (Some 1%nat) s) ++ post.
Proof.
  destruct (last_separator sep s) as [Hn|(pre & post & -> & Hn)].
  - rewrite rsplit_once_absent by exact Hn. exists []. rewrite app_nil_r. reflexivity.
  - rewrite rsplit_once_last by exact Hn. exists (sep :: post). reflexivity.
Qed.

(** ** [sanitize_filename] *)

Lemma sub_spaces_legal b (s : text) :
  Forall Spec.legal s -> Forall Spec.legal (Downloader.sub_spaces b s).
Proof.
  intros Hs. revert b. induction Hs as [|c s Hc _ IH]; intros b; simpl; [constructor|].
  destruct (Py.is_space c); [destruct b|]; repeat constructor; auto.
Qed.

Lemma remove_illegal_legal (s : text) : Forall Spec.legal (Downloader.remove_illegal s).
Proof.
  apply List.Forall_forall. intros c Hc. apply List.filter_In in Hc as [_ Hc].
  unfold Spec.legal. destruct (Py.mem c Downloader.illegal); [discriminate|reflexivity].
Qed.

Lemma Forall_infix {A} (P : A -> Prop) (pre mid post : list A) :
  Forall P (pre ++ mid ++ post) -> Forall P mid.
Proof.
  intros F. apply Forall_app in F as [_ F]. apply Forall_app in F as [F _]. exact F.
Qed.

Lemma cleaned_legal (s : text) : Forall Spec.legal (Downloader.cleaned s).
Proof.
  unfold Downloader.cleaned, Py.strip_chars.
  pose proof (sub_spaces_legal false _ (remove_illegal_legal s)) as F.
  destruct (strip_by_infix (fun c => Py.mem c (Py.str "._"))
              (Downloader.sub_spaces false (Downloader.remove_illegal s)))
    as (pre & post & E).
  rewrite E in F. exact (Forall_infix _ _ _ _ F).
Qed.

Lemma cleaned_first (s : text) c r :
  Downloader.cleaned s = c :: r -> c <> Spec.separator.
Proof.
  intros E. apply strip_by_first in E. intros ->. discriminate E.
Qed.

Lemma cleaned_last (s : text) r c :
  Downloader.cleaned s = r ++ [c] -> c <> Spec.separator.
Proof.
  intros E. apply strip_by_last in E. intros ->. discriminate E.
Qed.

Lemma hd_error_prefix {A} (l post : list A) x :
  hd_error l = Some x -> hd_error (l ++ post) = Some x.
Proof. destruct l; simpl; [discriminate|auto]. Qed.

(** The truncated name is a prefix of the cleaned one. *)
Lemma sanitize_filename_prefix (s : text) max_length :
  (0 <= max_length)%Z ->
  exists post, Downloader.cleaned s = Downloader.sanitize_filename s max_length ++ post.
Proof.
  intros Hmax. unfold Downloader.sanitize_filename.
  destruct (max_length <? _)%Z.
  - unfold Py.slice_to. rewrite (proj2 (Z.leb_le 0 max_length) Hmax).
    destruct (rsplit_once_prefix 95%N (firstn (Z.to_nat max_length) (Downloader.cleaned s)))
      as [post E].
    exists (post ++ skipn (Z.to_nat max_length) (Downloader.cleaned s)).
    rewrite app_assoc, <- E. symmetry. apply firstn_skipn.
  - exists []. rewrite app_nil_r. reflexivity.
Qed.

(** C2 (as the code has it): for a maximum that is not negative, the name
    holds no illegal character, does not start with a separator and is no
    longer than the maximum.  A name that fits is the cleaned title itself
    and does not end with a separator.  A name that does not fit is cut to
    the maximum and then back to its last separator; with no separator among
    those characters it is the cut itself, in the middle of a word or not. *)
Theorem sanitize_filename_truncation (s : text) (max_length : Z) :
  (0 <= max_length)%Z ->
  let t := Downloader.cleaned s in
  let out := Downloader.sanitize_filename s max_length in
  let cut := firstn (Z.to_nat max_length) t in
  Forall Spec.legal out
  /\ Spec.no_leading_separator out
  /\ (Z.of_nat (length out) <= max_length)%Z
  /\ ((Z.of_nat (length t) <= max_length)%Z ->
      out = t /\ Spec.no_trailing_separator out)
  /\ ((max_length < Z.of_nat (length t))%Z ->
      (~ In Spec.separator cut -> out = cut)
      /\ (forall pre post, cut = pre ++ Spec.separator :: post ->
            ~ In Spec.separator post -> out = pre)).
Proof.
  intros Hmax t out cut.
  destruct (sanitize_filename_prefix s max_length Hmax) as [post Hpost].
  fold t out in Hpost.
  assert (Hlegal : Forall Spec.legal out).
  { pose proof (cleaned_legal s) as F. fold t in F. rewrite Hpost in F.
    apply Forall_app in F as [F _]. exact F. }
  assert (Hlead : Spec.no_leading_separator out).
  { unfold Spec.no_leading_separator. destruct out as [|c r] eqn:E; [discriminate|].
    simpl. intros [= ->]. simpl in Hpost.
    exact (cleaned_first s _ _ Hpost eq_refl). }
  assert (Hfit : (Z.of_nat (length t) <= max_length)%Z -> out = t).
  { intros Hle. subst out. unfold Downloader.sanitize_filename. fold t.
    rewrite (proj2 (Z.ltb_ge _ _) Hle). reflexivity. }
  assert (Hcut : (max_length < Z.of_nat (length t))%Z ->
                 out = hd [] (Py.rsplit Spec.separator (Some 1%nat) cut)).
  { intros Hlt. subst out. unfold Downloader.sanitize_filename. fold t.
    rewrite (proj2 (Z.ltb_lt _ _) Hlt). unfold Py.slice_to.
    rewrite (proj2 (Z.leb_le 0 max_length) Hmax). reflexivity. }
  repeat split; auto.
  - destruct (Z.lt_ge_cases max_length (Z.of_nat (length t))) as [Hlt|Hle].
    + rewrite (Hcut Hlt).
      destruct (rsplit_once_prefix Spec.separator cut) as [post' E].
      apply (f_equal (@length N)) in E. rewrite length_app in E.
      assert (length cut <= Z.to_nat max_length)%nat by apply firstn_le_length.
      lia.
    + rewrite (Hfit Hle). exact Hle.
  - intros r c E. rewrite (Hfit H) in E. exact (cleaned_last s r c E).
  - intros Hn. rewrite (Hcut H). apply rsplit_once_absent. exact Hn.
  - intros pre post' E Hn. rewrite (Hcut H), E. apply rsplit_once_last. exact Hn.
Qed.

Lemma sanitize_filename_truncation_witness :
  (0 <= 12)%Z /\
  Downloader.sanitize_filename (Py.str "The Great Gatsby") 12 = Py.str "The_Great".
Proof.
  split; [lia|].
  destruct (sanitize_filename_truncation (Py.str "The Great Gatsby") 12 ltac:(lia))
    as (_ & _ & _ & _ & T).
  destruct (T ltac:(vm_compute; reflexivity)) as [_ T'].
  apply (T' (Py.str "The_Great") (Py.str "Ga")).
  - vm_compute. reflexivity.
  - vm_compute. intros [E|[E|[]]]; discriminate E.
Defined.

(** C2 (as the specification has it) fails: a single word of 101 letters is
    cut after its 100th letter, and a title whose 99th and 100th characters
    are separators keeps one of them at its end. *)
Lemma sanitize_filename_claim_fails :
  ~ Spec.sanitize_claim Samples.long_word 100
  /\ ~ Spec.sanitize_claim Samples.double_separator 100.
Proof.
  split; intros (_ & _ & Htrail & _ & Hword).
  - apply Hword. exists (repeat 97%N 99), 97%N, 97%N, [].
    repeat split; try (vm_compute; reflexivity); discriminate.
  - apply (Htrail (repeat 97%N 98) 95%N); vm_compute; reflexivity.
Qed.

(** ** [str] and [int] on integers *)

Lemma digits_are_digits d : Forall Spec.is_digit (Py.digits d).
Proof. induction d; simpl; constructor; auto; unfold Spec.is_digit; lia. Qed.

(** The characters of [str(n)] are digits and the minus sign. *)
Lemma str_of_int_chars n : Forall (fun c => Spec.is_digit c \/ c = 45%N) (Py.str_of_int n).
Proof.
  unfold Py.str_of_int. destruct (Z.to_int n) as [d|d]; [|constructor; [now right|]];
    (eapply List.Forall_impl; [|apply digits_are_digits]); intros c Hc; now left.
Qed.

Lemma str_of_int_lacks n c :
  (c < 45 \/ 45 < c < 48 \/ 57 < c)%N -> ~ In c (Py.str_of_int n).
Proof.
  intros Hc Hin.
  pose proof (proj1 (List.Forall_forall _ _) (str_of_int_chars n) c Hin) as [D| ->];
    [unfold Spec.is_digit in D|]; lia.
Qed.

Section IntOfStr.
Context `{Py.UnicodeData}.

Lemma scan_digits_acc d (a : positive) :
  Py.scan_digits true (N.pos a) (Py.digits d) = Some (N.pos (Pos.of_uint_acc d a)).
Proof.
  revert a. induction d; intros a; simpl; [reflexivity|..];
    match goal with
    | |- Py.scan_digits true ?x _ = Some (N.pos (Pos.of_uint_acc _ ?y)) =>
      replace x with (N.pos y) by lia; apply IHd
    end.
Qed.

Lemma scan_digits_value d b :
  d <> Decimal.Nil \/ b = true ->
  Py.scan_digits b 0%N (Py.digits d) = Some (Pos.of_uint d).
Proof.
  revert b. induction d; intros b Hb; simpl.
  - destruct Hb as [Hb| ->]; [contradiction|reflexivity].
  - apply IHd. now right.
  - apply (scan_digits_acc d 1).
  - apply (scan_digits_acc d 2).
  - apply (scan_digits_acc d 3).
  - apply (scan_digits_acc d 4).
  - apply (scan_digits_acc d 5).
  - apply (scan_digits_acc d 6).
  - apply (scan_digits_acc d 7).
  - apply (scan_digits_acc d 8).
  - apply (scan_digits_acc d 9).
Qed.

Lemma to_ascii_str_of_int n : Py.to_ascii (Py.str_of_int n) = Py.str_of_int n.
Proof.
  unfold Py.to_ascii.
  replace (forallb _ (Py.str_of_int n)) with true; [reflexivity|].
  symmetry. apply forallb_forall. intros c Hc. apply N.ltb_lt.
  pose proof (proj1 (List.Forall_forall _ _) (str_of_int_chars n) c Hc) as [D| ->];
    [unfold Spec.is_digit in D|]; lia.
Qed.

Lemma strip_str_of_int n :
  Py.strip_by Py.is_c_space (Py.str_of_int n) = Py.str_of_int n.
Proof.
  apply strip_by_id. eapply List.Forall_impl; [|apply str_of_int_chars].
  intros c [D| ->]; [|reflexivity].
  unfold Spec.is_digit in D. unfold Py.is_c_space.
  apply orb_false_iff. split;
    [apply andb_false_iff; right; apply N.leb_gt|apply N.eqb_neq]; lia.
Qed.

(** [int(str(n)) == n] for every integer. *)
Lemma int_str_of_int n : Py.int (Py.str_of_int n) = Some n.
Proof.
  unfold Py.int. rewrite to_ascii_str_of_int, strip_str_of_int.
  unfold Py.str_of_int. destruct n as [|p|p]; simpl Z.to_int; cbv iota.
  - reflexivity.
  - pose proof (DecimalPos.Unsigned.to_uint_nonnil p) as Hnil.
    pose proof (scan_digits_value (Pos.to_uint p) false (or_introl Hnil)) as Hscan.
    rewrite DecimalPos.Unsigned.of_to in Hscan.
    destruct (Pos.to_uint p); [contradiction|..];
      cbn [Py.digits] in *; rewrite Hscan; reflexivity.
  - pose proof (DecimalPos.Unsigned.to_uint_nonnil p) as Hnil.
    rewrite (scan_digits_value (Pos.to_uint p) false (or_introl Hnil)).
    rewrite DecimalPos.Unsigned.of_to. reflexivity.
Qed.

End IntOfStr.

(** ** The identifier round trip *)

Lemma starts_with_app (p s : text) : Py.starts_with p (p ++ s) = true.
Proof. induction p as [|c p IH]; simpl; [destruct s; reflexivity|]. now rewrite N.eqb_refl. Qed.

Lemma contains_starts_with (p s : text) :
  Py.starts_with p s = true -> Py.contains p s = true.
Proof. destruct s; simpl; intros ->; reflexivity. Qed.

Lemma embedded_shape n :
  Spec.embedded n =
  Py.str "Project Gutenberg eBook " ++ 35%N :: Py.str_of_int n ++ 46%N ::
  (Py.str " Downloaded from https://www.gutenberg.org/ebooks/" ++ Py.str_of_int n).
Proof.
  unfold Spec.embedded.
  change (Py.str "Project Gutenberg eBook #") with (Py.str "Project Gutenberg eBook " ++ [35%N]).
  change (Py.str ". ") with [46%N; 32%N].
  change (Py.str " Downloaded from https://www.gutenberg.org/ebooks/")
    with (32%N :: Py.str "Downloaded from https://www.gutenberg.org/ebooks/").
  rewrite <- !app_assoc. reflexivity.
Qed.

Lemma literal_lacks (c : N) (s : text) : forallb (fun d => negb (d =? c)%N) s = true -> ~ In c s.
Proof.
  intros F Hin. rewrite forallb_forall in F. specialize (F c Hin).
  rewrite N.eqb_refl in F. discriminate F.
Qed.

Section RoundTrip.
Context `{Py.UnicodeData}.

Lemma extract_from_embedded n descs ty :
  Uploader.extract_from
    ({| Uploader.description := Some (Spec.embedded n); Uploader.description_type := ty |} :: descs)
  = Some n.
Proof.
  cbn [Uploader.extract_from Uploader.description default from_option id].
  replace (Py.contains _ (Spec.embedded n)) with true
    by (symmetry; apply contains_starts_with, starts_with_app).
  rewrite embedded_shape.
  rewrite split_first by (apply literal_lacks; vm_compute; reflexivity).
  cbn [lookup list_lookup].
  rewrite split_absent.
  2:{ intros Hin. apply in_app_or in Hin as [Hin|[E|Hin]].
      - revert Hin. apply str_of_int_lacks. lia.
      - discriminate E.
      - apply in_app_or in Hin as [Hin|Hin].
        + revert Hin. apply literal_lacks. vm_compute. reflexivity.
        + revert Hin. apply str_of_int_lacks. lia. }
  cbn [lookup list_lookup].
  rewrite split_first by (apply str_of_int_lacks; lia).
  cbn [lookup list_lookup].
  rewrite int_str_of_int. reflexivity.
Qed.

End RoundTrip.

(** C1: for every identifier [n], the metadata built for a book with that
    identifier carries one additional description, whose text holds [#n.];
    on a record carrying that description, [extract_gutenberg_id] reads the
    text between the first [#] and the following [.] and returns [n]. *)
Theorem identifier_round_trip `{Py.UnicodeData} pycountry self book (n : Z) record metadata :
  Uploader.meta_id book = Some n ->
  Uploader.rec_metadata record = Some metadata ->
  Uploader.rec_additional_descriptions metadata
  = Uploader.additional_descriptions (Uploader.create_metadata pycountry self book) ->
  Uploader.additional_descriptions (Uploader.create_metadata pycountry self book)
  = [ {| Uploader.description := Some (Spec.embedded n);
         Uploader.description_type := Py.str "other" |} ]
  /\ (exists pre post,
        Spec.embedded n = pre ++ Py.str "#" ++ Py.str_of_int n ++ Py.str "." ++ post
        /\ ~ In 35%N pre /\ ~ In 46%N (Py.str_of_int n))
  /\ Uploader.extract_gutenberg_id record = Some n.
Proof.
  intros Hid Hmeta Hdescs.
  assert (E : Uploader.additional_descriptions (Uploader.create_metadata pycountry self book)
              = [ {| Uploader.description := Some (Spec.embedded n);
                     Uploader.description_type := Py.str "other" |} ]).
  { unfold Uploader.create_metadata. cbn [Uploader.additional_descriptions].
    rewrite Hid. reflexivity. }
  split; [exact E|split].
  - eexists _, _. split; [apply embedded_shape|split].
    + apply literal_lacks. vm_compute. reflexivity.
    + apply str_of_int_lacks. lia.
  - unfold Uploader.extract_gutenberg_id. rewrite Hmeta, Hdescs, E.
    apply extract_from_embedded.
Qed.

Lemma identifier_round_trip_witness :
  Uploader.meta_id Samples.frankenstein = Some 84%Z
  /\ Uploader.rec_metadata Samples.published = Some Samples.published_metadata
  /\ Uploader.rec_additional_descriptions Samples.published_metadata
     = Uploader.additional_descriptions
         (Uploader.create_metadata None Samples.uploader Samples.frankenstein)
  /\ @Uploader.extract_gutenberg_id Py.ascii_digits_only Samples.published = Some 84%Z.
Proof.
  split; [reflexivity|split; [reflexivity|split; [reflexivity|]]].
  exact (proj2 (proj2 (@identifier_round_trip Py.ascii_digits_only None Samples.uploader
                         Samples.frankenstein 84 Samples.published
                         Samples.published_metadata eq_refl eq_refl eq_refl))).
Defined.

(** ** Names and languages in [create_metadata] *)

Lemma contains_char c (s : text) : Py.contains [c] s = true <-> In c s.
Proof.
  induction s as [|d s IH]; simpl.
  - split; [discriminate|intros []].
  - rewrite orb_true_iff, IH.
    destruct (N.eqb_spec c d) as [->|Hne]; simpl.
    + split; [now left|left; destruct s; reflexivity].
    + split; [intros [E|?]; [destruct s; discriminate E|now right]|].
      intros [E|?]; [congruence|now right].
Qed.

Lemma split_name_comma (family given : text) :
  ~ In Spec.comma family ->
  Uploader.split_name (family ++ Spec.comma :: given) = (Py.strip family, Py.strip given).
Proof.
  intros Hn. unfold Uploader.split_name.
  replace (Py.contains (Py.str ",") _) with true.
  - rewrite split_once_first by exact Hn. reflexivity.
  - symmetry. apply (contains_char 44%N). apply in_or_app. right. now left.
Qed.

Lemma split_name_plain (full_name : text) :
  ~ In Spec.comma full_name -> Uploader.split_name full_name = (full_name, []).
Proof.
  intros Hn. unfold Uploader.split_name.
  destruct (Py.contains (Py.str ",") full_name) eqn:E; [|reflexivity].
  apply (contains_char 44%N) in E. contradiction.
Qed.

Lemma default_set_if_truthy (s : text) : default [] (Uploader.set_if_truthy s) = s.
Proof. destruct s; reflexivity. Qed.

Lemma make_person_entry unknown role_id p :
  Spec.entry_of unknown role_id p (Uploader.make_person (Py.str unknown) role_id p).
Proof.
  unfold Spec.entry_of, Spec.name_parsed, Spec.name_of, Spec.family_of, Spec.given_of,
    Uploader.make_person.
  destruct (Uploader.split_name _) as [family given] eqn:E.
  cbn [Uploader.person_or_org Uploader.po_name Uploader.role Uploader.family_name
       Uploader.given_name].
  rewrite !default_set_if_truthy.
  split; [reflexivity|split; [reflexivity|split]].
  - intros f g Hname Hn. rewrite Hname, split_name_comma in E by exact Hn.
    injection E as <- <-. split; reflexivity.
  - intros Hn. rewrite split_name_plain in E by exact Hn.
    injection E as <- <-. split; reflexivity.
Qed.

Lemma Forall2_map_entry (R : Uploader.Person -> Uploader.Creator -> Prop) f l :
  (forall p, R p (f p)) -> Forall2 R l (map f l).
Proof. intros Hf. induction l; simpl; constructor; auto. Qed.

Lemma default_set_if_nonempty {A} (l : list A) : default [] (Uploader.set_if_nonempty l) = l.
Proof. destruct l; reflexivity. Qed.

(** C6: every author is one creator and every editor and translator one
    contributor (editors first), named after the person and with the names
    split on the first comma of the full name, both parts trimmed, or with
    the full name as family name and no given name when it has no comma; a
    book without authors has the one synthetic creator "Unknown Author",
    which has no given name. *)
Theorem create_metadata_names pycountry self book :
  let md := Uploader.create_metadata pycountry self book in
  (Uploader.meta_authors book <> [] ->
   Forall2 (Spec.entry_of "Unknown Author" None) (Uploader.meta_authors book)
     (Uploader.creators md))
  /\ (Uploader.meta_authors book = [] ->
      Uploader.creators md = [Uploader.unknown_author]
      /\ Spec.name_of Uploader.unknown_author = Py.str "Unknown Author"
      /\ Uploader.given_name (Uploader.person_or_org Uploader.unknown_author) = None)
  /\ exists editors translators,
       default [] (Uploader.contributors md) = editors ++ translators
       /\ Forall2 (Spec.entry_of "Unknown Editor" (Some (Py.str "editor")))
            (Uploader.meta_editors book) editors
       /\ Forall2 (Spec.entry_of "Unknown Translator" (Some (Py.str "other")))
            (Uploader.meta_translators book) translators.
Proof.
  intros md. subst md. unfold Uploader.create_metadata.
  cbn [Uploader.creators Uploader.contributors].
  rewrite default_set_if_nonempty.
  repeat split.
  - intros Hne. destruct (Uploader.meta_authors book) as [|p ps]; [contradiction|].
    apply (Forall2_map_entry _ (Uploader.make_person (Py.str "Unknown Author") None) (p :: ps)).
    intros q. apply make_person_entry.
  - rewrite H. reflexivity.
  - eexists _, _. split; [reflexivity|].
    split; apply Forall2_map_entry; intros q; apply make_person_entry.
Qed.

Lemma create_metadata_names_witness :
  Uploader.meta_authors Samples.frankenstein <> []
  /\ Forall2 (Spec.entry_of "Unknown Author" None)
       (Uploader.meta_authors Samples.frankenstein)
       (Uploader.creators
          (Uploader.create_metadata None Samples.uploader Samples.frankenstein)).
Proof.
  assert (Hne : Uploader.meta_authors Samples.frankenstein <> []) by discriminate.
  split; [exact Hne|].
  exact (proj1 (create_metadata_names None Samples.uploader Samples.frankenstein) Hne).
Defined.

Lemma convert_language_converted pycountry code :
  Spec.language_converted pycountry code (Uploader.convert_language pycountry code).
Proof.
  unfold Spec.language_converted, Uploader.convert_language.
  repeat split.
  - intros get alpha_3 -> Hlen Hget. apply Nat.eqb_eq in Hlen. rewrite Hlen, Hget. reflexivity.
  - intros get -> Hlen Hget. apply Nat.eqb_eq in Hlen. rewrite Hlen.
    destruct Hget as [-> |[-> | ->]]; reflexivity.
  - intros Hlen. apply Nat.eqb_neq in Hlen. rewrite Hlen. destruct pycountry; reflexivity.
  - intros ->. reflexivity.
Qed.

(** C7: the languages of the metadata are the codes of the book, one for
    one and in the same order, a two-letter code that the table knows
    replaced by its three-letter form and every other code (two letters
    without an entry, another length, or no table at all) left as it is. *)
Theorem create_metadata_languages pycountry self book :
  let out := default [] (Uploader.languages (Uploader.create_metadata pycountry self book)) in
  Forall2 (Spec.language_converted pycountry) (Uploader.meta_languages book) out
  /\ length out = length (Uploader.meta_languages book)
  /\ out = map (Uploader.convert_language pycountry) (Uploader.meta_languages book).
Proof.
  intros out.
  assert (E : out = map (Uploader.convert_language pycountry) (Uploader.meta_languages book)).
  { subst out. unfold Uploader.create_metadata. cbn [Uploader.languages].
    destruct (Uploader.meta_languages book); reflexivity. }
  rewrite E. clear E out. repeat split.
  - induction (Uploader.meta_languages book) as [|code codes IH]; simpl.
    + constructor.
    + constructor; [apply convert_language_converted|exact IH].
  - apply length_map.
Qed.

(** ** [fetch_metadata] *)

Section FetchMetadata.
Context {A : Type}.
Implicit Types (pages : list (list A * option text)) (books : list A).

Lemma fetch_loop_eq (script : list (Downloader.response A)) num_books books url :
  Downloader.fetch_loop script num_books books url =
  if ((Z.of_nat (length books) <? num_books)%Z && Downloader.url_truthy url)%bool then
    match script with
    | [] => None
    | Downloader.Failed _ :: _ => Some books
    | Downloader.Page results next :: script' =>
      Downloader.fetch_loop script' num_books (books ++ results) next
    end
  else Some books.
Proof. destruct script; reflexivity. Qed.

Lemma entries_cons p pages : Spec.entries (p :: pages) = fst p ++ Spec.entries pages.
Proof. reflexivity. Qed.

(** The loop up to a request that fails. *)
Lemma fetch_loop_failed pages : forall books url e rest num_books,
  Downloader.url_truthy url = true ->
  Forall Spec.has_next pages ->
  (Z.of_nat (length (books ++ Spec.entries pages)) < num_books)%Z ->
  Downloader.fetch_loop (Spec.served pages ++ Downloader.Failed e :: rest) num_books books url
  = Some (books ++ Spec.entries pages).
Proof.
  induction pages as [|p pages IH]; intros books url e rest num_books Hurl Hnext Hlen;
    rewrite fetch_loop_eq, Hurl;
    rewrite length_app in Hlen;
    replace (Z.of_nat (length books) <? num_books)%Z with true
      by (symmetry; apply Z.ltb_lt; lia);
    simpl.
  - unfold Spec.entries. simpl. rewrite app_nil_r. reflexivity.
  - inversion Hnext as [|? ? Hp Hps]; subst.
    rewrite entries_cons, app_assoc. apply IH; [exact Hp|exact Hps|].
    rewrite entries_cons, length_app in Hlen. rewrite !length_app. lia.
Qed.

Lemma firstn_app_le (n : nat) (l1 l2 : list A) :
  (n <= length l1)%nat -> firstn n (l1 ++ l2) = firstn n l1.
Proof.
  intros Hn. rewrite firstn_app. replace (n - length l1)%nat with O by lia.
  simpl. apply app_nil_r.
Qed.

Lemma linked_cons p q pages :
  Spec.linked (p :: q :: pages) -> Spec.has_next p /\ Spec.linked (q :: pages).
Proof. unfold Spec.linked. intros F. inversion F; subst. split; assumption. Qed.

(** The loop on pages that hold enough entries. *)
Lemma fetch_loop_enough pages : forall books url rest num_books,
  ((Z.of_nat (length books) < num_books)%Z -> Downloader.url_truthy url = true) ->
  Spec.linked pages ->
  (num_books <= Z.of_nat (length (books ++ Spec.entries pages)))%Z ->
  exists r,
    Downloader.fetch_loop (Spec.served pages ++ rest) num_books books url = Some r
    /\ firstn (Z.to_nat num_books) r
       = firstn (Z.to_nat num_books) (books ++ Spec.entries pages).
Proof.
  induction pages as [|p pages IH]; intros books url rest num_books Hurl Hlinked Hlen;
    rewrite fetch_loop_eq.
  - unfold Spec.entries in *. simpl in Hlen. rewrite app_nil_r in Hlen.
    replace (Z.of_nat (length books) <? num_books)%Z with false
      by (symmetry; apply Z.ltb_ge; lia).
    simpl. exists books. split; [reflexivity|]. simpl. rewrite app_nil_r. reflexivity.
  - destruct (Z.ltb_spec (Z.of_nat (length books)) num_books) as [Hshort|Hfull].
    + rewrite (Hurl Hshort). simpl.
      rewrite entries_cons, app_assoc. rewrite entries_cons, app_assoc in Hlen.
      apply IH; [|destruct pages; [constructor|apply (linked_cons _ _ _ Hlinked)]|exact Hlen].
      intros Hshort'. destruct pages as [|q pages].
      * unfold Spec.entries in Hlen. simpl in Hlen. rewrite app_nil_r in Hlen. lia.
      * apply (linked_cons _ _ _ Hlinked).
    + simpl. exists books. split; [reflexivity|].
      symmetry. apply firstn_app_le. lia.
Qed.

(** A script with a failure in it always ends the loop. *)
Lemma fetch_loop_returns (script : list (Downloader.response A)) :
  forall e rest num_books books url,
  is_Some (Downloader.fetch_loop (script ++ Downloader.Failed e :: rest) num_books books url).
Proof.
  induction script as [|[e'|results next] script IH]; intros e rest num_books books url;
    rewrite fetch_loop_eq;
    destruct (_ && _)%bool; simpl; eauto.
Qed.

(** The loop on pages of which the last reports no next page. *)
Lemma fetch_loop_closed pages : forall p books url rest num_books,
  Downloader.url_truthy url = true ->
  Spec.linked (p :: pages) ->
  (forall d, Downloader.url_truthy (snd (List.last (p :: pages) d)) = false) ->
  exists r,
    Downloader.fetch_loop (Spec.served (p :: pages) ++ rest) num_books books url = Some r
    /\ firstn (Z.to_nat num_books) r
       = firstn (Z.to_nat num_books) (books ++ Spec.entries (p :: pages)).
Proof.
  induction pages as [|q pages IH]; intros p books url rest num_books Hurl Hlinked Hlast;
    rewrite fetch_loop_eq, Hurl;
    (destruct (Z.ltb_spec (Z.of_nat (length books)) num_books) as [Hshort|Hfull]; simpl;
     [|exists books; split; [reflexivity|symmetry; apply firstn_app_le; lia]]).
  - rewrite fetch_loop_eq. simpl in Hlast. rewrite (Hlast p), andb_false_r.
    exists (books ++ fst p). split; [reflexivity|].
    unfold Spec.entries. simpl. rewrite app_nil_r. reflexivity.
  - rewrite entries_cons, app_assoc.
    apply (IH q); [apply (linked_cons _ _ _ Hlinked)|apply (linked_cons _ _ _ Hlinked)|].
    intros d. exact (Hlast d).
Qed.

End FetchMetadata.

Lemma slice_to_firstn {A} (k : Z) (l : list A) :
  (0 <= k)%Z -> Py.slice_to k l = firstn (Z.to_nat k) l.
Proof. intros Hk. unfold Py.slice_to. rewrite (proj2 (Z.leb_le 0 k) Hk). reflexivity. Qed.

Lemma first_url_truthy language :
  Downloader.url_truthy
    (Some (Downloader.GUTENDEX_API ++ Py.str "?languages=" ++ language)) = true.
Proof. reflexivity. Qed.

(** C4: when the pages before the Nth are served, each with a link to the
    next and together with fewer entries than requested, and the request for
    the Nth page fails, [fetch_metadata] returns the entries of pages
    1..N-1 in order: a result, not an exception. *)
Theorem fetch_metadata_partial_failure {A} (pages : list (list A * option text))
    (e : Downloader.page_error) (rest : list (Downloader.response A))
    (num_books : Z) (language : text) :
  Forall Spec.has_next pages ->
  (Z.of_nat (length (Spec.entries pages)) < num_books)%Z ->
  Downloader.fetch_metadata (Spec.served pages ++ Downloader.Failed e :: rest)
    num_books language
  = Some (Spec.entries pages).
Proof.
  intros Hnext Hlen. unfold Downloader.fetch_metadata.
  rewrite (fetch_loop_failed pages [] _ e rest num_books
             (first_url_truthy language) Hnext Hlen).
  simpl. rewrite slice_to_firstn by lia.
  rewrite firstn_all2 by lia. reflexivity.
Qed.

(** Whatever was served before it, a failed request ends [fetch_metadata]
    with a result. *)
Lemma fetch_metadata_returns_on_failure {A} (script : list (Downloader.response A))
    e rest num_books language :
  is_Some (Downloader.fetch_metadata (script ++ Downloader.Failed e :: rest)
             num_books language).
Proof.
  unfold Downloader.fetch_metadata.
  destruct (fetch_loop_returns script e rest num_books []
              (Some (Downloader.GUTENDEX_API ++ Py.str "?languages=" ++ language)))
    as [books ->].
  eexists. reflexivity.
Qed.

Lemma fetch_metadata_partial_failure_witness :
  Forall Spec.has_next Samples.two_pages
  /\ (Z.of_nat (length (Spec.entries Samples.two_pages)) < 10)%Z
  /\ Downloader.fetch_metadata
       (Spec.served Samples.two_pages ++ [Downloader.Failed Downloader.Transport])
       10 (Py.str "en")
     = Some [1; 2; 3; 4]%nat.
Proof.
  assert (Hnext : Forall Spec.has_next Samples.two_pages) by (repeat constructor).
  assert (Hlen : (Z.of_nat (length (Spec.entries Samples.two_pages)) < 10)%Z)
    by (vm_compute; reflexivity).
  split; [exact Hnext|split; [exact Hlen|]].
  exact (fetch_metadata_partial_failure Samples.two_pages Downloader.Transport []
           10 (Py.str "en") Hnext Hlen).
Defined.

(** C5: on pages linked one to the next, when they hold at least [k]
    entries or when the last of them reports no next page, [fetch_metadata]
    returns the first [k] entries in page order, whatever the last page
    fetched holds beyond them; with at least [k] entries these are exactly
    [k]. *)
Theorem fetch_metadata_trims {A} (pages : list (list A * option text))
    (rest : list (Downloader.response A)) (k : Z) (language : text) :
  (0 <= k)%Z ->
  Spec.linked pages ->
  (k <= Z.of_nat (length (Spec.entries pages)))%Z \/ Spec.closed pages ->
  Downloader.fetch_metadata (Spec.served pages ++ rest) k language
  = Some (firstn (Z.to_nat k) (Spec.entries pages))
  /\ ((k <= Z.of_nat (length (Spec.entries pages)))%Z ->
      Z.of_nat (length (firstn (Z.to_nat k) (Spec.entries pages))) = k).
Proof.
  intros Hk Hlinked Hcase. split.
  - unfold Downloader.fetch_metadata.
    assert (Hloop : exists r,
               Downloader.fetch_loop (Spec.served pages ++ rest) k []
                 (Some (Downloader.GUTENDEX_API ++ Py.str "?languages=" ++ language))
               = Some r
               /\ firstn (Z.to_nat k) r = firstn (Z.to_nat k) ([] ++ Spec.entries pages)).
    { destruct Hcase as [Henough|(pages' & p & -> & Hp)].
      - apply fetch_loop_enough; [intros _; apply first_url_truthy|exact Hlinked|exact Henough].
      - destruct pages' as [|p' pages'].
        + apply (fetch_loop_closed [] p); [apply first_url_truthy|exact Hlinked|].
          intros d. exact Hp.
        + apply (fetch_loop_closed (pages' ++ [p]) p');
            [apply first_url_truthy|exact Hlinked|].
          intros d. change (p' :: pages' ++ [p]) with ((p' :: pages') ++ [p]).
          rewrite last_last. exact Hp. }
    destruct Hloop as (r & -> & Hr). simpl. rewrite slice_to_firstn by exact Hk.
    rewrite Hr. reflexivity.
  - intros Henough. rewrite length_firstn. lia.
Qed.

Lemma fetch_metadata_trims_witness :
  (0 <= 3)%Z
  /\ Spec.linked Samples.two_pages
  /\ (3 <= Z.of_nat (length (Spec.entries Samples.two_pages)))%Z
  /\ Downloader.fetch_metadata (Spec.served Samples.two_pages ++ []) 3 (Py.str "en")
     = Some [1; 2; 3]%nat.
Proof.
  assert (Hk : (0 <= 3)%Z) by lia.
  assert (Hlinked : Spec.linked Samples.two_pages) by (repeat constructor).
  assert (Hlen : (3 <= Z.of_nat (length (Spec.entries Samples.two_pages)))%Z)
    by (vm_compute; discriminate).
  split; [exact Hk|split; [exact Hlinked|split; [exact Hlen|]]].
  exact (proj1 (fetch_metadata_trims Samples.two_pages [] 3 (Py.str "en")
                  Hk Hlinked (or_introl Hlen))).
Defined.

(** ** The matcher *)

Lemma match_here_any p (s : text) :
  Re.match_here (Re.AnyPlus :: p) s =
  match s with
  | [] => None
  | c :: s' =>
    if (c =? 10)%N then None
    else match Re.match_here (Re.AnyPlus :: p) s' with
         | Some n => Some (S n)
         | None => option_map S (Re.match_here p s')
         end
  end.
Proof. destruct s; reflexivity. Qed.

Lemma matches_any_inv p (x : text) :
  Spec.matches (Re.AnyPlus :: p) x ->
  exists u w, x = u ++ w /\ u <> [] /\ Forall (fun c => c <> 10%N) u /\ Spec.matches p w.
Proof. inversion 1; subst. eexists _, _. repeat split; eauto. Qed.

(** A match that the matcher finds is a match. *)
Lemma match_here_sound p : forall (s : text) n,
  Re.match_here p s = Some n ->
  (n <= length s)%nat /\ Spec.matches p (firstn n s).
Proof.
  induction p as [|[a|] p IH]; intros s n.
  - simpl. intros [= <-]. split; [lia|constructor].
  - simpl. destruct s as [|c s]; [discriminate|].
    destruct (Re.lit_matches a c) eqn:Ha; [|discriminate].
    destruct (Re.match_here p s) as [m|] eqn:Hm; [|discriminate].
    intros [= <-]. destruct (IH s m Hm) as [Hle Hmatch].
    simpl. split; [lia|]. constructor; assumption.
  - revert n. induction s as [|c s IHs]; intros n; rewrite match_here_any; [discriminate|].
    destruct (N.eqb_spec c 10) as [|Hc]; [discriminate|].
    destruct (Re.match_here (Re.AnyPlus :: p) s) as [m|] eqn:Hmore.
    + intros [= <-]. destruct (IHs m eq_refl) as [Hle Hmatch].
      simpl. split; [lia|].
      destruct (matches_any_inv _ _ Hmatch) as (u & w & -> & Hu & Hnl & Hw).
      apply (Spec.matches_any p (c :: u) w); [discriminate| |exact Hw].
      constructor; assumption.
    + destruct (Re.match_here p s) as [m|] eqn:Hm; [|discriminate].
      intros [= <-]. destruct (IH s m Hm) as [Hle Hmatch].
      simpl. split; [lia|].
      apply (Spec.matches_any p [c] (firstn m s)); [discriminate| |exact Hmatch].
      constructor; [exact Hc|constructor].
Qed.

(** Where the pattern matches, the matcher finds a match. *)
Lemma match_here_complete p (w : text) :
  Spec.matches p w -> forall post, is_Some (Re.match_here p (w ++ post)).
Proof.
  induction 1 as [|a c p w Ha _ IH|p u w Hu Hnl _ IH]; intros post.
  - simpl. eexists. reflexivity.
  - simpl. rewrite Ha. destruct (IH post) as [n ->]. eexists. reflexivity.
  - induction Hnl as [|c u Hc Hnl IHu]; [contradiction|].
    rewrite <- app_assoc. cbn [app]. rewrite match_here_any.
    destruct (N.eqb_spec c 10) as [|_]; [contradiction|].
    destruct u as [|c' u].
    + cbn [app]. destruct (Re.match_here (Re.AnyPlus :: p) (w ++ post)); [eexists; reflexivity|].
      destruct (IH post) as [n ->]. eexists. reflexivity.
    + rewrite <- app_assoc in IHu. destruct (IHu ltac:(discriminate)) as [n ->].
      eexists. reflexivity.
Qed.

Lemma search_from_some p : forall (s : text) off a b,
  Re.search_from p off s = Some (a, b) ->
  exists i n,
    a = (off + i)%nat /\ b = (a + n)%nat /\ (i <= length s)%nat
    /\ Re.match_here p (skipn i s) = Some n
    /\ forall j, (j < i)%nat -> Re.match_here p (skipn j s) = None.
Proof.
  induction s as [|c s IH]; intros off a b; simpl.
  - destruct (Re.match_here p []) as [n|] eqn:Hn; [|discriminate].
    intros [= <- <-]. exists O, n. repeat split; try exact Hn; simpl; try lia.
  - destruct (Re.match_here p (c :: s)) as [n|] eqn:Hn.
    + intros [= <- <-]. exists O, n. repeat split; try exact Hn; simpl; try lia.
    + intros Hs. destruct (IH _ _ _ Hs) as (i & n & -> & -> & Hi & Hm & Hbefore).
      exists (S i), n. repeat split; try exact Hm; simpl; try lia.
      intros [|j] Hj; [exact Hn|]. apply Hbefore. lia.
Qed.

Lemma search_from_none p : forall (s : text) off,
  Re.search_from p off s = None ->
  forall i, (i <= length s)%nat -> Re.match_here p (skipn i s) = None.
Proof.
  induction s as [|c s IH]; intros off; simpl.
  - destruct (Re.match_here p []) eqn:Hn; [discriminate|].
    intros _ [|i] Hi; [exact Hn|lia].
  - destruct (Re.match_here p (c :: s)) eqn:Hn; [discriminate|].
    intros Hs [|i] Hi; [exact Hn|]. apply (IH _ Hs). lia.
Qed.

Lemma skipn_length_app {A} (pre l : list A) : skipn (length pre) (pre ++ l) = l.
Proof. induction pre; simpl; auto. Qed.

(** [re.search] finds nothing exactly when the pattern occurs nowhere. *)
Lemma search_none_iff p (s : text) : Re.search p s = None <-> ~ Spec.occurs p s.
Proof.
  split.
  - intros Hs (pre & w & post & -> & Hw).
    pose proof (search_from_none p _ _ Hs (length pre)) as Hnone.
    rewrite skipn_length_app in Hnone.
    destruct (match_here_complete p w Hw post) as [n Hn].
    rewrite Hnone in Hn by (rewrite length_app; lia). discriminate Hn.
  - intros Hocc. destruct (Re.search p s) as [[a b]|] eqn:Hs; [|reflexivity].
    exfalso. apply Hocc.
    destruct (search_from_some p _ _ _ _ Hs) as (i & n & _ & _ & Hi & Hm & _).
    destruct (match_here_sound p _ _ Hm) as [Hn Hmatch].
    exists (firstn i s), (firstn n (skipn i s)), (skipn n (skipn i s)).
    split; [|exact Hmatch]. rewrite !firstn_skipn. reflexivity.
Qed.

(** What [re.search] returns: the offsets of a match of the pattern, within
    the text, that starts at the first offset where it can match. *)
Lemma search_some p (s : text) a b :
  Re.search p s = Some (a, b) ->
  (a <= b <= length s)%nat
  /\ Spec.matches p (Py.slice a b s)
  /\ forall pre w post, s = pre ++ w ++ post -> Spec.matches p w -> (a <= length pre)%nat.
Proof.
  intros Hs. destruct (search_from_some p _ _ _ _ Hs) as (i & n & -> & -> & Hi & Hm & Hbefore).
  simpl. destruct (match_here_sound p _ _ Hm) as [Hn Hmatch].
  rewrite length_skipn in Hn. repeat split; [lia|lia| |].
  - unfold Py.slice. rewrite <- firstn_skipn_comm. exact Hmatch.
  - intros pre w post -> Hw.
    destruct (Nat.le_gt_cases i (length pre)) as [|Hlt]; [assumption|].
    pose proof (Hbefore _ Hlt) as Hnone. rewrite skipn_length_app in Hnone.
    destruct (match_here_complete p w Hw post) as [m Hm']. congruence.
Qed.

(** ** [strip_gutenberg_headers] *)

Lemma slice_infix {A} (a b : nat) (l : list A) :
  exists pre post, l = pre ++ Py.slice a b l ++ post.
Proof.
  exists (firstn a (firstn b l)), (skipn b l).
  unfold Py.slice. rewrite app_assoc, !firstn_skipn. reflexivity.
Qed.

Lemma search_some_occurs p (s : text) m : Re.search p s = Some m -> Spec.occurs p s.
Proof.
  destruct m as [a b]. intros Hs. apply search_some in Hs as (_ & Hm & _).
  destruct (slice_infix a b s) as (pre & post & E).
  exists pre, (Py.slice a b s), post. split; assumption.
Qed.

Lemma first_match_spec markers (s : text) :
  match Downloader.first_match markers s with
  | Some m => Spec.first_matching markers s m
  | None => Spec.none_matching markers s
  end.
Proof.
  induction markers as [|marker markers IH]; simpl.
  - intros marker [].
  - destruct (Re.search marker s) as [m|] eqn:Hs.
    + exists O, marker. split; [reflexivity|split; [exact Hs|]].
      intros j marker' Hj. lia.
    + apply search_none_iff in Hs.
      destruct (Downloader.first_match markers s) as [m|].
      * destruct IH as (i & marker' & Hi & Hm & Hbefore).
        exists (S i), marker'. split; [exact Hi|split; [exact Hm|]].
        intros [|j] marker'' Hj Hlook.
        -- injection Hlook as <-. exact Hs.
        -- apply (Hbefore j); [lia|exact Hlook].
      * intros marker' [<-|Hin]; [exact Hs|apply IH; exact Hin].
Qed.

Lemma slice_whole {A} (l : list A) : Py.slice 0 (length l) l = l.
Proof. unfold Py.slice. simpl. apply firstn_all. Qed.

Lemma slice_empty {A} (a b : nat) (l : list A) : (b <= a)%nat -> Py.slice a b l = [].
Proof.
  intros Hba. unfold Py.slice. apply skipn_all2.
  pose proof (firstn_le_length b l). lia.
Qed.

(** C3: the start offset is the end of the match of the first start marker,
    in list order, that occurs in the text (case ignored), or 0 when none
    occurs; the end offset is, independently, the start of the match of the
    first end marker that occurs, or the length of the text; the result is
    the text between the two offsets, trimmed.  A text where no marker
    occurs comes back whole, trimmed. *)
Theorem strip_gutenberg_headers_offsets (s : text) :
  Downloader.strip_gutenberg_headers s
  = Py.strip (Py.slice (Downloader.start_pos s) (Downloader.end_pos s) s)
  /\ ((exists m, Spec.first_matching Downloader.start_markers s m
                 /\ Downloader.start_pos s = snd m)
      \/ (Spec.none_matching Downloader.start_markers s /\ Downloader.start_pos s = O))
  /\ ((exists m, Spec.first_matching Downloader.end_markers s m
                 /\ Downloader.end_pos s = fst m)
      \/ (Spec.none_matching Downloader.end_markers s /\ Downloader.end_pos s = length s))
  /\ (Spec.none_matching (Downloader.start_markers ++ Downloader.end_markers) s ->
      Downloader.strip_gutenberg_headers s = Py.strip s).
Proof.
  pose proof (first_match_spec Downloader.start_markers s) as Hstart.
  pose proof (first_match_spec Downloader.end_markers s) as Hend.
  assert (Sstart :
    (exists m, Spec.first_matching Downloader.start_markers s m
               /\ Downloader.start_pos s = snd m)
    \/ (Spec.none_matching Downloader.start_markers s /\ Downloader.start_pos s = O)).
  { unfold Downloader.start_pos.
    destruct (Downloader.first_match Downloader.start_markers s) as [[a b]|];
      [left; exists (a, b)|right]; split; auto. }
  assert (Send :
    (exists m, Spec.first_matching Downloader.end_markers s m
               /\ Downloader.end_pos s = fst m)
    \/ (Spec.none_matching Downloader.end_markers s /\ Downloader.end_pos s = length s)).
  { unfold Downloader.end_pos.
    destruct (Downloader.first_match Downloader.end_markers s) as [[a b]|];
      [left; exists (a, b)|right]; split; auto. }
  split; [reflexivity|split; [exact Sstart|split; [exact Send|]]].
  intros Hnone. unfold Downloader.strip_gutenberg_headers.
  assert (Es : Downloader.start_pos s = O).
  { destruct Sstart as [(m & (i & marker & Hi & Hm & _) & _)|[_ E]]; [|exact E].
    exfalso. apply (Hnone marker).
    - apply in_or_app. left. apply list_elem_of_In, list_elem_of_lookup. eauto.
    - exact (search_some_occurs _ _ _ Hm). }
  assert (Ee : Downloader.end_pos s = length s).
  { destruct Send as [(m & (i & marker & Hi & Hm & _) & _)|[_ E]]; [|exact E].
    exfalso. apply (Hnone marker).
    - apply in_or_app. right. apply list_elem_of_In, list_elem_of_lookup. eauto.
    - exact (search_some_occurs _ _ _ Hm). }
  rewrite Es, Ee, slice_whole. reflexivity.
Qed.

Lemma strip_gutenberg_headers_offsets_witness :
  Spec.none_matching (Downloader.start_markers ++ Downloader.end_markers) Samples.plain_text
  /\ Downloader.strip_gutenberg_headers Samples.plain_text = Py.str "Call me Ishmael.".
Proof.
  assert (Hnone : Spec.none_matching (Downloader.start_markers ++ Downloader.end_markers)
                    Samples.plain_text).
  { intros marker Hin. apply search_none_iff.
    repeat (destruct Hin as [<-|Hin]; [vm_compute; reflexivity|]). destruct Hin. }
  split; [exact Hnone|].
  exact (proj2 (proj2 (proj2 (strip_gutenberg_headers_offsets Samples.plain_text))) Hnone).
Defined.

(** What stripping takes off is a run of stripped characters at each end,
    and what is left neither starts nor ends with one. *)
Lemma drop_while_split p (s : text) :
  exists lead, s = lead ++ Py.drop_while p s /\ Forall (fun c => p c = true) lead.
Proof.
  induction s as [|c s (lead & IH & F)]; simpl.
  - exists []. split; [reflexivity|constructor].
  - destruct (p c) eqn:E.
    + exists (c :: lead). split; [simpl; f_equal; exact IH|constructor; assumption].
    + exists []. split; [reflexivity|constructor].
Qed.

Lemma strip_by_split p (s : text) :
  exists lead trail,
    s = lead ++ Py.strip_by p s ++ trail
    /\ Forall (fun c => p c = true) lead /\ Forall (fun c => p c = true) trail.
Proof.
  unfold Py.strip_by, Py.rstrip_by, Py.lstrip_by.
  destruct (drop_while_split p s) as (lead & Hl & Fl).
  destruct (drop_while_split p (rev (Py.drop_while p s))) as (t & Ht & Ft).
  exists lead, (rev t). split; [|split; [exact Fl|apply Forall_rev; exact Ft]].
  rewrite <- rev_app_distr, <- Ht, rev_involutive. exact Hl.
Qed.

Lemma strip_by_trimmed p (s : text) :
  (forall c r, Py.strip_by p s = c :: r -> p c = false)
  /\ (forall r c, Py.strip_by p s = r ++ [c] -> p c = false).
Proof. split; [apply strip_by_first|apply strip_by_last]. Qed.

Lemma slice_split {A} (a b : nat) (l : list A) :
  (a <= b <= length l)%nat ->
  exists pre post,
    l = pre ++ Py.slice a b l ++ post
    /\ length pre = a /\ length (pre ++ Py.slice a b l) = b.
Proof.
  intros Hab. exists (firstn a (firstn b l)), (skipn b l). unfold Py.slice.
  rewrite firstn_skipn. split; [|split].
  - rewrite app_assoc, !firstn_skipn. reflexivity.
  - rewrite !length_firstn. lia.
  - rewrite length_firstn. lia.
Qed.

Lemma first_match_bounds markers (s : text) a b :
  Downloader.first_match markers s = Some (a, b) -> (a <= b <= length s)%nat.
Proof.
  induction markers as [|marker markers IH]; simpl; [discriminate|].
  destruct (Re.search marker s) as [[a' b']|] eqn:Hs; [|exact IH].
  intros [= <- <-]. apply (search_some marker s a' b' Hs).
Qed.

Lemma end_pos_bound (s : text) : (Downloader.end_pos s <= length s)%nat.
Proof.
  unfold Downloader.end_pos.
  destruct (Downloader.first_match Downloader.end_markers s) as [[a b]|] eqn:E; [|lia].
  apply first_match_bounds in E. lia.
Qed.

(** C9: the result is a contiguous part of the text, the part between the
    two offsets without the whitespace around it: the text is some [pre],
    a run of whitespace, the result, a run of whitespace and some [post],
    where [pre] ends at the start offset and the second run at the end
    offset, and the result neither starts nor ends with whitespace.  It is
    empty when the end offset is at or before the start offset.  The
    function is total: searching, slicing and trimming have a result on
    every text. *)
Theorem strip_gutenberg_headers_substring (s : text) :
  let result := Downloader.strip_gutenberg_headers s in
  (exists pre lead trail post,
     s = pre ++ (lead ++ result ++ trail) ++ post
     /\ Spec.whitespace lead /\ Spec.whitespace trail
     /\ ((Downloader.start_pos s <= Downloader.end_pos s)%nat ->
         length pre = Downloader.start_pos s
         /\ length (pre ++ lead ++ result ++ trail) = Downloader.end_pos s))
  /\ ((forall c r, result = c :: r -> Py.is_space c = false)
      /\ (forall r c, result = r ++ [c] -> Py.is_space c = false))
  /\ ((Downloader.end_pos s <= Downloader.start_pos s)%nat -> result = []).
Proof.
  intros result. subst result. unfold Downloader.strip_gutenberg_headers, Py.strip.
  set (body := Py.slice (Downloader.start_pos s) (Downloader.end_pos s) s).
  destruct (strip_by_split Py.is_space body) as (lead & trail & Hb & Fl & Ft).
  split; [|split].
  - destruct (le_lt_dec (Downloader.start_pos s) (Downloader.end_pos s)) as [Hle|Hlt].
    + destruct (slice_split (Downloader.start_pos s) (Downloader.end_pos s) s)
        as (pre & post & Hs & Hpre & Hlen); [pose proof (end_pos_bound s); lia|].
      fold body in Hs, Hlen.
      exists pre, lead, trail, post. rewrite <- Hb.
      split; [exact Hs|split; [exact Fl|split; [exact Ft|]]].
      intros _. split; [exact Hpre|exact Hlen].
    + destruct (slice_infix (Downloader.start_pos s) (Downloader.end_pos s) s)
        as (pre & post & Hs).
      fold body in Hs.
      exists pre, lead, trail, post. rewrite <- Hb.
      split; [exact Hs|split; [exact Fl|split; [exact Ft|]]].
      intros Hle. lia.
  - apply strip_by_trimmed.
  - intros Hle. subst body. rewrite slice_empty by exact Hle. reflexivity.
Qed.

Lemma strip_gutenberg_headers_substring_witness :
  ((Downloader.start_pos Samples.between_markers
    <= Downloader.end_pos Samples.between_markers)%nat
   /\ exists pre lead trail post,
        Samples.between_markers
        = pre ++ (lead ++ Py.str "Call me Ishmael." ++ trail) ++ post
        /\ Spec.whitespace lead /\ Spec.whitespace trail
        /\ length pre = Downloader.start_pos Samples.between_markers)
  /\ ((Downloader.end_pos Samples.end_before_start
       <= Downloader.start_pos Samples.end_before_start)%nat
      /\ Downloader.strip_gutenberg_headers Samples.end_before_start = []).
Proof.
  assert (Hge : (Downloader.start_pos Samples.between_markers
                 <= Downloader.end_pos Samples.between_markers)%nat)
    by (vm_compute; lia).
  assert (Hle : (Downloader.end_pos Samples.end_before_start
                 <= Downloader.start_pos Samples.end_before_start)%nat)
    by (vm_compute; lia).
  split; split; [exact Hge| |exact Hle|].
  - destruct (proj1 (strip_gutenberg_headers_substring Samples.between_markers))
      as (pre & lead & trail & post & Hs & Fl & Ft & Hoff).
    exists pre, lead, trail, post.
    split; [exact Hs|split; [exact Fl|split; [exact Ft|exact (proj1 (Hoff Hge))]]].
  - exact (proj2 (proj2 (strip_gutenberg_headers_substring Samples.end_before_start)) Hle).
Defined.

(** ** [download_book_text] *)

Lemma utf8_decode_error content e :
  Py.utf8_decode content = inl e -> e = Py.UnicodeDecodeError.
Proof. unfold Py.utf8_decode. destruct (Py.utf8_decode_N _); congruence. Qed.

(** C8: decoding always gives a string, the UTF-8 reading of the bytes or,
    when they are not UTF-8, their latin-1 reading; so a book whose bytes
    were fetched has a text, and a book has no text only when the request
    raised. *)
Theorem download_book_text_decoding (get : text -> Downloader.http_result) (book_id : Z) :
  (forall content, exists s,
      Downloader.decode content = inr s
      /\ (Py.utf8_decode content = inr s
          \/ Py.utf8_decode content = inl Py.UnicodeDecodeError
             /\ s = map Byte.to_N content))
  /\ (forall content,
      get (Downloader.GUTENBERG_TEXT_URL book_id) = inr content ->
      exists s, Downloader.decode content = inr s
                /\ Downloader.download_book_text get book_id
                   = Some (Downloader.strip_gutenberg_headers s))
  /\ (Downloader.download_book_text get book_id = None <->
      exists e, get (Downloader.GUTENBERG_TEXT_URL book_id) = inl e).
Proof.
  assert (D : forall content, exists s,
      Downloader.decode content = inr s
      /\ (Py.utf8_decode content = inr s
          \/ Py.utf8_decode content = inl Py.UnicodeDecodeError
             /\ s = map Byte.to_N content)).
  { intros content. unfold Downloader.decode.
    destruct (Py.utf8_decode content) as [e|s] eqn:E.
    - rewrite (utf8_decode_error _ _ E). exists (map Byte.to_N content).
      split; [reflexivity|right; split; [|reflexivity]].
      rewrite <- (utf8_decode_error _ _ E). reflexivity.
    - exists s. split; [reflexivity|left; reflexivity]. }
  split; [exact D|split].
  - intros content Hget. destruct (D content) as (s & Hs & _).
    exists s. split; [exact Hs|].
    unfold Downloader.download_book_text. rewrite Hget, Hs. reflexivity.
  - unfold Downloader.download_book_text.
    destruct (get (Downloader.GUTENBERG_TEXT_URL book_id)) as [e|content].
    + split; [intros _; exists e; reflexivity|reflexivity].
    + destruct (D content) as (s & -> & _).
      split; [discriminate|intros [e He]; discriminate He].
Qed.

Lemma download_book_text_decoding_witness :
  Samples.latin1_server (Downloader.GUTENBERG_TEXT_URL 84) = inr [Byte.xe9]
  /\ exists s, Downloader.decode [Byte.xe9] = inr s
               /\ Downloader.download_book_text Samples.latin1_server 84
                  = Some (Downloader.strip_gutenberg_headers s).
Proof.
  split; [reflexivity|].
  exact (proj1 (proj2 (download_book_text_decoding Samples.latin1_server 84))
           [Byte.xe9] eq_refl).
Defined.

(** ** [upload_all] and [update_all] *)

Lemma successes_cons ok oks :
  Spec.successes (ok :: oks) = if ok then S (Spec.successes oks) else Spec.successes oks.
Proof. destruct ok; reflexivity. Qed.

Lemma failures_cons {X} (x : X) items ok oks :
  Spec.failures (x :: items) (ok :: oks)
  = if ok then Spec.failures items oks else x :: Spec.failures items oks.
Proof. destruct ok; reflexivity. Qed.

Lemma extended_nil {X F} (summary : Uploader.Summary F) (failure : X -> F) :
  Spec.extended summary failure [] [] = summary.
Proof.
  destruct summary as [n l]. unfold Spec.extended. simpl.
  rewrite Nat.add_0_r, app_nil_r. reflexivity.
Qed.

Lemma extended_cons {X F} (summary : Uploader.Summary F) (failure : X -> F) x items ok oks :
  Spec.extended (Uploader.record_outcome summary ok (failure x)) failure items oks
  = Spec.extended summary failure (x :: items) (ok :: oks).
Proof.
  unfold Spec.extended. rewrite successes_cons, failures_cons.
  destruct ok; simpl; f_equal; try lia.
  rewrite <- app_assoc. reflexivity.
Qed.

Lemma calls_length {X World} (worker : X -> World -> Uploader.run bool * World)
    items w oks w' :
  Spec.calls worker items w oks w' -> length oks = length items.
Proof. induction 1; simpl; congruence. Qed.

(** Every run of a worker over a list is of one of two kinds: all calls
    return, or one raises after those before it returned. *)
Lemma calls_or_raises {X World} (worker : X -> World -> Uploader.run bool * World)
    items : forall w,
  (exists oks w', Spec.calls worker items w oks w')
  \/ (exists pre x post oks w1 w2,
        items = pre ++ x :: post
        /\ Spec.calls worker pre w oks w1 /\ worker x w1 = (Uploader.Raised, w2)).
Proof.
  induction items as [|x items IH]; intros w.
  - left. exists [], w. constructor.
  - destruct (worker x w) as [[|ok] w1] eqn:Hx.
    + right. exists [], x, items, [], w, w1. split; [reflexivity|split; [constructor|exact Hx]].
    + destruct (IH w1) as [(oks & w' & Hc)|(pre & y & post & oks & w2 & w3 & -> & Hc & Hy)].
      * left. exists (ok :: oks), w'. econstructor; eassumption.
      * right. exists (x :: pre), y, post, (ok :: oks), w2, w3.
        split; [reflexivity|split; [econstructor; eassumption|exact Hy]].
Qed.

Section Batches.
Context {File World : Type} (stem : File -> text).
Variable upload_book : File -> World -> Uploader.run bool * World.
Variable update_record : Uploader.InvenioRecord -> World -> Uploader.run bool * World.

Lemma upload_loop_calls files w oks w' :
  Spec.calls upload_book files w oks w' ->
  forall summary,
  Uploader.upload_loop stem upload_book files summary w
  = (Uploader.Returned (Spec.extended summary stem files oks), w').
Proof.
  induction 1 as [w|x items w ok w1 oks w' Hx _ IH]; intros summary; simpl.
  - rewrite extended_nil. reflexivity.
  - rewrite Hx, IH, extended_cons. reflexivity.
Qed.

Lemma upload_loop_raises pre x post w oks w1 w2 :
  Spec.calls upload_book pre w oks w1 ->
  upload_book x w1 = (Uploader.Raised, w2) ->
  forall summary,
  Uploader.upload_loop stem upload_book (pre ++ x :: post) summary w = (Uploader.Raised, w2).
Proof.
  intros Hc. induction Hc as [w|y items w ok w1' oks w' Hy _ IH]; intros Hx summary; simpl.
  - rewrite Hx. reflexivity.
  - rewrite Hy. apply IH. exact Hx.
Qed.

(** The files that [upload_all] hands to its loop. *)
Lemma upload_all_taken listing limit files w :
  Spec.taken listing limit files ->
  Uploader.upload_all stem upload_book (Some listing) limit w
  = Some (Uploader.upload_loop stem upload_book files
            {| Uploader.successful := 0; Uploader.failed := [] |} w).
Proof.
  intros [| |n Hn]; unfold Uploader.upload_all; try reflexivity.
  unfold Py.truthy_int. replace (n =? 0)%Z with false by (symmetry; apply Z.eqb_neq; lia).
  cbn [negb]. rewrite slice_to_firstn by lia. reflexivity.
Qed.

(** The body of the loop of [update_all] over a list of records. *)
Lemma update_each_calls limit records w oks w' :
  Spec.calls update_record records w oks w' ->
  forall count summary,
  (Uploader.limit_truthy limit = false
   \/ (count + Z.of_nat (length records) <= default 0 limit)%Z) ->
  Spec.for_each (Uploader.update_body update_record limit) records (count, summary) w
  = (Uploader.Next ((count + Z.of_nat (length records))%Z,
                    Spec.extended summary Uploader.failure_entry records oks), w').
Proof.
  induction 1 as [w|x items w ok w1 oks w' Hx _ IH]; intros count summary Hlim.
  - simpl. rewrite Z.add_0_r, extended_nil. reflexivity.
  - cbn [Spec.for_each]. unfold Uploader.update_body at 1. cbn [fst snd].
    replace (Uploader.limit_truthy limit && (default 0 limit <? count + 1)%Z)%bool
      with false.
    2:{ destruct Hlim as [->|Hle]; [reflexivity|]. symmetry.
        apply andb_false_iff. right. apply Z.ltb_ge. simpl length in Hle. lia. }
    rewrite Hx, IH, extended_cons.
    + do 3 f_equal. simpl length. lia.
    + destruct Hlim as [Hl|Hle]; [left; exact Hl|right]. simpl length in Hle. lia.
Qed.

Lemma update_each_raises limit pre x post w oks w1 w2 :
  Spec.calls update_record pre w oks w1 ->
  update_record x w1 = (Uploader.Raised, w2) ->
  forall count summary,
  (Uploader.limit_truthy limit = false
   \/ (count + Z.of_nat (length pre) + 1 <= default 0 limit)%Z) ->
  Spec.for_each (Uploader.update_body update_record limit) (pre ++ x :: post)
    (count, summary) w
  = (Uploader.Raise, w2).
Proof.
  intros Hc. induction Hc as [w|y items w ok w1' oks w' Hy _ IH];
    intros Hx count summary Hlim; cbn [app Spec.for_each];
    unfold Uploader.update_body at 1; cbn [fst snd];
    (replace (Uploader.limit_truthy limit && (default 0 limit <? count + 1)%Z)%bool
       with false;
     [|destruct Hlim as [->|Hle]; [reflexivity|]; symmetry;
       apply andb_false_iff; right; apply Z.ltb_ge; simpl length in Hle; lia]).
  - rewrite Hx. reflexivity.
  - rewrite Hy. apply IH; [exact Hx|].
    destruct Hlim as [Hl|Hle]; [left; exact Hl|right]. simpl length in Hle. lia.
Qed.

Lemma update_each_break n pre x post w oks w' :
  Spec.calls update_record pre w oks w' ->
  n <> 0%Z ->
  forall count summary,
  (count + Z.of_nat (length pre) = n)%Z ->
  Spec.for_each (Uploader.update_body update_record (Some n)) (pre ++ x :: post)
    (count, summary) w
  = (Uploader.Break ((n + 1)%Z, Spec.extended summary Uploader.failure_entry pre oks), w').
Proof.
  intros Hc Hn. induction Hc as [w|y items w ok w1' oks w' Hy _ IH];
    intros count summary Hcount; cbn [app Spec.for_each];
    unfold Uploader.update_body at 1;
    cbn [fst snd Uploader.limit_truthy default from_option id];
    unfold Py.truthy_int;
    (replace (n =? 0)%Z with false by (symmetry; apply Z.eqb_neq; exact Hn));
    cbn [negb andb].
  - simpl length in Hcount. replace (n <? count + 1)%Z with true by (symmetry; apply Z.ltb_lt; lia).
    rewrite extended_nil. do 3 f_equal. lia.
  - simpl length in Hcount.
    replace (n <? count + 1)%Z with false by (symmetry; apply Z.ltb_ge; lia).
    rewrite Hy, IH, extended_cons by lia. reflexivity.
Qed.

End Batches.

Section Generator.
Context {State World : Type}.
Variable body : Uploader.InvenioRecord -> State -> World -> Uploader.flow State * World.

Lemma for_each_app (a b : list Uploader.InvenioRecord) : forall s w,
  Spec.for_each body (a ++ b) s w
  = match Spec.for_each body a s w with
    | (Uploader.Next s', w') => Spec.for_each body b s' w'
    | ended => ended
    end.
Proof.
  induction a as [|x a IH]; intros s w; cbn [app Spec.for_each]; [reflexivity|].
  destruct (body x s w) as [[s1|s1|] w1]; [apply IH|reflexivity|reflexivity].
Qed.

(** The generator on the hits of a page is the loop over the records of
    this system among them. *)
Lemma yield_hits_for_each hits : forall s w,
  Uploader.yield_hits body hits s w
  = Spec.for_each body (List.filter Uploader.is_gutenberg hits) s w.
Proof.
  induction hits as [|r hits IH]; intros s w; cbn [Uploader.yield_hits List.filter];
    [reflexivity|].
  destruct (Uploader.is_gutenberg r); [|apply IH]. cbn [Spec.for_each].
  destruct (body r s w) as [[s1|s1|] w1]; [apply IH|reflexivity|reflexivity].
Qed.

Lemma matching_records_cons hits pages :
  Spec.matching_records (hits :: pages)
  = List.filter Uploader.is_gutenberg hits ++ Spec.matching_records pages.
Proof. unfold Spec.matching_records. cbn [concat]. apply List.filter_app. Qed.

(** The loop that draws from the generator, on pages with hits: the loop
    over their records; when it comes to their end, it goes on with what
    the repository serves next. *)
Lemma for_existing_records_pages pages tail :
  Forall (fun hits : list Uploader.InvenioRecord => hits <> []) pages ->
  forall s w,
  Uploader.for_existing_records body (map inr pages ++ tail) s w
  = match Spec.for_each body (Spec.matching_records pages) s w with
    | (Uploader.Next s', w') => Uploader.for_existing_records body tail s' w'
    | ended => Some ended
    end.
Proof.
  induction 1 as [|hits pages Hhits _ IH]; intros s w; [reflexivity|].
  cbn [map app Uploader.for_existing_records].
  destruct hits as [|r hits]; [contradiction|]. cbn [Py.truthy].
  rewrite yield_hits_for_each, matching_records_cons, for_each_app.
  destruct (Spec.for_each body (List.filter Uploader.is_gutenberg (r :: hits)) s w)
    as [[s1|s1|] w1]; [apply IH|reflexivity|reflexivity].
Qed.

(** On a listing that comes to its end, the loop is the loop over the
    records listed. *)
Lemma for_existing_records_listing pages stop rest s w :
  Forall (fun hits : list Uploader.InvenioRecord => hits <> []) pages ->
  Spec.ends_listing stop ->
  Uploader.for_existing_records body (map inr pages ++ stop :: rest) s w
  = Some (Spec.for_each body (Spec.matching_records pages) s w).
Proof.
  intros Hpages Hstop. rewrite for_existing_records_pages by exact Hpages.
  destruct (Spec.for_each body (Spec.matching_records pages) s w) as [[s1|s1|] w1];
    try reflexivity.
  destruct stop as [e|hits]; [reflexivity|]. simpl in Hstop. rewrite Hstop. reflexivity.
Qed.

End Generator.

(** The generator yields the records of this system of every page up to the
    response that ends the listing. *)
Lemma get_existing_records_pages pages stop rest :
  Forall (fun hits : list Uploader.InvenioRecord => hits <> []) pages ->
  Spec.ends_listing stop ->
  Uploader.get_existing_records (map inr pages ++ stop :: rest)
  = Some (Spec.matching_records pages).
Proof.
  intros Hpages Hstop. induction Hpages as [|hits pages Hhits _ IH]; simpl.
  - destruct stop as [e|hits]; [reflexivity|]. simpl in Hstop. rewrite Hstop. reflexivity.
  - destruct hits as [|r hits]; [contradiction|]. cbn [Py.truthy].
    rewrite IH. unfold Spec.matching_records. cbn [concat option_map].
    rewrite List.filter_app. reflexivity.
Qed.

Lemma firstn_short {A} (n : nat) (l pre post : list A) (x : A) :
  firstn n l = pre ++ x :: post ->
  l = pre ++ x :: (post ++ skipn n l) /\ (length pre + 1 <= n)%nat.
Proof.
  intros E. split.
  - rewrite <- (firstn_skipn n l) at 1. rewrite E, <- app_assoc. reflexivity.
  - pose proof (firstn_le_length n l) as _. pose proof (f_equal (@length A) E) as Hl.
    rewrite length_firstn, length_app in Hl. simpl in Hl. lia.
Qed.

Lemma firstn_long {A} (n : nat) (l : list A) :
  (n < length l)%nat -> exists x post, l = firstn n l ++ x :: post.
Proof.
  intros Hn. destruct (skipn n l) as [|x post] eqn:E.
  - pose proof (f_equal (@length A) E) as Hl. rewrite length_skipn in Hl. simpl in Hl. lia.
  - exists x, post. rewrite <- E, firstn_skipn. reflexivity.
Qed.

(** C10: a limit of 0 is no limit.  [upload_all(limit=0)] does what
    [upload_all()] does, and so for [update_all].  With no limit or a limit
    of 0 the batch is the batch over every metadata file of the sorted
    listing, over every record of this system that the repository lists,
    not over none; with a positive limit [n], over the first [n] of them.
    The batch calls the worker ([upload_book], [update_record]) on each
    item in turn, each call in the state that the call before left, and
    ends with the summary of the answers, or with the exception of the
    first call that raises, under any limit. *)
Theorem limit_zero_is_no_limit {File World : Type} (stem : File -> text)
    (upload_book : File -> World -> Uploader.run bool * World)
    (update_record : Uploader.InvenioRecord -> World -> Uploader.run bool * World)
    (listing : list File) (pages : list (list Uploader.InvenioRecord))
    (stop : Py.exn + list Uploader.InvenioRecord)
    (rest : list (Py.exn + list Uploader.InvenioRecord)) :
  Forall (fun hits : list Uploader.InvenioRecord => hits <> []) pages ->
  Spec.ends_listing stop ->
  let upload := Uploader.upload_all stem upload_book (Some listing) in
  let update := Uploader.update_all update_record (map inr pages ++ stop :: rest) in
  let records := Spec.matching_records pages in
  (forall w, upload (Some 0%Z) w = upload None w /\ update (Some 0%Z) w = update None w)
  /\ (forall limit files w,
        Spec.taken listing limit files ->
        exists out, Spec.batch upload_book stem files w out /\ upload limit w = Some out)
  /\ (forall limit files w,
        Spec.taken records limit files ->
        exists out,
          Spec.batch update_record Uploader.failure_entry files w out
          /\ update limit w = Some out).
Proof.
  intros Hpages Hstop upload update records. subst upload update.
  split; [|split].
  - intros w. split; reflexivity.
  - intros limit files w Htaken.
    rewrite (upload_all_taken stem upload_book listing limit files w Htaken).
    destruct (calls_or_raises upload_book files w)
      as [(oks & w' & Hc)|(pre & x & post & oks & w1 & w2 & Hfiles & Hc & Hx)].
    + exists (Uploader.Returned (Spec.report stem files oks), w').
      split; [constructor; exact Hc|].
      rewrite (upload_loop_calls stem upload_book files w oks w' Hc). reflexivity.
    + exists (Uploader.Raised, w2).
      split; [econstructor; eassumption|]. rewrite Hfiles.
      rewrite (upload_loop_raises stem upload_book pre x post w oks w1 w2 Hc Hx).
      reflexivity.
  - intros limit files w Htaken. unfold Uploader.update_all.
    rewrite for_existing_records_listing by assumption. fold records.
    destruct (calls_or_raises update_record files w)
      as [(oks & w' & Hc)|(pre & x & post & oks & w1 & w2 & Hfiles & Hc & Hx)].
    + exists (Uploader.Returned (Spec.report Uploader.failure_entry files oks), w').
      split; [constructor; exact Hc|].
      destruct Htaken as [| |n Hn].
      * rewrite (update_each_calls update_record None records w oks w' Hc)
          by (left; reflexivity).
        reflexivity.
      * rewrite (update_each_calls update_record (Some 0%Z) records w oks w' Hc)
          by (left; reflexivity).
        reflexivity.
      * destruct (le_lt_dec (length records) (Z.to_nat n)) as [Hshort|Hlong].
        -- rewrite firstn_all2 in Hc |- * by exact Hshort.
           rewrite (update_each_calls update_record (Some n) records w oks w' Hc)
             by (right; simpl; lia).
           reflexivity.
        -- destruct (firstn_long (Z.to_nat n) records Hlong) as (x & post & Hrec).
           remember (firstn (Z.to_nat n) records) as pre eqn:Hpre.
           assert (Hlen : length pre = Z.to_nat n)
             by (rewrite Hpre, length_firstn; lia).
           rewrite Hrec.
           rewrite (update_each_break update_record n pre x post w oks w' Hc) by lia.
           reflexivity.
    + exists (Uploader.Raised, w2).
      split; [econstructor; eassumption|].
      destruct Htaken as [| |n Hn].
      * rewrite Hfiles.
        rewrite (update_each_raises update_record None pre x post w oks w1 w2 Hc Hx)
          by (left; reflexivity).
        reflexivity.
      * rewrite Hfiles.
        rewrite (update_each_raises update_record (Some 0%Z) pre x post w oks w1 w2 Hc Hx)
          by (left; reflexivity).
        reflexivity.
      * destruct (firstn_short _ _ _ _ _ Hfiles) as [Hrec Hlen]. rewrite Hrec.
        rewrite (update_each_raises update_record (Some n) pre x _ w oks w1 w2 Hc Hx)
          by (right; simpl; lia).
        reflexivity.
Qed.

Lemma limit_zero_is_no_limit_witness :
  Forall (fun hits : list Uploader.InvenioRecord => hits <> [])
    [[Samples.published; Samples.foreign]; [Samples.published]]
  /\ Spec.ends_listing (inr [])
  /\ Spec.taken [Samples.published; Samples.published] (Some 0%Z)
       [Samples.published; Samples.published]
  /\ exists out,
       Spec.batch (Samples.logging (fun _ => true)) Uploader.failure_entry
         [Samples.published; Samples.published] [] out
       /\ Uploader.update_all (Samples.logging (fun _ => true))
            (map inr [[Samples.published; Samples.foreign]; [Samples.published]]
             ++ inr [] :: [])
            (Some 0%Z) []
          = Some out.
Proof.
  assert (Hpages : Forall (fun hits : list Uploader.InvenioRecord => hits <> [])
                     [[Samples.published; Samples.foreign]; [Samples.published]])
    by (repeat constructor; discriminate).
  assert (Hstop : Spec.ends_listing (inr [])) by reflexivity.
  assert (Htaken : Spec.taken [Samples.published; Samples.published] (Some 0%Z)
                     [Samples.published; Samples.published]) by constructor.
  split; [exact Hpages|split; [exact Hstop|split; [exact Htaken|]]].
  exact (proj2 (proj2
           (limit_zero_is_no_limit (fun n : nat => Py.str_of_int (Z.of_nat n))
              (fun _ w => (Uploader.Returned true, w)) (Samples.logging (fun _ => true))
              [1; 2; 3]%nat _ (inr []) [] Hpages Hstop))
           (Some 0%Z) _ [] Htaken).
Defined.

(** * Worked examples *)

(** The names of the specification. *)
Example split_name_doe :
  Uploader.split_name (Py.str "Doe, Jane") = (Py.str "Doe", Py.str "Jane").
Proof. vm_compute. reflexivity. Qed.

Example split_name_plato : Uploader.split_name (Py.str "Plato") = (Py.str "Plato", []).
Proof. vm_compute. reflexivity. Qed.

Example split_name_two_commas :
  Uploader.split_name (Py.str "King, Martin Luther, Jr.")
  = (Py.str "King", Py.str "Martin Luther, Jr.").
Proof. vm_compute. reflexivity. Qed.

Example creators_of_anonymous :
  Uploader.creators (Uploader.create_metadata None Samples.uploader Samples.anonymous)
  = [Uploader.unknown_author].
Proof. reflexivity. Qed.

Example contributors_of_frankenstein :
  option_map (map (fun c => (Spec.family_of c, Spec.given_of c, Uploader.role c)))
    (Uploader.contributors
       (Uploader.create_metadata None Samples.uploader Samples.frankenstein))
  = Some [ (Py.str "Plato", [], Some (Py.str "editor"));
           (Py.str "Doe", Py.str "Jane", Some (Py.str "other")) ].
Proof. vm_compute. reflexivity. Qed.

Example publication_date_of_frankenstein :
  Uploader.publication_date
    (Uploader.create_metadata None Samples.uploader Samples.frankenstein)
  = Py.str "1818"
  /\ Uploader.publication_date
       (Uploader.create_metadata None Samples.uploader Samples.anonymous)
     = Py.str "1900".
Proof. split; vm_compute; reflexivity. Qed.

Example subjects_of_frankenstein :
  Uploader.subjects (Uploader.create_metadata None Samples.uploader Samples.frankenstein)
  = Some [Py.str "Horror tales"; Py.str "Science fiction"; Py.str "Gothic Fiction"].
Proof. vm_compute. reflexivity. Qed.

(** Language codes, with a table and without. *)
Example languages_with_table :
  Uploader.languages
    (Uploader.create_metadata (Some Samples.english_only) Samples.uploader
       Samples.frankenstein)
  = Some [Py.str "eng"; Py.str "xx"; Py.str "fra"].
Proof. vm_compute. reflexivity. Qed.

Example languages_without_table :
  Uploader.languages
    (Uploader.create_metadata None Samples.uploader Samples.frankenstein)
  = Some [Py.str "en"; Py.str "xx"; Py.str "fra"]
  /\ Uploader.languages
       (Uploader.create_metadata None Samples.uploader Samples.anonymous) = None.
Proof. split; vm_compute; reflexivity. Qed.

(** The identifier in the description, and back. *)
Example embedded_84 :
  Spec.embedded 84
  = Py.str "Project Gutenberg eBook #84. Downloaded from https://www.gutenberg.org/ebooks/84".
Proof. vm_compute. reflexivity. Qed.

Example extract_from_other_texts :
  let desc s := {| Uploader.description := Some s;
                   Uploader.description_type := Py.str "other" |} in
  @Uploader.extract_from Py.ascii_digits_only
    [desc (Py.str "A note"); desc (Py.str "Project Gutenberg eBook #x1.");
     desc (Py.str "Project Gutenberg eBook #1_342. :)")]
  = Some 1342%Z
  /\ @Uploader.extract_from Py.ascii_digits_only
       [desc (Py.str "Project Gutenberg eBook #None. ")]
     = None.
Proof. split; vm_compute; reflexivity. Qed.

Example int_examples :
  @Py.int Py.ascii_digits_only (Py.str " -0084 ") = Some (-84)%Z
  /\ @Py.int Py.ascii_digits_only (Py.str "+7") = Some 7%Z
  /\ @Py.int Py.ascii_digits_only (Py.str "8 4") = None
  /\ @Py.int Py.ascii_digits_only (Py.str "") = None
  /\ @Py.int Py.ascii_digits_only (Py.str "_1") = None
  /\ Py.str_of_int (-120) = Py.str "-120".
Proof. repeat split; vm_compute; reflexivity. Qed.

(** File names. *)
Example sanitize_title :
  Downloader.sanitize_filename (Py.str "  Alice's  Adventures: <in> Wonderland?  ") 100
  = Py.str "Alice's_Adventures_in_Wonderland".
Proof. vm_compute. reflexivity. Qed.

Example sanitize_long_word :
  Downloader.sanitize_filename Samples.long_word 100 = repeat 97%N 100.
Proof. vm_compute. reflexivity. Qed.

Example sanitize_double_separator :
  Downloader.sanitize_filename Samples.double_separator 100 = repeat 97%N 98 ++ [95%N].
Proof. vm_compute. reflexivity. Qed.

(** Headers and footers. *)
Example strip_both_markers :
  Downloader.strip_gutenberg_headers
    (Py.str "Legal header
*** START OF THIS PROJECT GUTENBERG EBOOK MOBY DICK ***

Call me Ishmael.

*** END OF THIS PROJECT GUTENBERG EBOOK MOBY DICK ***
Legal footer")
  = Py.str "Call me Ishmael.".
Proof. vm_compute. reflexivity. Qed.

(** On one line, [.+] runs up to the last [ ***], that of the end marker. *)
Example strip_on_one_line :
  Downloader.strip_gutenberg_headers
    (Py.str "*** START OF THIS PROJECT GUTENBERG EBOOK A *** text *** END OF THIS PROJECT GUTENBERG EBOOK A ***")
  = [].
Proof. vm_compute. reflexivity. Qed.

Example strip_ignores_case :
  Downloader.strip_gutenberg_headers
    (Py.str "x start of this project gutenberg ebook y end of this project gutenberg ebook z")
  = Py.str "y".
Proof. vm_compute. reflexivity. Qed.

Example search_is_greedy :
  Re.search (Re.lits "a" ++ [Re.AnyPlus] ++ Re.lits "b") (Py.str "xxaxbxbx") = Some (2, 7)%nat.
Proof. vm_compute. reflexivity. Qed.

(** Pages. *)
Example fetch_three_of_four :
  Downloader.fetch_metadata (Spec.served Samples.two_pages) 3 (Py.str "en")
  = Some [1; 2; 3]%nat.
Proof. vm_compute. reflexivity. Qed.

Example fetch_empty_first_page :
  Downloader.fetch_metadata [Downloader.Page (@nil nat) None] 3 (Py.str "en") = Some [].
Proof. vm_compute. reflexivity. Qed.

Example fetch_negative_count :
  Downloader.fetch_metadata (Spec.served Samples.two_pages) (-1) (Py.str "en") = Some [].
Proof. vm_compute. reflexivity. Qed.

(** Bytes. *)
Example decode_utf8 :
  Downloader.decode [Byte.x63; Byte.x61; Byte.x66; Byte.xc3; Byte.xa9]
  = inr [99; 97; 102; 233]%N.
Proof. vm_compute. reflexivity. Qed.

Example decode_latin1 :
  Downloader.decode [Byte.x63; Byte.x61; Byte.x66; Byte.xe9] = inr [99; 97; 102; 233]%N.
Proof. vm_compute. reflexivity. Qed.

(** Limits, and a call that raises. *)
Example upload_all_limits :
  let stem (n : nat) := Py.str_of_int (Z.of_nat n) in
  let run limit :=
    Uploader.upload_all stem (Samples.logging Nat.even) (Some [1; 2; 3]%nat) limit [] in
  let summary successful failed :=
    Uploader.Returned
      {| Uploader.successful := successful; Uploader.failed := map stem failed |} in
  run (Some 0%Z) = Some (summary 1%nat [1; 3]%nat, [1; 2; 3]%nat)
  /\ run None = Some (summary 1%nat [1; 3]%nat, [1; 2; 3]%nat)
  /\ run (Some 2%Z) = Some (summary 1%nat [1%nat], [1; 2]%nat)
  /\ run (Some (-1)%Z) = Some (summary 1%nat [1%nat], [1; 2]%nat).
Proof. repeat split; vm_compute; reflexivity. Qed.

Example upload_all_raises :
  Uploader.upload_all (fun n : nat => Py.str_of_int (Z.of_nat n))
    (Samples.raising_on (Nat.eqb 2)) (Some [1; 2; 3]%nat) (Some 0%Z) []
  = Some (Uploader.Raised, [1; 2]%nat).
Proof. vm_compute. reflexivity. Qed.

(** With a limit of 1, [update_all] draws a second record and stops there:
    the page after the first is not asked for when the first page holds two
    records of this system, and it is when it holds one. *)
Example update_all_draws :
  let update script :=
    Uploader.update_all (Samples.logging (fun _ => true)) script (Some 1%Z) [] in
  update [inr [Samples.published; Samples.published]]
  = Some (Uploader.Returned {| Uploader.successful := 1; Uploader.failed := [] |},
          [Samples.published])
  /\ update [inr [Samples.published; Samples.foreign]] = None
  /\ update [inr [Samples.published; Samples.foreign]; inl Py.RequestException]
     = Some (Uploader.Returned {| Uploader.successful := 1; Uploader.failed := [] |},
             [Samples.published]).
Proof. repeat split; vm_compute; reflexivity. Qed.


(** * Further properties of the harvester *)

(** ** [fetch_metadata] on any script *)

Lemma fetch_loop_prefix {A} (script : list (Downloader.response A)) :
  forall num_books books url r,
  Downloader.fetch_loop script num_books books url = Some r ->
  exists more post, r = books ++ more /\ Terms.script_entries script = more ++ post.
Proof.
  induction script as [|[e|results next] script IH]; intros num_books books url r;
    rewrite fetch_loop_eq; destruct (_ && _)%bool; try discriminate.
  - intros [= <-]. exists [], []. rewrite app_nil_r. split; reflexivity.
  - intros [= <-]. exists [], (Terms.script_entries script).
    rewrite app_nil_r. split; reflexivity.
  - intros [= <-]. exists [], (Terms.script_entries script).
    rewrite app_nil_r. split; reflexivity.
  - intros Hr. destruct (IH _ _ _ _ Hr) as (more & post & -> & E).
    exists (results ++ more), post. rewrite <- app_assoc. split; [reflexivity|].
    unfold Terms.script_entries in *. simpl. rewrite E, <- app_assoc. reflexivity.
  - intros [= <-]. exists [], (results ++ Terms.script_entries script).
    rewrite app_nil_r. split; reflexivity.
Qed.

Lemma slice_to_prefix {A} (k : Z) (l : list A) : exists post, l = Py.slice_to k l ++ post.
Proof.
  unfold Py.slice_to. destruct (0 <=? k)%Z; eexists; symmetry; apply firstn_skipn.
Qed.

Lemma slice_to_length {A} (k : Z) (l : list A) :
  (0 <= k)%Z -> (Z.of_nat (length (Py.slice_to k l)) <= k)%Z.
Proof.
  intros Hk. rewrite slice_to_firstn by exact Hk.
  pose proof (firstn_le_length (Z.to_nat k) l). lia.
Qed.

(** X1: whatever the server answers, a result of [fetch_metadata] is the
    beginning of the entries served, in their order, and holds no more
    entries than were asked for. *)
Theorem fetch_metadata_prefix {A} (script : list (Downloader.response A))
    (num_books : Z) (language : text) (books : list A) :
  Downloader.fetch_metadata script num_books language = Some books ->
  (exists post, Terms.script_entries script = books ++ post)
  /\ (Z.of_nat (length books) <= Z.max 0 num_books)%Z.
Proof.
  unfold Downloader.fetch_metadata.
  destruct (Downloader.fetch_loop script num_books [] _) as [r|] eqn:Hloop; [|discriminate].
  intros [= <-]. split.
  - destruct (fetch_loop_prefix _ _ _ _ _ Hloop) as (more & post & -> & E).
    destruct (slice_to_prefix num_books ([] ++ more)) as [post' E'].
    exists (post' ++ post). rewrite E, app_assoc. f_equal. exact E'.
  - destruct (Z.le_gt_cases 0 num_books) as [Hk|Hk].
    + pose proof (slice_to_length num_books r Hk). lia.
    + rewrite fetch_loop_eq in Hloop.
      replace (Z.of_nat (length (@nil A)) <? num_books)%Z with false in Hloop
        by (symmetry; apply Z.ltb_ge; simpl; lia).
      simpl in Hloop. injection Hloop as <-.
      unfold Py.slice_to. destruct (0 <=? num_books)%Z; rewrite firstn_nil; simpl; lia.
Qed.

Lemma fetch_metadata_prefix_witness :
  Downloader.fetch_metadata (Spec.served Samples.two_pages) 3 (Py.str "en")
  = Some [1; 2; 3]%nat
  /\ (exists post, Terms.script_entries (Spec.served Samples.two_pages) = [1; 2; 3]%nat ++ post)
  /\ (Z.of_nat (length [1; 2; 3]%nat) <= Z.max 0 3)%Z.
Proof.
  assert (E : Downloader.fetch_metadata (Spec.served Samples.two_pages) 3 (Py.str "en")
              = Some [1; 2; 3]%nat) by (vm_compute; reflexivity).
  split; [exact E|].
  exact (fetch_metadata_prefix (Spec.served Samples.two_pages) 3 (Py.str "en") _ E).
Defined.

(** X2: a count that is not positive is answered with the empty list
    without any request, and a positive count needs at least one response. *)
Theorem fetch_metadata_no_request {A} (num_books : Z) (language : text) :
  ((num_books <= 0)%Z ->
   forall script : list (Downloader.response A),
     Downloader.fetch_metadata script num_books language = Some [])
  /\ ((0 < num_books)%Z ->
      Downloader.fetch_metadata (@nil (Downloader.response A)) num_books language = None).
Proof.
  split; intros Hk.
  - intros script. unfold Downloader.fetch_metadata. rewrite fetch_loop_eq.
    replace (Z.of_nat (length (@nil A)) <? num_books)%Z with false
      by (symmetry; apply Z.ltb_ge; simpl; lia).
    simpl. unfold Py.slice_to. destruct (0 <=? num_books)%Z; rewrite firstn_nil; reflexivity.
  - unfold Downloader.fetch_metadata. rewrite fetch_loop_eq.
    replace (Z.of_nat (length (@nil A)) <? num_books)%Z with true
      by (symmetry; apply Z.ltb_lt; simpl; lia).
    reflexivity.
Qed.

Lemma fetch_metadata_no_request_witness :
  (-2 <= 0)%Z
  /\ Downloader.fetch_metadata (Spec.served Samples.two_pages) (-2) (Py.str "en") = Some [].
Proof.
  assert (Hk : (-2 <= 0)%Z) by lia.
  split; [exact Hk|].
  exact (proj1 (fetch_metadata_no_request (-2) (Py.str "en")) Hk
           (Spec.served Samples.two_pages)).
Defined.

(** ** [strip_gutenberg_headers]: offsets and trimming *)

(** X3: both offsets lie within the text, and what is returned neither
    starts nor ends with whitespace. *)
Theorem strip_gutenberg_headers_trimmed (s : text) :
  (Downloader.start_pos s <= length s)%nat
  /\ (Downloader.end_pos s <= length s)%nat
  /\ Terms.trimmed (Downloader.strip_gutenberg_headers s).
Proof.
  split; [|split].
  - unfold Downloader.start_pos.
    destruct (Downloader.first_match Downloader.start_markers s) as [[a b]|] eqn:E; [|lia].
    apply first_match_bounds in E. lia.
  - unfold Downloader.end_pos.
    destruct (Downloader.first_match Downloader.end_markers s) as [[a b]|] eqn:E; [|lia].
    apply first_match_bounds in E. lia.
  - apply strip_by_trimmed.
Qed.

(** ** [sanitize_filename]: whitespace and repetition *)

Lemma sub_spaces_no_space b (s : text) : Terms.no_space (Downloader.sub_spaces b s).
Proof.
  revert b. induction s as [|c s IH]; intros b; simpl; [constructor|].
  destruct (Py.is_space c) eqn:E; [destruct b|].
  - apply IH.
  - constructor; [reflexivity|apply IH].
  - constructor; [exact E|apply IH].
Qed.

Lemma Forall_prefix {X} (P : X -> Prop) (l post : list X) : Forall P (l ++ post) -> Forall P l.
Proof. intros F. apply Forall_app in F as [F _]. exact F. Qed.

Lemma cleaned_no_space (s : text) : Terms.no_space (Downloader.cleaned s).
Proof.
  unfold Downloader.cleaned, Py.strip_chars.
  pose proof (sub_spaces_no_space false (Downloader.remove_illegal s)) as F.
  destruct (strip_by_infix (fun c => Py.mem c (Py.str "._"))
              (Downloader.sub_spaces false (Downloader.remove_illegal s)))
    as (pre & post & E).
  unfold Terms.no_space in *. rewrite E in F. exact (Forall_infix _ _ _ _ F).
Qed.

(** Whatever the maximum, the name is a beginning of the cleaned title. *)
Lemma sanitize_filename_is_prefix (s : text) max_length :
  exists post, Downloader.cleaned s = Downloader.sanitize_filename s max_length ++ post.
Proof.
  unfold Downloader.sanitize_filename. destruct (max_length <? _)%Z.
  - destruct (slice_to_prefix max_length (Downloader.cleaned s)) as [post E].
    destruct (rsplit_once_prefix 95%N (Py.slice_to max_length (Downloader.cleaned s)))
      as [post' E'].
    exists (post' ++ post). rewrite app_assoc, <- E'. exact E.
  - exists []. rewrite app_nil_r. reflexivity.
Qed.

Lemma sanitize_filename_chars (s : text) (max_length : Z) :
  Terms.no_space (Downloader.sanitize_filename s max_length)
  /\ Forall Spec.legal (Downloader.sanitize_filename s max_length).
Proof.
  destruct (sanitize_filename_is_prefix s max_length) as [post E].
  pose proof (cleaned_no_space s) as F. pose proof (cleaned_legal s) as L.
  unfold Terms.no_space in *. rewrite E in F, L.
  split; eapply Forall_prefix; eassumption.
Qed.

(** X4: a file name holds no whitespace and none of the illegal
    characters, whatever the maximum length, even a negative one. *)
Theorem sanitize_filename_no_space (s : text) (max_length : Z) :
  Terms.no_space (Downloader.sanitize_filename s max_length)
  /\ Forall Spec.legal (Downloader.sanitize_filename s max_length).
Proof.
  destruct (sanitize_filename_is_prefix s max_length) as [post E].
  split.
  - pose proof (cleaned_no_space s) as F. unfold Terms.no_space in *.
    rewrite E in F. exact (Forall_prefix _ _ _ F).
  - pose proof (cleaned_legal s) as L. rewrite E in L. exact (Forall_prefix _ _ _ L).
Qed.

Lemma strip_by_idem p (s : text) : Py.strip_by p (Py.strip_by p s) = Py.strip_by p s.
Proof.
  set (t := Py.strip_by p s).
  assert (Hl : Py.drop_while p t = t).
  { apply drop_while_none. destruct t as [|c r] eqn:E; [now left|right].
    exists c. split; [reflexivity|]. exact (strip_by_first p s c r E). }
  assert (Hr : Py.drop_while p (rev t) = rev t).
  { apply drop_while_none. destruct (rev t) as [|c r] eqn:E; [now left|right].
    exists c. split; [reflexivity|].
    apply (strip_by_last p s (rev r) c). fold t.
    rewrite <- (rev_involutive t), E. reflexivity. }
  unfold Py.strip_by at 1, Py.rstrip_by, Py.lstrip_by.
  rewrite Hl, Hr. apply rev_involutive.
Qed.

Lemma remove_illegal_id (s : text) : Forall Spec.legal s -> Downloader.remove_illegal s = s.
Proof.
  induction 1 as [|c s Hc _ IH]; [reflexivity|].
  unfold Downloader.remove_illegal in *. cbn [List.filter].
  unfold Spec.legal in Hc. rewrite Hc. cbn [negb]. f_equal. exact IH.
Qed.

Lemma sub_spaces_id (s : text) : Terms.no_space s -> Downloader.sub_spaces false s = s.
Proof.
  induction 1 as [|c s Hc _ IH]; simpl; [reflexivity|].
  rewrite Hc. f_equal. exact IH.
Qed.

Lemma cleaned_idem (s : text) : Downloader.cleaned (Downloader.cleaned s) = Downloader.cleaned s.
Proof.
  unfold Downloader.cleaned at 1.
  rewrite remove_illegal_id by apply cleaned_legal.
  rewrite sub_spaces_id by apply cleaned_no_space.
  unfold Downloader.cleaned, Py.strip_chars. apply strip_by_idem.
Qed.

(** X5: a name that needed no truncation is left as it is when it is
    sanitized again. *)
Theorem sanitize_filename_idempotent (s : text) (max_length : Z) :
  (Z.of_nat (length (Downloader.cleaned s)) <= max_length)%Z ->
  Downloader.sanitize_filename (Downloader.sanitize_filename s max_length) max_length
  = Downloader.sanitize_filename s max_length.
Proof.
  intros Hfit.
  assert (E : Downloader.sanitize_filename s max_length = Downloader.cleaned s).
  { unfold Downloader.sanitize_filename. rewrite (proj2 (Z.ltb_ge _ _) Hfit). reflexivity. }
  rewrite E. unfold Downloader.sanitize_filename. rewrite cleaned_idem.
  rewrite (proj2 (Z.ltb_ge _ _) Hfit). reflexivity.
Qed.

Lemma sanitize_filename_idempotent_witness :
  (Z.of_nat (length (Downloader.cleaned (Py.str " Moby Dick; Or, The Whale "))) <= 100)%Z
  /\ Downloader.sanitize_filename
       (Downloader.sanitize_filename (Py.str " Moby Dick; Or, The Whale ") 100) 100
     = Downloader.sanitize_filename (Py.str " Moby Dick; Or, The Whale ") 100.
Proof.
  assert (Hfit : (Z.of_nat (length (Downloader.cleaned (Py.str " Moby Dick; Or, The Whale ")))
                  <= 100)%Z) by (vm_compute; discriminate).
  split; [exact Hfit|].
  exact (sanitize_filename_idempotent (Py.str " Moby Dick; Or, The Whale ") 100 Hfit).
Defined.

(** ** File stems *)

Lemma str_of_int_inj n m : Py.str_of_int n = Py.str_of_int m -> n = m.
Proof.
  intros E.
  pose proof (@int_str_of_int Py.ascii_digits_only n) as Hn.
  pose proof (@int_str_of_int Py.ascii_digits_only m) as Hm.
  rewrite E in Hn. congruence.
Qed.

Lemma str_of_int_starts n : Terms.starts_like_a_number (Py.str_of_int n).
Proof.
  unfold Py.str_of_int.
  destruct n as [|p|p]; simpl Z.to_int; cbv iota.
  - exists 48%N, []. split; [reflexivity|left; unfold Spec.is_digit; lia].
  - pose proof (DecimalPos.Unsigned.to_uint_nonnil p) as Hnil.
    pose proof (digits_are_digits (Pos.to_uint p)) as D.
    destruct (Pos.to_uint p); [contradiction|..]; cbn [Py.digits] in *;
      inversion D; subst; eexists _, _; (split; [reflexivity|left; assumption]).
  - eexists _, _. split; [reflexivity|right; reflexivity].
Qed.

Lemma str_of_int_safe n :
  Forall (fun c => Spec.legal c /\ Py.is_space c = false) (Py.str_of_int n).
Proof.
  eapply List.Forall_impl; [|apply str_of_int_chars].
  intros c [D| ->]; [|split; reflexivity].
  unfold Spec.is_digit in D.
  assert (E : exists k, (k < 10)%nat /\ c = (48 + N.of_nat k)%N).
  { exists (N.to_nat (c - 48)). split; lia. }
  destruct E as (k & Hk & ->).
  do 10 (destruct k as [|k]; [split; reflexivity|]). lia.
Qed.

(** X6: a file stem is made of characters that are safe in a file name: no
    whitespace, none of the illegal characters (the slash among them), and
    a digit or a minus sign in front. *)
Theorem filename_base_safe (book_id : Z) (title : text) :
  Forall (fun c => Spec.legal c /\ Py.is_space c = false)
    (Storage.filename_base book_id title)
  /\ ~ In 47%N (Storage.filename_base book_id title)
  /\ Terms.starts_like_a_number (Storage.filename_base book_id title).
Proof.
  assert (F : Forall (fun c => Spec.legal c /\ Py.is_space c = false)
                (Storage.filename_base book_id title)).
  { unfold Storage.filename_base. apply Forall_app. split; [apply str_of_int_safe|].
    apply Forall_app. split; [repeat constructor|].
    destruct (sanitize_filename_chars title 100) as [S L].
    unfold Terms.no_space in S. revert S L.
    generalize (Downloader.sanitize_filename title 100). intros l S.
    induction S; intros L; inversion L; subst; constructor; auto. }
  split; [exact F|split].
  - intros Hin. apply (proj1 (List.Forall_forall _ _) F) in Hin as [L _]. discriminate L.
  - destruct (str_of_int_starts book_id) as (c & r & E & Hc).
    exists c, (r ++ Py.str "_" ++ Downloader.sanitize_filename title 100).
    unfold Storage.filename_base. rewrite E. split; [reflexivity|exact Hc].
Qed.

Lemma first_piece_inj sep (a b x y : text) :
  ~ In sep a -> ~ In sep b -> a ++ sep :: x = b ++ sep :: y -> a = b.
Proof.
  intros Ha Hb E. apply (f_equal (Py.split sep None)) in E.
  rewrite !split_first in E by assumption. congruence.
Qed.

(** X7: the stem tells the book: two books with the same stem have the same
    identifier, whatever their titles. *)
Theorem filename_base_injective (n m : Z) (title title' : text) :
  Storage.filename_base n title = Storage.filename_base m title' -> n = m.
Proof.
  unfold Storage.filename_base. intros E. apply str_of_int_inj.
  apply (first_piece_inj 95%N _ _ _ _ (str_of_int_lacks n 95%N ltac:(lia))
           (str_of_int_lacks m 95%N ltac:(lia)) E).
Qed.

Lemma filename_base_injective_witness :
  Storage.filename_base 84 (Py.str "Frankenstein") = Storage.filename_base 84 (Py.str "Frankenstein?")
  /\ 84%Z = 84%Z.
Proof.
  assert (E : Storage.filename_base 84 (Py.str "Frankenstein")
              = Storage.filename_base 84 (Py.str "Frankenstein?")) by (vm_compute; reflexivity).
  split; [exact E|].
  exact (filename_base_injective 84 84 (Py.str "Frankenstein") (Py.str "Frankenstein?") E).
Defined.

(** ** [save_book] and [download_all] *)

Section Harvest.
Variable can_write : text -> bool.
Variable get : text -> Downloader.http_result.

Lemma save_book_cases st book s b st' :
  Storage.save_book can_write st book s = Storage.Returns (b, st') ->
  exists book_id title,
    Uploader.meta_id book = Some book_id
    /\ Storage.master st' = Storage.master st
    /\ let base := Storage.filename_base book_id title in
       (b = true
        /\ Storage.books st' = <[base ++ Py.str ".txt" := s]> (Storage.books st)
        /\ Storage.metadata st' = <[base ++ Py.str ".json" := book]> (Storage.metadata st))
       \/ (b = false
           /\ Storage.metadata st' = Storage.metadata st
           /\ (Storage.books st' = Storage.books st
               \/ Storage.books st' = <[base ++ Py.str ".txt" := s]> (Storage.books st))).
Proof.
  unfold Storage.save_book.
  destruct (Uploader.meta_id book) as [book_id|]; [|discriminate].
  set (title := default _ (Uploader.meta_title book)).
  intros E. exists book_id, title. split; [reflexivity|].
  destruct (can_write (Py.str "books/" ++ _)); [destruct (can_write (Py.str "metadata/" ++ _))|];
    injection E as <- <-; simpl; (split; [reflexivity|]).
  - left. repeat split.
  - right. repeat split. right. reflexivity.
  - right. repeat split. left. reflexivity.
Qed.

(** What every call of [save_book] in the loop keeps, the loop keeps. *)
Lemma download_loop_invariant (P : Storage.store -> Prop) :
  (forall st book book_id s b st',
      P st -> Py.truthy s = true ->
      Downloader.download_book_text get book_id = Some s ->
      Storage.save_book can_write st book s = Storage.Returns (b, st') -> P st') ->
  forall books_metadata st successful failed st' rep,
    P st ->
    Storage.download_loop can_write get books_metadata st successful failed
    = Storage.Returns (st', rep) ->
    P st'.
Proof.
  intros Hsave. induction books_metadata as [|book rest IH];
    intros st successful failed st' rep HP; simpl.
  - intros [= <- _]. exact HP.
  - destruct (Uploader.meta_id book) as [book_id|]; [|discriminate].
    destruct (Downloader.download_book_text get book_id) as [s|] eqn:Hget;
      [|apply IH; exact HP].
    destruct (Py.truthy s) eqn:Hs; [|apply IH; exact HP].
    destruct (Storage.save_book can_write st book s) as [|[[|] st1]] eqn:Hsb;
      [discriminate|apply IH|apply IH]; exact (Hsave _ _ _ _ _ _ HP Hs Hget Hsb).
Qed.

Lemma download_loop_counts books_metadata : forall st successful failed st' rep,
  Storage.download_loop can_write get books_metadata st successful failed
  = Storage.Returns (st', rep) ->
  (Storage.successful rep + length (Storage.failed rep)
   = successful + length failed + length books_metadata)%nat
  /\ Storage.master st' = Storage.master st.
Proof.
  induction books_metadata as [|book rest IH]; intros st successful failed st' rep; simpl.
  - intros [= <- <-]. simpl. split; [lia|reflexivity].
  - destruct (Uploader.meta_id book) as [book_id|]; [|discriminate].
    destruct (Downloader.download_book_text get book_id) as [s|].
    + destruct (Py.truthy s).
      * destruct (Storage.save_book can_write st book s) as [|[[|] st1]] eqn:Hsb;
          [discriminate| |];
          destruct (save_book_cases _ _ _ _ _ Hsb) as (_ & _ & _ & Hm & _);
          intros E; destruct (IH _ _ _ _ _ E) as [Hc Hm'];
          (split; [rewrite Hc; try rewrite length_app; simpl; lia|congruence]).
      * intros E. destruct (IH _ _ _ _ _ E) as [Hc Hm'].
        split; [rewrite Hc, length_app; simpl; lia|exact Hm'].
    + intros E. destruct (IH _ _ _ _ _ E) as [Hc Hm'].
      split; [rewrite Hc, length_app; simpl; lia|exact Hm'].
Qed.

Lemma save_book_paired st book s b st' :
  Terms.paired st ->
  Storage.save_book can_write st book s = Storage.Returns (b, st') ->
  Terms.paired st'.
Proof.
  intros Hp Hsb.
  destruct (save_book_cases _ _ _ _ _ Hsb) as (book_id & title & Hid & _ & Hcases).
  assert (Hkeep : forall name book',
             Storage.metadata st !! name = Some book' ->
             (forall key, is_Some (Storage.books st !! key) -> is_Some (Storage.books st' !! key)) ->
             exists book_id' title',
               Uploader.meta_id book' = Some book_id'
               /\ name = Storage.filename_base book_id' title' ++ Py.str ".json"
               /\ is_Some (Storage.books st'
                             !! (Storage.filename_base book_id' title' ++ Py.str ".txt"))).
  { intros name book' Hl Hmono. destruct (Hp name book' Hl) as (i & t & H1 & H2 & H3).
    exists i, t. split; [exact H1|split; [exact H2|apply Hmono; exact H3]]. }
  assert (Hins : forall key,
             is_Some (Storage.books st !! key) ->
             is_Some (<[Storage.filename_base book_id title ++ Py.str ".txt" := s]>
                        (Storage.books st) !! key)).
  { intros key Hk. apply lookup_insert_is_Some'. right. exact Hk. }
  intros name book' Hl.
  destruct Hcases as [(-> & Hb & Hm)|(-> & Hm & [Hb|Hb])]; rewrite Hm in Hl.
  - destruct (decide (Storage.filename_base book_id title ++ Py.str ".json" = name))
      as [<-|Hne].
    + rewrite lookup_insert_eq in Hl. injection Hl as <-.
      exists book_id, title. split; [exact Hid|split; [reflexivity|]].
      rewrite Hb, lookup_insert_eq. eexists. reflexivity.
    + rewrite lookup_insert_ne in Hl by exact Hne.
      apply (Hkeep name book' Hl). intros key Hk. rewrite Hb. apply Hins. exact Hk.
  - apply (Hkeep name book' Hl). intros key Hk. rewrite Hb. exact Hk.
  - apply (Hkeep name book' Hl). intros key Hk. rewrite Hb. apply Hins. exact Hk.
Qed.

Lemma download_book_text_trimmed book_id s :
  Downloader.download_book_text get book_id = Some s -> Terms.trimmed s.
Proof.
  unfold Downloader.download_book_text.
  destruct (get _) as [e|content]; [discriminate|].
  destruct (Downloader.decode content) as [e|t]; [discriminate|].
  intros [= <-]. apply strip_by_trimmed.
Qed.

End Harvest.

(** X8: when [download_all] returns, every book fetched is either counted as
    successful or listed as failed, and [all_books_metadata.json] holds the
    whole list as it was fetched, failures included; when nothing was
    fetched the directory is left as it was and there is no report. *)
Theorem download_all_accounting can_write get
    (script : list (Downloader.response Uploader.BookMeta)) st num_books language st' report :
  Storage.download_all can_write get script st num_books language
  = Some (Storage.Returns (st', report)) ->
  exists books_metadata,
    Downloader.fetch_metadata script num_books language = Some books_metadata
    /\ match report with
       | Some rep =>
         books_metadata <> []
         /\ (Storage.successful rep + length (Storage.failed rep) = length books_metadata)%nat
         /\ Storage.master st' = Some books_metadata
       | None => books_metadata = [] /\ st' = st
       end.
Proof.
  unfold Storage.download_all.
  destruct (Downloader.fetch_metadata script num_books language) as [books_metadata|];
    [|discriminate].
  intros E. exists books_metadata. split; [reflexivity|].
  destruct books_metadata as [|book rest]; cbn [Py.truthy] in E.
  - injection E as <- <-. split; reflexivity.
  - destruct (Storage.download_loop _ _ _ _ _ _) as [|[st1 rep]] eqn:Hloop; [discriminate|].
    destruct (can_write _); [|discriminate].
    injection E as <- <-.
    destruct (download_loop_counts _ _ _ _ _ _ _ _ Hloop) as [Hc _].
    split; [discriminate|split; [rewrite Hc; simpl; lia|reflexivity]].
Qed.

Lemma download_all_accounting_witness :
  exists st' rep,
    Storage.download_all (fun _ => true) Samples.latin1_server
      [Downloader.Page [Samples.frankenstein; Samples.anonymous] None]
      Storage.empty_store 5 (Py.str "en")
    = Some (Storage.Returns (st', Some rep))
    /\ (Storage.successful rep + length (Storage.failed rep) = 2)%nat
    /\ Storage.master st' = Some [Samples.frankenstein; Samples.anonymous].
Proof.
  destruct (Storage.download_all (fun _ => true) Samples.latin1_server
              [Downloader.Page [Samples.frankenstein; Samples.anonymous] None]
              Storage.empty_store 5 (Py.str "en"))
    as [[|[st' [rep|]]]|] eqn:E; try (vm_compute in E; discriminate E).
  exists st', rep. split; [reflexivity|].
  destruct (download_all_accounting _ _ _ _ _ _ _ _ E) as (books_metadata & Hf & _ & Hc & Hm).
  vm_compute in Hf. injection Hf as <-. split; [exact Hc|exact Hm].
Defined.

(** X9: [download_all] keeps the directory paired: if every metadata file had
    a text file of the same stem before, so it is afterwards, each metadata
    file being named after the identifier of the book it holds; and every
    text it writes is trimmed and not empty. *)
Theorem download_all_paired can_write get
    (script : list (Downloader.response Uploader.BookMeta)) st num_books language st' report :
  Terms.paired st ->
  Storage.download_all can_write get script st num_books language
  = Some (Storage.Returns (st', report)) ->
  Terms.paired st'
  /\ Terms.new_texts (fun s => s <> [] /\ Terms.trimmed s) st st'.
Proof.
  intros Hp. unfold Storage.download_all.
  destruct (Downloader.fetch_metadata script num_books language) as [books_metadata|];
    [|discriminate].
  assert (Hrefl : Terms.new_texts (fun s => s <> [] /\ Terms.trimmed s) st st)
    by (intros name s Hs; left; exact Hs).
  destruct (Py.truthy books_metadata); [|intros [= <- _]; split; assumption].
  destruct (Storage.download_loop _ _ _ _ _ _) as [|[st1 rep]] eqn:Hloop; [discriminate|].
  destruct (can_write _); [|discriminate].
  intros [= <- _].
  pose proof (download_loop_invariant can_write get
                (fun x => Terms.paired x
                          /\ Terms.new_texts (fun s => s <> [] /\ Terms.trimmed s) st x))
    as Hinv.
  apply (Hinv) in Hloop; [exact Hloop| |split; assumption].
  clear. intros st0 book book_id s b st1 [Hp Hn] Hs Hget Hsb. split.
  - exact (save_book_paired can_write _ _ _ _ _ Hp Hsb).
  - destruct (save_book_cases _ _ _ _ _ _ Hsb) as (i & t & _ & _ & Hcases).
    assert (Hq : s <> [] /\ Terms.trimmed s).
    { split; [intros ->; discriminate Hs|].
      exact (download_book_text_trimmed get _ _ Hget). }
    assert (Hins : forall name x,
               <[Storage.filename_base i t ++ Py.str ".txt" := s]> (Storage.books st0)
                 !! name = Some x ->
               Storage.books st !! name = Some x \/ (x <> [] /\ Terms.trimmed x)).
    { intros name x Hl. apply lookup_insert_Some in Hl as [[_ <-]|[_ Hl]];
        [right; exact Hq|exact (Hn name x Hl)]. }
    intros name x Hl.
    destruct Hcases as [(_ & Hb & _)|(_ & _ & [Hb|Hb])]; rewrite Hb in Hl;
      [apply Hins|apply Hn|apply Hins]; exact Hl.
Qed.

Lemma empty_store_paired : Terms.paired Storage.empty_store.
Proof. intros name book Hl. simpl in Hl. rewrite lookup_empty in Hl. discriminate Hl. Qed.

Lemma download_all_paired_witness :
  exists st' report,
    Terms.paired Storage.empty_store
    /\ Storage.download_all (fun _ => true) Samples.latin1_server
         [Downloader.Page [Samples.frankenstein] None] Storage.empty_store 5 (Py.str "en")
       = Some (Storage.Returns (st', report))
    /\ Terms.paired st'.
Proof.
  destruct (Storage.download_all (fun _ => true) Samples.latin1_server
              [Downloader.Page [Samples.frankenstein] None] Storage.empty_store 5 (Py.str "en"))
    as [[|[st' report]]|] eqn:E; try (vm_compute in E; discriminate E).
  exists st', report. split; [exact empty_store_paired|split; [reflexivity|]].
  exact (proj1 (download_all_paired _ _ _ _ _ _ _ _ empty_store_paired E)).
Defined.

(** * Further properties of the publisher *)

(** ** [_load_publication_data] *)

Section LoadData.
Context `{Py.UnicodeData}.

Lemma load_rows_app pre : forall post pub_years wiki_urls,
  Publication.load_rows (pre ++ post) pub_years wiki_urls
  = match Publication.load_rows pre pub_years wiki_urls with
    | Some (pub_years', wiki_urls') => Publication.load_rows post pub_years' wiki_urls'
    | None => None
    end.
Proof.
  induction pre as [|r pre IH]; intros post pub_years wiki_urls; simpl; [reflexivity|].
  destruct (Publication.int_cell (Publication.gutenberg_id r)); auto.
  destruct (Publication.int_cell (Publication.publication_year r)); auto.
  destruct (Publication.wikipedia_url r); auto.
  destruct (Py.truthy (Py.strip s)); auto.
Qed.

Lemma load_rows_skipped r rows pub_years wiki_urls :
  Terms.row_skipped r ->
  Publication.load_rows (r :: rows) pub_years wiki_urls
  = Publication.load_rows rows pub_years wiki_urls.
Proof. intros [E|[[gid E] E']]; simpl; rewrite E; [|rewrite E']; reflexivity. Qed.

Lemma load_rows_short r rows pub_years wiki_urls :
  Terms.row_short r -> Publication.load_rows (r :: rows) pub_years wiki_urls = None.
Proof.
  intros [E|[[gid E] [E'|[[y E'] E'']]]]; simpl; rewrite E; try rewrite E'; try rewrite E'';
    reflexivity.
Qed.

Lemma load_rows_loaded r gid pub_year rows pub_years wiki_urls :
  Terms.row_loaded r gid pub_year ->
  Publication.load_rows (r :: rows) pub_years wiki_urls
  = Publication.load_rows rows (<[gid := pub_year]> pub_years)
      (match Terms.row_url r with
       | Some url => <[gid := url]> wiki_urls
       | None => wiki_urls
       end).
Proof.
  intros (E & E' & E''). simpl. rewrite E, E'. unfold Terms.row_url.
  destruct (Publication.wikipedia_url r); [reflexivity|contradiction|].
  destruct (Py.truthy (Py.strip s)); reflexivity.
Qed.

Lemma load_rows_urls_have_years rows : forall pub_years wiki_urls pub_years' wiki_urls',
  Terms.urls_have_years pub_years wiki_urls ->
  Publication.load_rows rows pub_years wiki_urls = Some (pub_years', wiki_urls') ->
  Terms.urls_have_years pub_years' wiki_urls'.
Proof.
  induction rows as [|r rows IH]; intros pub_years wiki_urls pub_years' wiki_urls' Hinv; simpl.
  - intros [= <- <-]. exact Hinv.
  - destruct (Publication.int_cell (Publication.gutenberg_id r)) as [| |gid];
      [apply IH; exact Hinv|discriminate|].
    destruct (Publication.int_cell (Publication.publication_year r)) as [| |pub_year];
      [apply IH; exact Hinv|discriminate|].
    assert (Hyears : Terms.urls_have_years (<[gid := pub_year]> pub_years) wiki_urls).
    { intros g url Hl. destruct (Hinv g url Hl) as [Hy Hu]. split; [|exact Hu].
      apply lookup_insert_is_Some'. right. exact Hy. }
    destruct (Publication.wikipedia_url r) as [| |s]; [apply IH; exact Hyears|discriminate|].
    destruct (Py.truthy (Py.strip s)) eqn:Hs; [|apply IH; exact Hyears].
    apply IH. intros g url Hl. apply lookup_insert_Some in Hl as [[<- <-]|[_ Hl]].
    + split; [rewrite lookup_insert_eq; eexists; reflexivity|split].
      * intros E. rewrite E in Hs. discriminate Hs.
      * apply strip_by_trimmed.
    + apply Hyears. exact Hl.
Qed.

End LoadData.

Lemma load_publication_data_urls_have_years_aux `{Py.UnicodeData}
    (file : Publication.csv_file) (gid : Z) (url : text) :
  snd (Publication._load_publication_data file) !! gid = Some url ->
  is_Some (fst (Publication._load_publication_data file) !! gid)
  /\ url <> [] /\ Terms.trimmed url.
Proof.
  unfold Publication._load_publication_data.
  destruct file as [| |rows]; simpl; try (rewrite lookup_empty; discriminate).
  destruct (Publication.load_rows rows ∅ ∅) as [[pub_years wiki_urls]|] eqn:E; simpl;
    [|rewrite lookup_empty; discriminate].
  apply (load_rows_urls_have_years rows ∅ ∅ pub_years wiki_urls); [|exact E].
  intros g u Hl. rewrite lookup_empty in Hl. discriminate Hl.
Qed.

(** X10: in the data loaded from the CSV file, every identifier that has a
    Wikipedia URL also has a publication year, and every URL is trimmed and
    not empty; this holds whatever the file (absent, unreadable, or with
    rows that are skipped or cut short). *)
Theorem load_publication_data_urls_have_years `{Py.UnicodeData}
    (file : Publication.csv_file) (gid : Z) (url : text) :
  snd (Publication._load_publication_data file) !! gid = Some url ->
  is_Some (fst (Publication._load_publication_data file) !! gid)
  /\ url <> [] /\ Terms.trimmed url.
Proof.
  unfold Publication._load_publication_data.
  destruct file as [| |rows]; simpl; try (rewrite lookup_empty; discriminate).
  destruct (Publication.load_rows rows ∅ ∅) as [[pub_years wiki_urls]|] eqn:E; simpl;
    [|rewrite lookup_empty; discriminate].
  intros Hurl.
  apply (load_rows_urls_have_years rows ∅ ∅ pub_years wiki_urls); [|exact E|exact Hurl].
  intros g u Hl. rewrite lookup_empty in Hl. discriminate Hl.
Qed.

Lemma load_publication_data_urls_have_years_witness :
  snd (@Publication._load_publication_data Py.ascii_digits_only
         (Publication.Rows [Cases.row_frankenstein])) !! 84%Z
  = Some (Py.str "https://en.wikipedia.org/wiki/Frankenstein")
  /\ is_Some (fst (@Publication._load_publication_data Py.ascii_digits_only
                     (Publication.Rows [Cases.row_frankenstein])) !! 84%Z).
Proof.
  assert (E : snd (@Publication._load_publication_data Py.ascii_digits_only
                     (Publication.Rows [Cases.row_frankenstein])) !! 84%Z
              = Some (Py.str "https://en.wikipedia.org/wiki/Frankenstein"))
    by (vm_compute; reflexivity).
  split; [exact E|].
  exact (proj1 (@load_publication_data_urls_have_years Py.ascii_digits_only _ _ _ E)).
Defined.

(** X11: a row whose identifier or year is missing or is not a number
    changes nothing: the data loaded is that of the file without the row. *)
Theorem load_publication_data_skips_row `{Py.UnicodeData}
    (pre post : list Publication.row) (r : Publication.row) :
  Terms.row_skipped r ->
  Publication._load_publication_data (Publication.Rows (pre ++ r :: post))
  = Publication._load_publication_data (Publication.Rows (pre ++ post)).
Proof.
  intros Hr. unfold Publication._load_publication_data.
  rewrite !load_rows_app.
  destruct (Publication.load_rows pre ∅ ∅) as [[pub_years wiki_urls]|]; [|reflexivity].
  rewrite load_rows_skipped by exact Hr. reflexivity.
Qed.

Lemma load_publication_data_skips_row_witness :
  @Terms.row_skipped Py.ascii_digits_only Cases.row_not_a_number
  /\ @Publication._load_publication_data Py.ascii_digits_only
       (Publication.Rows ([Cases.row_frankenstein] ++ Cases.row_not_a_number :: []))
     = @Publication._load_publication_data Py.ascii_digits_only
         (Publication.Rows ([Cases.row_frankenstein] ++ [])).
Proof.
  assert (Hr : @Terms.row_skipped Py.ascii_digits_only Cases.row_not_a_number)
    by (left; vm_compute; reflexivity).
  split; [exact Hr|].
  exact (@load_publication_data_skips_row Py.ascii_digits_only
           [Cases.row_frankenstein] [] Cases.row_not_a_number Hr).
Defined.

(** X12: a row that is shorter than the header where a cell is read,
    wherever it stands, makes the whole file count for nothing: both tables
    come back empty. *)
Theorem load_publication_data_short_row `{Py.UnicodeData}
    (pre post : list Publication.row) (r : Publication.row) :
  Terms.row_short r ->
  Publication._load_publication_data (Publication.Rows (pre ++ r :: post)) = (∅, ∅).
Proof.
  intros Hr. unfold Publication._load_publication_data.
  rewrite load_rows_app.
  destruct (Publication.load_rows pre ∅ ∅) as [[pub_years wiki_urls]|]; [|reflexivity].
  rewrite load_rows_short by exact Hr. reflexivity.
Qed.

Lemma load_publication_data_short_row_witness :
  @Terms.row_short Py.ascii_digits_only Cases.row_cut_short
  /\ @Publication._load_publication_data Py.ascii_digits_only
       (Publication.Rows ([Cases.row_frankenstein] ++ Cases.row_cut_short :: []))
     = (∅, ∅).
Proof.
  assert (Hr : @Terms.row_short Py.ascii_digits_only Cases.row_cut_short).
  { right. split; [exists 2701%Z; vm_compute; reflexivity|left; reflexivity]. }
  split; [exact Hr|].
  exact (@load_publication_data_short_row Py.ascii_digits_only
           [Cases.row_frankenstein] [] Cases.row_cut_short Hr).
Defined.

(** X13: a later row replaces an earlier one: when the rows before the last
    load, the last row, if it loads, sets the year of its identifier, and
    sets its URL when it has one that is not blank. *)
Theorem load_publication_data_last_row `{Py.UnicodeData}
    (pre : list Publication.row) (r : Publication.row) (gid pub_year : Z)
    (pub_years : gmap Z Z) (wiki_urls : gmap Z (list N)) :
  Publication.load_rows pre ∅ ∅ = Some (pub_years, wiki_urls) ->
  Terms.row_loaded r gid pub_year ->
  Publication._load_publication_data (Publication.Rows (pre ++ [r]))
  = (<[gid := pub_year]> pub_years,
     match Terms.row_url r with
     | Some url => <[gid := url]> wiki_urls
     | None => wiki_urls
     end).
Proof.
  intros Hpre Hr. unfold Publication._load_publication_data.
  rewrite load_rows_app, Hpre, (load_rows_loaded r gid pub_year) by exact Hr.
  reflexivity.
Qed.

Lemma load_publication_data_last_row_witness :
  @Publication.load_rows Py.ascii_digits_only [Cases.row_frankenstein] ∅ ∅
  = Some (<[84%Z := 1818%Z]> ∅,
          <[84%Z := Py.str "https://en.wikipedia.org/wiki/Frankenstein"]> ∅)
  /\ @Terms.row_loaded Py.ascii_digits_only Cases.row_frankenstein_revised 84 1831
  /\ @Publication._load_publication_data Py.ascii_digits_only
       (Publication.Rows ([Cases.row_frankenstein] ++ [Cases.row_frankenstein_revised]))
     = (<[84%Z := 1831%Z]> (<[84%Z := 1818%Z]> ∅),
        <[84%Z := Py.str "https://en.wikipedia.org/wiki/Mary_Shelley"]>
          (<[84%Z := Py.str "https://en.wikipedia.org/wiki/Frankenstein"]> ∅))
  /\ fst (@Publication._load_publication_data Py.ascii_digits_only
            (Publication.Rows ([Cases.row_frankenstein] ++ [Cases.row_frankenstein_revised])))
     !! 84%Z = Some 1831%Z.
Proof.
  assert (Hpre : @Publication.load_rows Py.ascii_digits_only [Cases.row_frankenstein] ∅ ∅
                 = Some (<[84%Z := 1818%Z]> ∅,
                         <[84%Z := Py.str "https://en.wikipedia.org/wiki/Frankenstein"]> ∅))
    by reflexivity.
  assert (Hr : @Terms.row_loaded Py.ascii_digits_only Cases.row_frankenstein_revised 84 1831).
  { split; [vm_compute; reflexivity|split; [vm_compute; reflexivity|discriminate]]. }
  split; [exact Hpre|split; [exact Hr|split]].
  - exact (@load_publication_data_last_row Py.ascii_digits_only [Cases.row_frankenstein]
             Cases.row_frankenstein_revised 84 1831 _ _ Hpre Hr).
  - rewrite (@load_publication_data_last_row Py.ascii_digits_only [Cases.row_frankenstein]
               Cases.row_frankenstein_revised 84 1831 _ _ Hpre Hr).
    reflexivity.
Defined.

(** ** More of [create_metadata] *)

Lemma set_if_nonempty_never_empty {A} (l : list A) :
  Terms.never_empty (Uploader.set_if_nonempty l).
Proof. destruct l; discriminate. Qed.

Lemma set_if_truthy_never_empty (s : text) : Uploader.set_if_truthy s <> Some [].
Proof. destruct s; discriminate. Qed.

Lemma make_person_names default_name role_id p :
  let c := Uploader.make_person default_name role_id p in
  Uploader.given_name (Uploader.person_or_org c) <> Some []
  /\ Uploader.family_name (Uploader.person_or_org c) <> Some [].
Proof.
  unfold Uploader.make_person. destruct (Uploader.split_name _) as [family given].
  simpl. split; apply set_if_truthy_never_empty.
Qed.

(** X14: a book without identifier, or with the identifier 0, gets the
    fallback date 1900, no alternate identifier and no related identifier,
    even when the tables have an entry for 0; its description still names
    the identifier. *)
Theorem create_metadata_without_id pycountry self book :
  Terms.known_id book = None ->
  let md := Uploader.create_metadata pycountry self book in
  Uploader.publication_date md = Py.str "1900"
  /\ Uploader.identifiers md = None
  /\ Uploader.related_identifiers md = None
  /\ Uploader.additional_descriptions md
     = [ {| Uploader.description :=
              Some (Py.str "Project Gutenberg eBook #" ++ Uploader.format_id (Uploader.meta_id book)
                    ++ Py.str ". Downloaded from https://www.gutenberg.org/ebooks/"
                    ++ Uploader.format_id (Uploader.meta_id book));
            Uploader.description_type := Py.str "other" |} ].
Proof.
  unfold Terms.known_id, Uploader.create_metadata, Py.truthy_int. intros Hid.
  cbn [Uploader.publication_date Uploader.identifiers Uploader.related_identifiers
       Uploader.additional_descriptions].
  destruct (Uploader.meta_id book) as [n|]; [destruct (n =? 0)%Z; [|discriminate]|];
    simpl; repeat split; rewrite <- ?app_assoc; reflexivity.
Qed.

Lemma create_metadata_without_id_witness :
  Terms.known_id Cases.book_zero = None
  /\ Uploader.publication_date
       (Uploader.create_metadata None Cases.tables_with_zero Cases.book_zero)
     = Py.str "1900".
Proof.
  split; [reflexivity|].
  exact (proj1 (create_metadata_without_id None Cases.tables_with_zero Cases.book_zero
                  eq_refl)).
Defined.

(** X15: the metadata always names at least one creator, and no optional
    key is ever set to an empty value: languages, description, subjects,
    identifiers, contributors and related identifiers are absent or not
    empty, and so are the given and family names of every creator and
    contributor. *)
Theorem create_metadata_no_empty_value pycountry self book :
  let md := Uploader.create_metadata pycountry self book in
  Uploader.creators md <> []
  /\ Terms.never_empty (Uploader.languages md)
  /\ Terms.never_empty (Uploader.md_description md)
  /\ Terms.never_empty (Uploader.subjects md)
  /\ Terms.never_empty (Uploader.identifiers md)
  /\ Terms.never_empty (Uploader.contributors md)
  /\ Terms.never_empty (Uploader.related_identifiers md)
  /\ Forall (fun c => Uploader.given_name (Uploader.person_or_org c) <> Some []
                      /\ Uploader.family_name (Uploader.person_or_org c) <> Some [])
       (Uploader.creators md ++ default [] (Uploader.contributors md)).
Proof.
  unfold Uploader.create_metadata.
  cbn [Uploader.creators Uploader.languages Uploader.md_description Uploader.subjects
       Uploader.identifiers Uploader.contributors Uploader.related_identifiers].
  split; [destruct (Uploader.meta_authors book); discriminate|].
  split; [destruct (Py.truthy _); [apply set_if_nonempty_never_empty|discriminate]|].
  split; [apply set_if_truthy_never_empty|].
  split; [apply set_if_nonempty_never_empty|].
  split; [apply set_if_nonempty_never_empty|].
  split; [apply set_if_nonempty_never_empty|].
  split; [destruct (_ ≫= _); discriminate|].
  rewrite default_set_if_nonempty.
  apply Forall_app. split; [|apply Forall_app; split].
  - destruct (Uploader.meta_authors book) as [|p ps].
    + repeat constructor; discriminate.
    + change (Forall
                (fun c => Uploader.given_name (Uploader.person_or_org c) <> Some []
                          /\ Uploader.family_name (Uploader.person_or_org c) <> Some [])
                (map (Uploader.make_person (Py.str "Unknown Author") None) (p :: ps))).
      apply List.Forall_forall. intros c Hc. apply in_map_iff in Hc as (q & <- & _).
      apply make_person_names.
  - apply List.Forall_forall. intros c Hc. apply in_map_iff in Hc as (q & <- & _).
    apply make_person_names.
  - apply List.Forall_forall. intros c Hc. apply in_map_iff in Hc as (q & <- & _).
    apply make_person_names.
Qed.

(** X16: with the tables loaded from the CSV file, metadata that carries a
    related identifier carries the year of the file as its date, and the
    identifier is the URL of the file: a Wikipedia link never comes with
    the fallback date. *)
Theorem create_metadata_link_has_year `{Py.UnicodeData} pycountry
    (file : Publication.csv_file) book related :
  let md := Uploader.create_metadata pycountry (Publication.uploader_of file) book in
  Uploader.related_identifiers md = Some related ->
  exists book_id pub_year url,
    Terms.known_id book = Some book_id
    /\ fst (Publication._load_publication_data file) !! book_id = Some pub_year
    /\ snd (Publication._load_publication_data file) !! book_id = Some url
    /\ Uploader.publication_date md = Py.str_of_int pub_year
    /\ map Uploader.rel_identifier related = [url].
Proof.
  unfold Uploader.create_metadata, Terms.known_id, Py.truthy_int.
  cbn [Uploader.related_identifiers Uploader.publication_date
       Uploader.publication_years Uploader.wikipedia_urls Publication.uploader_of].
  destruct (Uploader.meta_id book) as [n|]; [|discriminate].
  destruct (n =? 0)%Z; [discriminate|]. cbn [negb mbind option_bind].
  destruct (snd (Publication._load_publication_data file) !! n) as [url|] eqn:Hurl;
    [|discriminate].
  intros [= <-].
  destruct (load_publication_data_urls_have_years_aux file n url Hurl) as [[y Hy] _].
  exists n, y, url. rewrite Hy. repeat split; assumption.
Qed.

Lemma create_metadata_link_has_year_witness :
  exists related pub_year,
    Uploader.related_identifiers
      (Uploader.create_metadata None
         (@Publication.uploader_of Py.ascii_digits_only
            (Publication.Rows [Cases.row_frankenstein]))
         Samples.frankenstein)
    = Some related
    /\ Uploader.publication_date
         (Uploader.create_metadata None
            (@Publication.uploader_of Py.ascii_digits_only
               (Publication.Rows [Cases.row_frankenstein]))
            Samples.frankenstein)
       = Py.str_of_int pub_year.
Proof.
  destruct (Uploader.related_identifiers
              (Uploader.create_metadata None
                 (@Publication.uploader_of Py.ascii_digits_only
                    (Publication.Rows [Cases.row_frankenstein]))
                 Samples.frankenstein)) as [related|] eqn:E;
    [|vm_compute in E; discriminate E].
  destruct (@create_metadata_link_has_year Py.ascii_digits_only None
              (Publication.Rows [Cases.row_frankenstein]) Samples.frankenstein related E)
    as (book_id & pub_year & url & _ & _ & _ & Hdate & _).
  exists related, pub_year. split; [reflexivity|exact Hdate].
Defined.

(** ** [extract_gutenberg_id] on any record *)

Lemma first_separator sep (s : text) :
  ~ In sep s \/ exists pre post, s = pre ++ sep :: post /\ ~ In sep pre.
Proof.
  induction s as [|c s IH].
  - left. intros [].
  - destruct (N.eq_dec c sep) as [->|Hc].
    + right. exists [], s. split; [reflexivity|intros []].
    + destruct IH as [Hn|(pre & post & -> & Hn)].
      * left. intros [?|?]; tauto.
      * right. exists (c :: pre), post. split; [reflexivity|]. intros [?|?]; tauto.
Qed.

Lemma split_first_piece sep (s piece : text) :
  Py.split sep None s !! 0%nat = Some piece ->
  ~ In sep piece /\ (s = piece \/ exists rest, s = piece ++ sep :: rest).
Proof.
  destruct (first_separator sep s) as [Hn|(pre & post & -> & Hn)].
  - rewrite split_absent by exact Hn. intros [= <-]. split; [exact Hn|now left].
  - rewrite split_first by exact Hn. intros [= <-]. split; [exact Hn|right; eauto].
Qed.

Lemma split_second_piece sep (s piece : text) :
  Py.split sep None s !! 1%nat = Some piece ->
  exists pre rest,
    s = pre ++ sep :: rest /\ ~ In sep pre
    /\ Py.split sep None rest !! 0%nat = Some piece.
Proof.
  destruct (first_separator sep s) as [Hn|(pre & post & -> & Hn)].
  - rewrite split_absent by exact Hn. discriminate.
  - rewrite split_first by exact Hn. intros E. exists pre, post. repeat split; assumption.
Qed.

Lemma id_field_of_pieces (s after_hash field : text) :
  Py.split 35%N None s !! 1%nat = Some after_hash ->
  Py.split 46%N None after_hash !! 0%nat = Some field ->
  Terms.id_field s field.
Proof.
  intros H1 H2.
  destruct (split_second_piece _ _ _ H1) as (pre & rest & -> & Hpre & H1').
  destruct (split_first_piece _ _ _ H1') as [Hhash Hrest].
  destruct (split_first_piece _ _ _ H2) as [Hdot Hafter].
  assert (Hfield : ~ In 35%N field).
  { intros Hin. apply Hhash. destruct Hafter as [->|[r ->]]; [exact Hin|].
    apply in_or_app. left. exact Hin. }
  destruct Hafter as [->|[r ->]].
  - destruct Hrest as [->|[r' ->]].
    + exists pre, []. rewrite app_nil_r. repeat split; auto.
    + exists pre, (35%N :: r'). repeat split; auto. right. eauto.
  - destruct Hrest as [->|[r' ->]].
    + exists pre, (46%N :: r). repeat split; auto. right. eauto.
    + exists pre, (46%N :: r ++ 35%N :: r'). rewrite <- app_assoc.
      repeat split; auto. right. eauto.
Qed.

Section ExtractAny.
Context `{Py.UnicodeData}.

Lemma extract_from_sound descs n :
  Uploader.extract_from descs = Some n ->
  exists desc s field,
    In desc descs /\ Uploader.description desc = Some s
    /\ Py.contains Terms.marker s = true
    /\ Terms.id_field s field /\ Py.int field = Some n.
Proof.
  induction descs as [|desc descs IH]; simpl; [discriminate|].
  assert (Hnext : Uploader.extract_from descs = Some n ->
                  exists desc0 s field,
                    (desc = desc0 \/ In desc0 descs) /\ Uploader.description desc0 = Some s
                    /\ Py.contains Terms.marker s = true
                    /\ Terms.id_field s field /\ Py.int field = Some n).
  { intros E. destruct (IH E) as (d & s & f & Hin & Hrest). exists d, s, f. split; [now right|exact Hrest]. }
  destruct (Uploader.description desc) as [s|] eqn:Hdesc; cbn [default from_option id].
  - destruct (Py.contains (Py.str "Project Gutenberg eBook #") s) eqn:Hmark; [|exact Hnext].
    destruct (Py.split 35%N None s !! 1%nat) as [after_hash|] eqn:H1; [|exact Hnext].
    destruct (Py.split 46%N None after_hash !! 0%nat) as [field|] eqn:H2; [|exact Hnext].
    destruct (Py.int field) as [m|] eqn:Hint; [|exact Hnext].
    intros [= <-]. exists desc, s, field.
    split; [now left|split; [exact Hdesc|split; [exact Hmark|split; [|exact Hint]]]].
    exact (id_field_of_pieces s after_hash field H1 H2).
  - change (Py.contains (Py.str "Project Gutenberg eBook #") []) with false.
    exact Hnext.
Qed.

Lemma extract_from_no_marker descs :
  Forall (fun desc => Py.contains Terms.marker (default [] (Uploader.description desc)) = false)
    descs ->
  Uploader.extract_from descs = None.
Proof.
  induction 1 as [|desc descs Hd _ IH]; simpl; [reflexivity|].
  unfold Terms.marker in Hd. rewrite Hd. exact IH.
Qed.

End ExtractAny.

(** X17: an identifier that [extract_gutenberg_id] returns is read from a
    description of the record that holds the marker text: it is the integer
    written between the first [#] of that description and the [#] or [.]
    that follows (or the end).  A record none of whose descriptions holds
    the marker, or without metadata, gives [None]. *)
Theorem extract_gutenberg_id_sound `{Py.UnicodeData} (record : Uploader.InvenioRecord) :
  (forall n,
      Uploader.extract_gutenberg_id record = Some n ->
      exists metadata desc s field,
        Uploader.rec_metadata record = Some metadata
        /\ In desc (Uploader.rec_additional_descriptions metadata)
        /\ Uploader.description desc = Some s
        /\ Py.contains Terms.marker s = true
        /\ Terms.id_field s field /\ Py.int field = Some n)
  /\ ((forall metadata,
          Uploader.rec_metadata record = Some metadata ->
          Forall (fun desc =>
                    Py.contains Terms.marker (default [] (Uploader.description desc)) = false)
            (Uploader.rec_additional_descriptions metadata)) ->
      Uploader.extract_gutenberg_id record = None).
Proof.
  unfold Uploader.extract_gutenberg_id. split.
  - intros n E. destruct (Uploader.rec_metadata record) as [metadata|]; [|discriminate].
    destruct (extract_from_sound _ _ E) as (desc & s & field & Hrest).
    exists metadata, desc, s, field. split; [reflexivity|exact Hrest].
  - intros Hnone. destruct (Uploader.rec_metadata record) as [metadata|]; [|reflexivity].
    apply extract_from_no_marker. apply Hnone. reflexivity.
Qed.

Lemma extract_gutenberg_id_sound_witness :
  @Uploader.extract_gutenberg_id Py.ascii_digits_only Samples.published = Some 84%Z
  /\ exists metadata desc s field,
       Uploader.rec_metadata Samples.published = Some metadata
       /\ In desc (Uploader.rec_additional_descriptions metadata)
       /\ Uploader.description desc = Some s
       /\ Py.contains Terms.marker s = true
       /\ Terms.id_field s field /\ @Py.int Py.ascii_digits_only field = Some 84%Z.
Proof.
  assert (E : @Uploader.extract_gutenberg_id Py.ascii_digits_only Samples.published
              = Some 84%Z) by (vm_compute; reflexivity).
  split; [exact E|].
  exact (proj1 (@extract_gutenberg_id_sound Py.ascii_digits_only Samples.published) 84%Z E).
Defined.

(** ** The record lifecycle *)

Section Lifecycle.
Context `{Py.UnicodeData}.
Variable pycountry : option (text -> Uploader.language_lookup).
Variable self : Uploader.InvenioUploader.
Variable server : Workflow.request -> option Workflow.reply.
Variable listdir : gmap (list N) Uploader.BookMeta -> list (list N * Uploader.BookMeta).

Lemma upload_file_cases record_id filename content :
  let init := Workflow.InitFile record_id filename in
  let put := Workflow.PutContent record_id filename content in
  let commit := Workflow.CommitFile record_id filename in
  let run := Workflow.upload_file server record_id filename (Some content) in
  (run = (true, [init; put; commit])
   /\ Terms.accepted server init /\ Terms.accepted server put /\ Terms.accepted server commit)
  \/ (run = (false, [init; put; commit])
      /\ Terms.accepted server init /\ Terms.accepted server put /\ server commit = None)
  \/ (run = (false, [init; put]) /\ Terms.accepted server init /\ server put = None)
  \/ (run = (false, [init]) /\ server init = None).
Proof.
  intros init put commit run. subst run. unfold Workflow.upload_file, Terms.accepted.
  fold init put commit.
  destruct (server init) eqn:E1; [|tauto].
  destruct (server put) eqn:E2; [|right; right; left; eauto].
  destruct (server commit) eqn:E3; [left|right; left]; eauto 10.
Qed.

Lemma upload_book_cases data_dir metadata_file :
  let run := Workflow.upload_book pycountry self server data_dir metadata_file in
  let filename := metadata_file ++ Py.str ".txt" in
  (snd run = [] /\ fst run <> Workflow.Done true
   /\ (Storage.metadata data_dir !! (metadata_file ++ Py.str ".json")
       ≫= Uploader.meta_id = None
       \/ Storage.books data_dir !! filename = None))
  \/ exists book content,
       Storage.metadata data_dir !! (metadata_file ++ Py.str ".json") = Some book
       /\ Storage.books data_dir !! filename = Some content
       /\ let create := Workflow.CreateDraft (Uploader.create_metadata pycountry self book) in
          (snd run = [create] /\ fst run <> Workflow.Done true)
          \/ exists record_id,
               Terms.accepted server create
               /\ let sequence :=
                    Terms.publish_sequence (Uploader.create_metadata pycountry self book)
                      record_id filename content in
                  (exists k, (2 <= k <= 4)%nat /\ snd run = firstn k sequence
                             /\ fst run = Workflow.Done false)
                  \/ (snd run = sequence
                      /\ Forall (Terms.accepted server) (firstn 4 sequence)
                      /\ (fst run = Workflow.Done true ->
                          Terms.accepted server (Workflow.Publish record_id))).
Proof.
  intros run filename. subst run. unfold Workflow.upload_book. fold filename.
  destruct (Storage.metadata data_dir !! _) as [book|] eqn:Hmeta;
    [|left; simpl; split; [reflexivity|split; [discriminate|left; reflexivity]]].
  destruct (Uploader.meta_id book) as [book_id|] eqn:Hid;
    [|left; simpl; split; [reflexivity|split; [discriminate|left; exact Hid]]].
  destruct (Storage.books data_dir !! filename) as [content|] eqn:Hbook;
    [|left; simpl; split; [reflexivity|split; [discriminate|right; reflexivity]]].
  right. exists book, content. split; [reflexivity|split; [reflexivity|]].
  cbv zeta.
  destruct (server (Workflow.CreateDraft _)) as [draft|] eqn:Hcreate;
    [|left; split; [reflexivity|discriminate]].
  destruct (Workflow.reply_truthy draft); [|left; split; [reflexivity|discriminate]].
  destruct (Workflow.reply_id draft) as [record_id|];
    [|left; split; [reflexivity|discriminate]].
  right. exists record_id. split; [unfold Terms.accepted; rewrite Hcreate; eauto|].
  destruct (upload_file_cases record_id filename content)
    as [(-> & A1 & A2 & A3)|[(-> & A1 & A2 & A3)|[(-> & A1 & A2)|(-> & A1)]]].
  - assert (F : Forall (Terms.accepted server)
                  (firstn 4 (Terms.publish_sequence
                               (Uploader.create_metadata pycountry self book)
                               record_id filename content))).
    { repeat constructor; try assumption. unfold Terms.accepted. rewrite Hcreate. eauto. }
    destruct (server (Workflow.Publish record_id)) as [published|] eqn:Hpub.
    + destruct (Workflow.reply_truthy published); [destruct (Workflow.reply_id published)|];
        right; (split; [reflexivity|split; [exact F|]]);
        intros; try discriminate; unfold Terms.accepted; rewrite Hpub; eauto.
    + right. split; [reflexivity|split; [exact F|discriminate]].
  - left. exists 4%nat. split; [lia|split; reflexivity].
  - left. exists 3%nat. split; [lia|split; reflexivity].
  - left. exists 2%nat. split; [lia|split; reflexivity].
Qed.

Lemma update_record_cases data_dir record :
  let run := Workflow.update_record pycountry self server listdir data_dir record in
  (run = (false, [])
   /\ (Uploader.extract_gutenberg_id record = None
       \/ Uploader.extract_gutenberg_id record = Some 0%Z
       \/ exists gid, Uploader.extract_gutenberg_id record = Some gid
                      /\ Workflow.glob_metadata listdir data_dir gid = []))
  \/ exists gid name book rest,
       Uploader.extract_gutenberg_id record = Some gid /\ gid <> 0%Z
       /\ Workflow.glob_metadata listdir data_dir gid = (name, book) :: rest
       /\ let version :=
            Workflow.NewVersion (Workflow.format_record_id (Uploader.rec_id record)) in
          (run = (false, [version]))
          \/ exists draft_id,
               Terms.accepted server version
               /\ let sequence :=
                    Terms.update_sequence
                      (Workflow.format_record_id (Uploader.rec_id record)) draft_id
                      (Uploader.create_metadata pycountry self book) in
                  (exists k, (2 <= k <= 4)%nat /\ run = (false, firstn k sequence)
                             /\ Forall (Terms.accepted server) (firstn (k - 1) sequence))
                  \/ (snd run = sequence /\ Forall (Terms.accepted server) sequence).
Proof.
  intros run. subst run. unfold Workflow.update_record.
  destruct (Uploader.extract_gutenberg_id record) as [gid|]; [|left; split; auto].
  unfold Py.truthy_int. destruct (Z.eqb_spec gid 0) as [->|Hgid]; [left; split; auto|].
  cbn [negb].
  destruct (Workflow.glob_metadata listdir data_dir gid) as [|[name book] rest] eqn:Hglob;
    [left; split; [reflexivity|right; right; exists gid; split; [reflexivity|exact Hglob]]|].
  right. exists gid, name, book, rest.
  split; [reflexivity|split; [exact Hgid|split; [first [exact Hglob|reflexivity]|]]]. cbv zeta.
  destruct (server (Workflow.NewVersion _)) as [new_draft|] eqn:Hv; [|left; reflexivity].
  destruct (Workflow.reply_truthy new_draft); [|left; reflexivity].
  right. exists (Workflow.format_record_id (Workflow.reply_id new_draft)).
  assert (Av : Terms.accepted server
                 (Workflow.NewVersion (Workflow.format_record_id (Uploader.rec_id record))))
    by (unfold Terms.accepted; rewrite Hv; eauto).
  split; [exact Av|].
  destruct (server (Workflow.ImportFiles _)) as [r2|] eqn:Hi;
    [|left; exists 2%nat; split; [lia|split; [reflexivity|repeat constructor; exact Av]]].
  assert (Ai : Terms.accepted server
                 (Workflow.ImportFiles (Workflow.format_record_id (Workflow.reply_id new_draft))))
    by (unfold Terms.accepted; rewrite Hi; eauto).
  destruct (server (Workflow.UpdateDraft _ _)) as [r3|] eqn:Hu;
    [|left; exists 3%nat; split; [lia|split; [reflexivity|repeat constructor; assumption]]].
  assert (Au : Terms.accepted server
                 (Workflow.UpdateDraft (Workflow.format_record_id (Workflow.reply_id new_draft))
                    (Uploader.create_metadata pycountry self book)))
    by (unfold Terms.accepted; rewrite Hu; eauto).
  destruct (server (Workflow.Publish _)) as [published|] eqn:Hp;
    [|left; exists 4%nat; split; [lia|split; [reflexivity|repeat constructor; assumption]]].
  right. split; [reflexivity|]. repeat constructor; try assumption.
  unfold Terms.accepted. rewrite Hp. eauto.
Qed.

End Lifecycle.

(** X18: [upload_file] sends the three requests of a file transfer in
    order and stops at the first that fails.  It sends [k] of them, between
    one and three: those before the last sent were accepted, and when
    fewer than three are sent the last sent was refused.  So the content is
    sent only after the initiation was accepted, and the commit only after
    the content was.  It returns [True] exactly when the repository accepts
    all three.  When the file cannot be opened, only the initiation is
    sent. *)
Theorem upload_file_sequence (server : Workflow.request -> option Workflow.reply)
    (record_id filename content : text) :
  let init := Workflow.InitFile record_id filename in
  let put := Workflow.PutContent record_id filename content in
  let commit := Workflow.CommitFile record_id filename in
  let sequence := [init; put; commit] in
  let run := Workflow.upload_file server record_id filename (Some content) in
  (exists k, (1 <= k <= 3)%nat
     /\ snd run = firstn k sequence
     /\ Forall (Terms.accepted server) (firstn (k - 1) sequence)
     /\ ((k < 3)%nat ->
         exists r, nth_error sequence (k - 1) = Some r /\ server r = None))
  /\ (fst run = true <-> Forall (Terms.accepted server) sequence)
  /\ (fst run = true -> snd run = sequence)
  /\ (In put (snd run) -> Terms.accepted server init)
  /\ (In commit (snd run) -> Terms.accepted server init /\ Terms.accepted server put)
  /\ Workflow.upload_file server record_id filename None = (false, [init]).
Proof.
  intros init put commit sequence run.
  assert (Hnone : forall r, server r = None -> ~ Terms.accepted server r).
  { intros r E [x Hx]. congruence. }
  assert (Hfile : Workflow.upload_file server record_id filename None = (false, [init])).
  { unfold Workflow.upload_file. fold init. destruct (server init); reflexivity. }
  destruct (upload_file_cases server record_id filename content)
    as [(E & A1 & A2 & A3)|[(E & A1 & A2 & A3)|[(E & A1 & A2)|(E & A1)]]];
    fold init put commit run in E, A1; rewrite E; cbn [fst snd].
  - split; [exists 3%nat; split; [lia|split; [reflexivity|split;
             [repeat constructor; assumption|lia]]]|].
    split; [split; [intros _; repeat constructor; assumption|reflexivity]|].
    split; [reflexivity|]. split; [intros _; exact A1|].
    split; [intros _; split; assumption|exact Hfile].
  - split; [exists 3%nat; split; [lia|split; [reflexivity|split;
             [repeat constructor; assumption|lia]]]|].
    split; [split; [discriminate|]|split; [discriminate|split; [intros _; exact A1|
      split; [intros _; split; assumption|exact Hfile]]]].
    intros F. inversion F as [|? ? _ F1]; inversion F1 as [|? ? _ F2];
      inversion F2 as [|? ? F3 _]; subst. exfalso. exact (Hnone _ A3 F3).
  - split; [exists 2%nat; split; [lia|split; [reflexivity|split;
             [repeat constructor; assumption|intros _; exists put; split;
               [reflexivity|exact A2]]]]|].
    split; [split; [discriminate|]|split; [discriminate|split; [intros _; exact A1|
      split; [|exact Hfile]]]].
    + intros F. inversion F as [|? ? _ F1]; inversion F1 as [|? ? F2 _]; subst.
      exfalso. exact (Hnone _ A2 F2).
    + intros [Hin|[Hin|[]]]; discriminate Hin.
  - split; [exists 1%nat; split; [lia|split; [reflexivity|split;
             [constructor|intros _; exists init; split; [reflexivity|exact A1]]]]|].
    split; [split; [discriminate|]|split; [discriminate|split; [|split; [|exact Hfile]]]].
    + intros F. inversion F as [|? ? F1 _]; subst. exfalso. exact (Hnone _ A1 F1).
    + intros [Hin|[]]; discriminate Hin.
    + intros [Hin|[]]; discriminate Hin.
Qed.

Lemma publish_not_before_commit metadata record_id filename content k rid :
  (k <= 4)%nat ->
  ~ In (Workflow.Publish rid)
      (firstn k (Terms.publish_sequence metadata record_id filename content)).
Proof.
  intros Hk Hin.
  do 5 (destruct k as [|k]; [simpl in Hin; intuition discriminate|]). lia.
Qed.

(** X19: [upload_book] publishes a draft only after its file was committed:
    when a publish request is sent, the requests sent are the create-draft,
    the three of the file transfer and the publish, in this order and for
    one record, the four before the publish were accepted, and the content
    sent is the text stored under the stem of the metadata file.  Without
    that text file, or when the metadata file cannot be read, nothing is
    sent. *)
Theorem upload_book_publishes_after_commit pycountry self
    (server : Workflow.request -> option Workflow.reply)
    (data_dir : Storage.store) (metadata_file : text) :
  let run := Workflow.upload_book pycountry self server data_dir metadata_file in
  let filename := metadata_file ++ Py.str ".txt" in
  (forall record_id,
      In (Workflow.Publish record_id) (snd run) ->
      exists book content,
        Storage.metadata data_dir !! (metadata_file ++ Py.str ".json") = Some book
        /\ Storage.books data_dir !! filename = Some content
        /\ snd run = Terms.publish_sequence (Uploader.create_metadata pycountry self book)
                       record_id filename content
        /\ Forall (Terms.accepted server) (firstn 4 (snd run)))
  /\ (fst run = Workflow.Done true -> Forall (Terms.accepted server) (snd run))
  /\ (fst run = Workflow.Done true -> exists record_id, In (Workflow.Publish record_id) (snd run))
  /\ (Storage.books data_dir !! filename = None
      \/ Storage.metadata data_dir !! (metadata_file ++ Py.str ".json") = None ->
      snd run = [] /\ fst run <> Workflow.Done true).
Proof.
  intros run filename.
  pose proof (upload_book_cases pycountry self server data_dir metadata_file) as Hcases.
  cbv zeta in Hcases. subst run filename.
  destruct Hcases as [(Hs & Hf & Hwhy)|(book & content & Hm & Hb & Hrest)].
  - rewrite Hs. split; [intros rid []|]. split; [intros _; constructor|].
    split; [intros Hd; contradiction (Hf Hd)|]. intros _. split; [reflexivity|exact Hf].
  - destruct Hrest as [[Hs Hf]|(rid & Ac & [(k & Hk & Hs & Hf)|(Hs & F & Hp)])].
    + rewrite Hs. split; [intros r [E|[]]; discriminate E|].
      split; [contradiction|split; [contradiction|]].
      intros [E|E]; congruence.
    + rewrite Hs, Hf. split; [intros r Hin; exfalso; exact (publish_not_before_commit _ _ _ _ _ _ (proj2 Hk) Hin)|].
      split; [discriminate|split; [discriminate|]].
      intros [E|E]; congruence.
    + split.
      * intros r Hin. rewrite Hs in Hin.
        assert (r = rid) as ->.
        { simpl in Hin. destruct Hin as [E|[E|[E|[E|[E|[]]]]]]; try discriminate E.
          injection E as <-. reflexivity. }
        exists book, content. rewrite Hs. repeat split; assumption.
      * split; [|split].
        -- intros Hd. rewrite Hs.
           change (Terms.publish_sequence (Uploader.create_metadata pycountry self book)
                     rid (metadata_file ++ Py.str ".txt") content)
             with (firstn 4 (Terms.publish_sequence
                               (Uploader.create_metadata pycountry self book)
                               rid (metadata_file ++ Py.str ".txt") content)
                   ++ [Workflow.Publish rid]).
           apply Forall_app. split; [exact F|]. constructor; [exact (Hp Hd)|constructor].
        -- intros _. exists rid. rewrite Hs. simpl. tauto.
        -- intros [E|E]; congruence.
Qed.

Lemma update_request_prefix record_id draft_id metadata k :
  Forall Terms.update_request (firstn k (Terms.update_sequence record_id draft_id metadata)).
Proof. do 5 (destruct k as [|k]; [repeat constructor|]). repeat constructor. Qed.

(** X20: [update_record] sends requests of the update path only, never one
    that creates a record or sends file content; when it returns [True] it
    has sent the new-version, files-import, metadata and publish requests,
    in this order, all accepted, with the metadata computed from the first
    local file found for the identifier read from the record; and a publish
    is sent only after the metadata was accepted. *)
Theorem update_record_sequence `{Py.UnicodeData} pycountry self
    (server : Workflow.request -> option Workflow.reply) listdir
    (data_dir : Storage.store) (record : Uploader.InvenioRecord) :
  let run := Workflow.update_record pycountry self server listdir data_dir record in
  Forall Terms.update_request (snd run)
  /\ (fst run = true ->
      exists gid name book rest draft_id,
        Uploader.extract_gutenberg_id record = Some gid /\ gid <> 0%Z
        /\ Workflow.glob_metadata listdir data_dir gid = (name, book) :: rest
        /\ snd run = Terms.update_sequence
                       (Workflow.format_record_id (Uploader.rec_id record)) draft_id
                       (Uploader.create_metadata pycountry self book)
        /\ Forall (Terms.accepted server) (snd run))
  /\ (forall draft_id,
      In (Workflow.Publish draft_id) (snd run) ->
      exists metadata,
        In (Workflow.UpdateDraft draft_id metadata) (snd run)
        /\ Terms.accepted server (Workflow.UpdateDraft draft_id metadata)
        /\ Terms.accepted server (Workflow.ImportFiles draft_id)).
Proof.
  intros run.
  pose proof (update_record_cases pycountry self server listdir data_dir record) as Hcases.
  cbv zeta in Hcases. subst run.
  destruct Hcases as [[E _]|(gid & name & book & rest & Hx & Hgid & Hglob & Hrest)].
  - rewrite E. cbn [fst snd]. split; [constructor|split; [discriminate|intros d []]].
  - destruct Hrest as [E|(draft_id & Av & [(k & Hk & E & F)|(Hs & F)])].
    + rewrite E. cbn [fst snd]. split; [repeat constructor|split; [discriminate|]].
      intros d [Hin|[]]. discriminate Hin.
    + rewrite E. cbn [fst snd]. split; [apply update_request_prefix|split; [discriminate|]].
      intros d Hin.
      assert (Hk' : k = 2%nat \/ k = 3%nat \/ k = 4%nat) by lia.
      destruct Hk' as [-> | [-> | ->]]; simpl in Hin, F.
      * destruct Hin as [Hin|[Hin|[]]]; discriminate Hin.
      * destruct Hin as [Hin|[Hin|[Hin|[]]]]; discriminate Hin.
      * destruct Hin as [Hin|[Hin|[Hin|[Hin|[]]]]]; try discriminate Hin.
        injection Hin as <-.
        inversion F as [|? ? _ F1]; inversion F1 as [|? ? A2 F2];
          inversion F2 as [|? ? A3 _]; subst.
        eexists. split; [right; right; left; reflexivity|split; assumption].
    + rewrite Hs. split; [apply (update_request_prefix _ _ _ 4)|split].
      * intros _. exists gid, name, book, rest, draft_id. repeat split; assumption.
      * intros d Hin. simpl in Hin.
        destruct Hin as [Hin|[Hin|[Hin|[Hin|[]]]]]; try discriminate Hin.
        injection Hin as <-.
        inversion F as [|? ? _ F1]; inversion F1 as [|? ? A2 F2];
          inversion F2 as [|? ? A3 _]; subst.
        eexists. split; [right; right; left; reflexivity|split; assumption].
Qed.

Lemma additional_descriptions_of pycountry self book :
  Uploader.additional_descriptions (Uploader.create_metadata pycountry self book)
  = [ {| Uploader.description :=
           Some (Py.str "Project Gutenberg eBook #" ++ Uploader.format_id (Uploader.meta_id book)
                 ++ Py.str ". "
                 ++ Py.str "Downloaded from https://www.gutenberg.org/ebooks/"
                 ++ Uploader.format_id (Uploader.meta_id book));
         Uploader.description_type := Py.str "other" |} ].
Proof. reflexivity. Qed.

Lemma extract_from_without_id `{Py.UnicodeData} ty :
  Uploader.extract_from
    [ {| Uploader.description :=
           Some (Py.str "Project Gutenberg eBook #" ++ Uploader.format_id None ++ Py.str ". "
                 ++ Py.str "Downloaded from https://www.gutenberg.org/ebooks/"
                 ++ Uploader.format_id None);
         Uploader.description_type := ty |} ]
  = None.
Proof. vm_compute. reflexivity. Qed.

(** X21: a record made from a book without identifier, or with the
    identifier 0, is never updated: [update_record] returns [False] for it
    and sends nothing, whatever the local files and the repository. *)
Theorem update_record_skips_without_id `{Py.UnicodeData} pycountry self
    (server : Workflow.request -> option Workflow.reply) listdir
    (data_dir : Storage.store) (record : Uploader.InvenioRecord)
    metadata pycountry' self' book :
  Terms.known_id book = None ->
  Uploader.rec_metadata record = Some metadata ->
  Uploader.rec_additional_descriptions metadata
  = Uploader.additional_descriptions (Uploader.create_metadata pycountry' self' book) ->
  Workflow.update_record pycountry self server listdir data_dir record = (false, []).
Proof.
  unfold Terms.known_id. intros Hid Hm Hd.
  unfold Workflow.update_record, Uploader.extract_gutenberg_id.
  rewrite Hm, Hd, additional_descriptions_of.
  destruct (Uploader.meta_id book) as [n|].
  - destruct (Z.eqb_spec n 0) as [E|]; [|discriminate]. rewrite E.
    change (Py.str "Project Gutenberg eBook #" ++ Uploader.format_id (Some 0%Z) ++ Py.str ". "
            ++ Py.str "Downloaded from https://www.gutenberg.org/ebooks/"
            ++ Uploader.format_id (Some 0%Z))
      with (Spec.embedded 0).
    rewrite extract_from_embedded. reflexivity.
  - rewrite extract_from_without_id. reflexivity.
Qed.

Lemma update_record_skips_without_id_witness :
  Terms.known_id Cases.book_zero = None
  /\ @Workflow.update_record Py.ascii_digits_only None Cases.tables_with_zero
       Cases.accepting map_to_list Cases.harvested Cases.published_zero
     = (false, []).
Proof.
  split; [reflexivity|].
  exact (@update_record_skips_without_id Py.ascii_digits_only None Cases.tables_with_zero
           Cases.accepting map_to_list Cases.harvested Cases.published_zero
           _ None Cases.tables_with_zero Cases.book_zero eq_refl eq_refl eq_refl).
Defined.

(** ** The reports of [upload_all] and [update_all] *)

Lemma report_adds_up {X} (items : list X) : forall oks,
  length oks = length items ->
  (Spec.successes oks + length (Spec.failures items oks) = length items)%nat.
Proof.
  induction items as [|x items IH]; intros [|ok oks] Hl; simpl in Hl; try discriminate;
    [reflexivity|].
  injection Hl as Hl. specialize (IH oks Hl).
  rewrite successes_cons, failures_cons. destruct ok; simpl; lia.
Qed.

Section Reports.
Context {File World : Type} (stem : File -> text).
Variable upload_book : File -> World -> Uploader.run bool * World.
Variable update_record : Uploader.InvenioRecord -> World -> Uploader.run bool * World.

Lemma upload_loop_returned files : forall summary w summary' w',
  Uploader.upload_loop stem upload_book files summary w = (Uploader.Returned summary', w') ->
  exists oks,
    Spec.calls upload_book files w oks w'
    /\ summary' = Spec.extended summary stem files oks.
Proof.
  induction files as [|f files IH]; intros summary w summary' w'; simpl.
  - intros [= <- <-]. exists []. split; [constructor|]. rewrite extended_nil. reflexivity.
  - destruct (upload_book f w) as [[|ok] w1] eqn:Hf; [discriminate|].
    intros E. destruct (IH _ _ _ _ E) as (oks & Hc & ->).
    exists (ok :: oks). split; [econstructor; eassumption|]. apply extended_cons.
Qed.

Lemma update_each_returned limit records : forall count summary w st' w',
  Spec.for_each (Uploader.update_body update_record limit) records (count, summary) w
  = (Uploader.Next st', w')
  \/ Spec.for_each (Uploader.update_body update_record limit) records (count, summary) w
     = (Uploader.Break st', w') ->
  exists processed rest oks,
    records = processed ++ rest
    /\ Spec.calls update_record processed w oks w'
    /\ snd st' = Spec.extended summary Uploader.failure_entry processed oks.
Proof.
  induction records as [|x records IH]; intros count summary w st' w' E;
    cbn [Spec.for_each] in E.
  - destruct E as [E|E]; [|discriminate]. injection E as <- <-.
    exists [], [], []. split; [reflexivity|split; [constructor|]].
    rewrite extended_nil. reflexivity.
  - unfold Uploader.update_body in E at 1 3. cbn [fst snd] in E.
    destruct (Uploader.limit_truthy limit && _)%bool.
    + destruct E as [E|E]; [discriminate|]. injection E as <- <-.
      exists [], (x :: records), []. split; [reflexivity|split; [constructor|]].
      rewrite extended_nil. reflexivity.
    + destruct (update_record x w) as [[|ok] w1] eqn:Hx.
      * destruct E as [E|E]; discriminate.
      * destruct (IH _ _ _ _ _ E) as (processed & rest & oks & -> & Hc & Hs).
        exists (x :: processed), rest, (ok :: oks).
        split; [reflexivity|split; [econstructor; eassumption|]].
        rewrite Hs. apply extended_cons.
Qed.

(** A loop that a positive limit did not stop took no more records than
    the limit. *)
Lemma update_each_next n records : forall count summary w st' w',
  n <> 0%Z -> (count <= n)%Z ->
  Spec.for_each (Uploader.update_body update_record (Some n)) records (count, summary) w
  = (Uploader.Next st', w') ->
  (count + Z.of_nat (length records) <= n)%Z.
Proof.
  induction records as [|x records IH]; intros count summary w st' w' Hn Hcount;
    cbn [Spec.for_each].
  - intros _. simpl. lia.
  - unfold Uploader.update_body at 1.
    cbn [fst snd Uploader.limit_truthy default from_option id].
    unfold Py.truthy_int.
    replace (n =? 0)%Z with false by (symmetry; apply Z.eqb_neq; exact Hn).
    cbn [negb andb].
    destruct (Z.ltb_spec n (count + 1)) as [Hstop|Hgo]; [discriminate|].
    destruct (update_record x w) as [[|ok] w1]; [discriminate|].
    intros E. apply IH in E; [|exact Hn|lia]. simpl length. lia.
Qed.

End Reports.

Section Drawn.
Context {State World : Type}.
Variable body : Uploader.InvenioRecord -> State -> World -> Uploader.flow State * World.

(** Whatever the script, the loop that draws from the generator is the loop
    over the records of this system on pages at the beginning of the
    script. *)
Lemma for_existing_records_decompose script : forall s w out,
  Uploader.for_existing_records body script s w = Some out ->
  exists pages tail,
    script = map inr pages ++ tail
    /\ Forall (fun hits : list Uploader.InvenioRecord => hits <> []) pages
    /\ out = Spec.for_each body (Spec.matching_records pages) s w.
Proof.
  induction script as [|[e|hits] script IH]; intros s w out;
    cbn [Uploader.for_existing_records]; [discriminate| |].
  - intros [= <-]. exists [], (inl e :: script). repeat split. constructor.
  - destruct hits as [|r hits]; cbn [Py.truthy].
    + intros [= <-]. exists [], (inr [] :: script). repeat split. constructor.
    + rewrite yield_hits_for_each.
      destruct (Spec.for_each body (List.filter Uploader.is_gutenberg (r :: hits)) s w)
        as [[s1|s1|] w1] eqn:Hhits.
      * intros E. destruct (IH _ _ _ E) as (pages & tail & -> & F & ->).
        exists ((r :: hits) :: pages), tail.
        split; [reflexivity|split; [constructor; [discriminate|exact F]|]].
        rewrite matching_records_cons, for_each_app, Hhits. reflexivity.
      * intros [= <-]. exists [r :: hits], script.
        split; [reflexivity|split; [repeat constructor; discriminate|]].
        rewrite matching_records_cons, for_each_app, Hhits. reflexivity.
      * intros [= <-]. exists [r :: hits], script.
        split; [reflexivity|split; [repeat constructor; discriminate|]].
        rewrite matching_records_cons, for_each_app, Hhits. reflexivity.
Qed.

End Drawn.

Lemma get_existing_records_begins pages : forall tail records,
  Forall (fun hits : list Uploader.InvenioRecord => hits <> []) pages ->
  Uploader.get_existing_records (map inr pages ++ tail) = Some records ->
  exists more, records = Spec.matching_records pages ++ more.
Proof.
  induction pages as [|hits pages IH]; intros tail records F.
  - intros _. exists records. reflexivity.
  - inversion F as [|? ? Hhits F']; subst. cbn [map app Uploader.get_existing_records].
    destruct hits as [|r hits]; [contradiction|]. cbn [Py.truthy].
    destruct (Uploader.get_existing_records (map inr pages ++ tail)) as [records'|] eqn:E;
      [|discriminate].
    intros [= <-]. destruct (IH tail records' F' E) as [more ->].
    exists more. rewrite matching_records_cons, <- app_assoc. reflexivity.
Qed.

(** X22: the report of [upload_all] accounts for every file it took: the
    files processed are a beginning of the sorted listing, [upload_book]
    was called on each of them in turn, the successes are the calls that
    returned [True], the failures are the stems of the others in order, and
    the two numbers add up to the number of files processed. *)
Theorem upload_all_report {File World : Type} (stem : File -> text)
    (upload_book : File -> World -> Uploader.run bool * World)
    (metadata_dir : option (list File)) (limit : option Z) (w w' : World) summary :
  Uploader.upload_all stem upload_book metadata_dir limit w
  = Some (Uploader.Returned summary, w') ->
  exists listing processed rest oks,
    metadata_dir = Some listing
    /\ listing = processed ++ rest
    /\ Spec.calls upload_book processed w oks w'
    /\ Uploader.successful summary = Spec.successes oks
    /\ Uploader.failed summary = map stem (Spec.failures processed oks)
    /\ (Uploader.successful summary + length (Uploader.failed summary)
        = length processed)%nat.
Proof.
  unfold Uploader.upload_all. destruct metadata_dir as [listing|]; [|discriminate].
  set (files := match limit with
                | Some n => if Py.truthy_int n then Py.slice_to n listing else listing
                | None => listing
                end).
  intros [= E].
  destruct (upload_loop_returned stem upload_book files _ w summary w' E) as (oks & Hc & Hs).
  assert (Hpre : exists rest, listing = files ++ rest).
  { subst files. destruct limit as [n|]; [destruct (Py.truthy_int n)|];
      try (exists []; rewrite app_nil_r; reflexivity).
    apply slice_to_prefix. }
  destruct Hpre as [rest Hrest]. exists listing, files, rest, oks. rewrite Hs.
  split; [reflexivity|split; [exact Hrest|split; [exact Hc|split; [reflexivity|
    split; [reflexivity|]]]]].
  cbn [Spec.extended Uploader.successful Uploader.failed app Nat.add].
  rewrite length_map. apply report_adds_up. exact (calls_length _ _ _ _ _ Hc).
Qed.

Lemma upload_all_report_witness :
  exists summary,
    Uploader.upload_all (fun n : nat => Py.str_of_int (Z.of_nat n))
      (Samples.logging Nat.even) (Some [1; 2; 3; 4]%nat) (Some 3%Z) []
    = Some (Uploader.Returned summary, [1; 2; 3]%nat)
    /\ exists processed oks,
         Spec.calls (Samples.logging Nat.even) processed [] oks [1; 2; 3]%nat
         /\ Uploader.failed summary
            = map (fun n : nat => Py.str_of_int (Z.of_nat n)) (Spec.failures processed oks)
         /\ (Uploader.successful summary + length (Uploader.failed summary)
             = length processed)%nat.
Proof.
  eexists. split; [reflexivity|].
  destruct (upload_all_report (fun n : nat => Py.str_of_int (Z.of_nat n))
              (Samples.logging Nat.even) (Some [1; 2; 3; 4]%nat) (Some 3%Z) [] _ _ eq_refl)
    as (listing & processed & rest & oks & _ & _ & Hc & _ & Hf & Hsum).
  exists processed, oks. split; [exact Hc|split; [exact Hf|exact Hsum]].
Defined.

(** X23: the report of [update_all] accounts for every record it took: the
    records processed are a beginning of the records of this system on
    pages at the beginning of the script, hence of those that the generator
    yields when it is drawn to its end; [update_record] was called on each
    of them in turn, the successes are the calls that returned [True], the
    failures are the identifier and title of the others in order, and the
    two numbers add up. *)
Theorem update_all_report {World : Type}
    (update_record : Uploader.InvenioRecord -> World -> Uploader.run bool * World)
    (script : list (Py.exn + list Uploader.InvenioRecord)) (limit : option Z)
    (w w' : World) summary :
  Uploader.update_all update_record script limit w = Some (Uploader.Returned summary, w') ->
  exists pages tail processed rest oks,
    script = map inr pages ++ tail
    /\ Forall (fun hits : list Uploader.InvenioRecord => hits <> []) pages
    /\ Spec.matching_records pages = processed ++ rest
    /\ (forall records, Uploader.get_existing_records script = Some records ->
        exists more, records = processed ++ more)
    /\ Spec.calls update_record processed w oks w'
    /\ Uploader.successful summary = Spec.successes oks
    /\ Uploader.failed summary = map Uploader.failure_entry (Spec.failures processed oks)
    /\ (Uploader.successful summary + length (Uploader.failed summary)
        = length processed)%nat.
Proof.
  unfold Uploader.update_all.
  destruct (Uploader.for_existing_records _ script _ w) as [[ended w0]|] eqn:E;
    [|discriminate].
  destruct (for_existing_records_decompose _ script _ w _ E)
    as (pages & tail & Hscript & F & Hout).
  intros Hret.
  assert (Hst : exists st, snd st = summary /\ w0 = w'
                 /\ (ended = Uploader.Next st \/ ended = Uploader.Break st)).
  { destruct ended as [st|st|]; [| |discriminate Hret];
      injection Hret as H1 H2; exists st; auto. }
  clear Hret. destruct Hst as (st & <- & -> & Hended).
  destruct (update_each_returned update_record limit (Spec.matching_records pages)
              0%Z {| Uploader.successful := 0; Uploader.failed := [] |} w st w')
    as (processed & rest & oks & Hrec & Hc & Hs).
  { destruct Hended as [-> | ->]; [left|right]; symmetry; exact Hout. }
  exists pages, tail, processed, rest, oks. rewrite Hs.
  split; [exact Hscript|split; [exact F|split; [exact Hrec|split; [|split; [exact Hc|
    split; [reflexivity|split; [reflexivity|]]]]]]].
  - intros records Hrecords. rewrite Hscript in Hrecords.
    destruct (get_existing_records_begins pages tail records F Hrecords) as [more ->].
    rewrite Hrec, <- app_assoc. eauto.
  - cbn [Spec.extended Uploader.successful Uploader.failed app Nat.add].
    rewrite length_map. apply report_adds_up. exact (calls_length _ _ _ _ _ Hc).
Qed.

Lemma update_all_report_witness :
  exists summary,
    Uploader.update_all (Samples.logging Uploader.is_gutenberg)
      [inr [Samples.published; Samples.foreign; Samples.published]] (Some 1%Z) []
    = Some (Uploader.Returned summary, [Samples.published])
    /\ exists processed oks,
         Spec.calls (Samples.logging Uploader.is_gutenberg) processed [] oks
           [Samples.published]
         /\ (Uploader.successful summary + length (Uploader.failed summary)
             = length processed)%nat.
Proof.
  eexists. split; [reflexivity|].
  destruct (update_all_report (Samples.logging Uploader.is_gutenberg)
              [inr [Samples.published; Samples.foreign; Samples.published]] (Some 1%Z)
              [] _ _ eq_refl)
    as (pages & tail & processed & rest & oks & _ & _ & _ & _ & Hc & _ & _ & Hsum).
  exists processed, oks. split; [exact Hc|exact Hsum].
Defined.

(** X29: the two readings of the generator agree.  When the listing comes
    to its end, a [for] loop over [get_existing_records()] is the loop, with
    the same body, over the list of the records that the generator yields
    when it is drawn to its end: the same records in the same order, the
    loop ending where its body breaks or raises. *)
Theorem for_existing_records_agrees {State World : Type}
    (body : Uploader.InvenioRecord -> State -> World -> Uploader.flow State * World)
    (script : list (Py.exn + list Uploader.InvenioRecord))
    (records : list Uploader.InvenioRecord) (s : State) (w : World) :
  Uploader.get_existing_records script = Some records ->
  Uploader.for_existing_records body script s w = Some (Spec.for_each body records s w).
Proof.
  revert records s w.
  induction script as [|[e|hits] script IH]; intros records s w;
    cbn [Uploader.get_existing_records Uploader.for_existing_records]; [discriminate| |].
  - intros [= <-]. reflexivity.
  - destruct hits as [|r hits]; cbn [Py.truthy]; [intros [= <-]; reflexivity|].
    destruct (Uploader.get_existing_records script) as [records'|]; [|discriminate].
    intros [= <-]. rewrite yield_hits_for_each, for_each_app.
    destruct (Spec.for_each body _ s w) as [[s1|s1|] w1];
      [apply IH; reflexivity|reflexivity|reflexivity].
Qed.

Lemma for_existing_records_agrees_witness :
  Uploader.get_existing_records
    [inr [Samples.published; Samples.foreign]; inr [Samples.published];
     inl Py.RequestException]
  = Some [Samples.published; Samples.published]
  /\ Uploader.for_existing_records
       (fun record (seen : list Uploader.InvenioRecord) (w : unit) =>
          (Uploader.Next (seen ++ [record]), w))
       [inr [Samples.published; Samples.foreign]; inr [Samples.published];
        inl Py.RequestException]
       [] tt
     = Some (Uploader.Next [Samples.published; Samples.published], tt).
Proof.
  assert (E : Uploader.get_existing_records
                [inr [Samples.published; Samples.foreign]; inr [Samples.published];
                 inl Py.RequestException]
              = Some [Samples.published; Samples.published]) by reflexivity.
  split; [exact E|].
  exact (for_existing_records_agrees
           (fun record (seen : list Uploader.InvenioRecord) (w : unit) =>
              (Uploader.Next (seen ++ [record]), w))
           _ _ [] tt E).
Defined.

(** X28: [update_all] draws the records one at a time, and one more than a
    positive limit [n].  When the pages served hold more than [n] records
    of this system, the batch ends on these pages: it has an outcome if
    nothing follows them, and the same outcome whatever follows.  When
    they hold [n] or fewer and every call returns, the loop asks for the
    page after them. *)
Theorem update_all_draws_one_more {World : Type}
    (update_record : Uploader.InvenioRecord -> World -> Uploader.run bool * World)
    (pages : list (list Uploader.InvenioRecord)) (n : Z) (w : World) :
  Forall (fun hits : list Uploader.InvenioRecord => hits <> []) pages ->
  (0 < n)%Z ->
  ((Z.to_nat n < length (Spec.matching_records pages))%nat ->
   is_Some (Uploader.update_all update_record (map inr pages) (Some n) w)
   /\ forall tail,
        Uploader.update_all update_record (map inr pages ++ tail) (Some n) w
        = Uploader.update_all update_record (map inr pages) (Some n) w)
  /\ ((length (Spec.matching_records pages) <= Z.to_nat n)%nat ->
      forall oks w',
        Spec.calls update_record (Spec.matching_records pages) w oks w' ->
        Uploader.update_all update_record (map inr pages) (Some n) w = None
        /\ forall stop rest,
             Spec.ends_listing stop ->
             Uploader.update_all update_record (map inr pages ++ stop :: rest) (Some n) w
             = Some (Uploader.Returned
                       (Spec.report Uploader.failure_entry (Spec.matching_records pages) oks),
                     w')).
Proof.
  intros F Hn.
  assert (Hall : forall tail,
    Uploader.update_all update_record (map inr pages ++ tail) (Some n) w
    = match Spec.for_each (Uploader.update_body update_record (Some n))
              (Spec.matching_records pages)
              (0%Z, {| Uploader.successful := 0; Uploader.failed := [] |}) w with
      | (Uploader.Next s', w') =>
        match Uploader.for_existing_records (Uploader.update_body update_record (Some n))
                tail s' w' with
        | None => None
        | Some (Uploader.Next st, w'') => Some (Uploader.Returned (snd st), w'')
        | Some (Uploader.Break st, w'') => Some (Uploader.Returned (snd st), w'')
        | Some (Uploader.Raise, w'') => Some (Uploader.Raised, w'')
        end
      | (Uploader.Break st, w') => Some (Uploader.Returned (snd st), w')
      | (Uploader.Raise, w') => Some (Uploader.Raised, w')
      end).
  { intros tail. unfold Uploader.update_all.
    rewrite for_existing_records_pages by exact F.
    destruct (Spec.for_each _ (Spec.matching_records pages) _ w) as [[s1|s1|] w1];
      reflexivity. }
  assert (Hnil : Uploader.update_all update_record (map inr pages) (Some n) w
                 = Uploader.update_all update_record (map inr pages ++ []) (Some n) w)
    by (rewrite app_nil_r; reflexivity).
  split.
  - intros Hmore.
    assert (Hsame : forall tail,
      Uploader.update_all update_record (map inr pages ++ tail) (Some n) w
      = Uploader.update_all update_record (map inr pages ++ []) (Some n) w
      /\ is_Some (Uploader.update_all update_record (map inr pages ++ tail) (Some n) w)).
    { intros tail. rewrite !Hall.
      destruct (Spec.for_each _ (Spec.matching_records pages) _ w) as [[s1|s1|] w1] eqn:E;
        [|split; [reflexivity|eauto]|split; [reflexivity|eauto]].
      apply update_each_next in E; lia. }
    rewrite Hnil. split; [apply (Hsame [])|intros tail; apply (Hsame tail)].
  - intros Hfew oks w' Hc. split.
    + rewrite Hnil, Hall.
      rewrite (update_each_calls update_record (Some n) _ w oks w' Hc) by (right; simpl; lia).
      reflexivity.
    + intros stop rest Hstop. rewrite Hall.
      rewrite (update_each_calls update_record (Some n) _ w oks w' Hc) by (right; simpl; lia).
      destruct stop as [e|hits]; [reflexivity|]. simpl in Hstop. rewrite Hstop. reflexivity.
Qed.

Lemma update_all_draws_one_more_witness :
  Forall (fun hits : list Uploader.InvenioRecord => hits <> [])
    [[Samples.published; Samples.foreign]; [Samples.published]]
  /\ (0 < 1)%Z
  /\ (Z.to_nat 1
      < length (Spec.matching_records
                  [[Samples.published; Samples.foreign]; [Samples.published]]))%nat
  /\ Uploader.update_all (Samples.logging (fun _ => true))
       (map inr [[Samples.published; Samples.foreign]; [Samples.published]]
        ++ [inl Py.RequestException])
       (Some 1%Z) []
     = Uploader.update_all (Samples.logging (fun _ => true))
         (map inr [[Samples.published; Samples.foreign]; [Samples.published]])
         (Some 1%Z) [].
Proof.
  assert (F : Forall (fun hits : list Uploader.InvenioRecord => hits <> [])
                [[Samples.published; Samples.foreign]; [Samples.published]])
    by (repeat constructor; discriminate).
  assert (Hn : (0 < 1)%Z) by lia.
  assert (Hmore : (Z.to_nat 1
                   < length (Spec.matching_records
                               [[Samples.published; Samples.foreign]; [Samples.published]]))%nat)
    by (vm_compute; lia).
  split; [exact F|split; [exact Hn|split; [exact Hmore|]]].
  exact (proj2 (proj1 (update_all_draws_one_more (Samples.logging (fun _ => true))
                         _ 1%Z [] F Hn) Hmore) [inl Py.RequestException]).
Defined.

(** ** [get_existing_records] on any script *)

Lemma get_existing_records_decompose (script : list (Py.exn + list Uploader.InvenioRecord)) :
  forall records,
  Uploader.get_existing_records script = Some records ->
  exists pages stop rest,
    script = map inr pages ++ stop :: rest
    /\ Forall (fun hits : list Uploader.InvenioRecord => hits <> []) pages
    /\ Spec.ends_listing stop
    /\ records = Spec.matching_records pages.
Proof.
  induction script as [|[e|hits] script IH]; intros records; simpl; [discriminate| |].
  - intros [= <-]. exists [], (inl e), script. repeat split. constructor.
  - destruct hits as [|r hits]; cbn [Py.truthy].
    + intros [= <-]. exists [], (inr []), script. repeat split. constructor.
    + destruct (Uploader.get_existing_records script) as [records'|]; [|discriminate].
      intros [= <-]. destruct (IH records' eq_refl) as (pages & stop & rest & -> & F & He & ->).
      exists ((r :: hits) :: pages), stop, rest.
      split; [reflexivity|split; [constructor; [discriminate|exact F]|split; [exact He|]]].
      unfold Spec.matching_records. cbn [concat]. rewrite List.filter_app. reflexivity.
Qed.

(** X24: the records that [get_existing_records] yields are those of this
    system and no others: the records whose publisher is "Project
    Gutenberg" on the pages served before the first page without hits or
    the first failed request, in their order; what the repository would
    serve after that is not read. *)
Theorem get_existing_records_yield (script : list (Py.exn + list Uploader.InvenioRecord))
    (records : list Uploader.InvenioRecord) :
  Uploader.get_existing_records script = Some records ->
  Forall (fun r => Uploader.is_gutenberg r = true) records
  /\ exists pages stop rest,
       script = map inr pages ++ stop :: rest
       /\ Forall (fun hits : list Uploader.InvenioRecord => hits <> []) pages
       /\ Spec.ends_listing stop
       /\ records = Spec.matching_records pages.
Proof.
  intros E. destruct (get_existing_records_decompose script records E)
    as (pages & stop & rest & Hs & F & He & Hr).
  split; [|exists pages, stop, rest; repeat split; assumption].
  rewrite Hr. unfold Spec.matching_records.
  apply List.Forall_forall. intros r Hin. apply List.filter_In in Hin as [_ Hg]. exact Hg.
Qed.

Lemma get_existing_records_yield_witness :
  Uploader.get_existing_records
    [inr [Samples.published; Samples.foreign]; inl Py.RequestException; inr [Samples.published]]
  = Some [Samples.published]
  /\ Forall (fun r => Uploader.is_gutenberg r = true) [Samples.published].
Proof.
  assert (E : Uploader.get_existing_records
                [inr [Samples.published; Samples.foreign]; inl Py.RequestException;
                 inr [Samples.published]]
              = Some [Samples.published]) by reflexivity.
  split; [exact E|].
  exact (proj1 (get_existing_records_yield _ _ E)).
Defined.

(** ** From the harvester to the publisher *)

Lemma starts_with_prefix (prefix s : text) :
  Py.starts_with prefix s = true -> exists post, s = prefix ++ post.
Proof.
  revert s. induction prefix as [|c prefix IH]; intros s; simpl.
  - intros _. exists s. reflexivity.
  - destruct s as [|d s]; [discriminate|].
    destruct (N.eqb_spec c d) as [->|]; [|discriminate]. simpl.
    intros E. destruct (IH s E) as [post ->]. exists post. reflexivity.
Qed.

Lemma ends_with_app (suffix s : text) : Workflow.ends_with suffix (s ++ suffix) = true.
Proof. unfold Workflow.ends_with. rewrite rev_app_distr. apply starts_with_app. Qed.

Lemma glob_match_filename book_id title :
  Workflow.glob_match (Py.str_of_int book_id ++ Py.str "_") (Py.str ".json")
    (Storage.filename_base book_id title ++ Py.str ".json") = true.
Proof.
  unfold Workflow.glob_match, Storage.filename_base.
  rewrite !andb_true_iff. split; [split|].
  - rewrite <- !app_assoc. rewrite (app_assoc (Py.str_of_int book_id)). apply starts_with_app.
  - apply ends_with_app.
  - apply Nat.leb_le. rewrite !length_app. lia.
Qed.

Lemma glob_match_same_id n m title rest :
  Workflow.glob_match (Py.str_of_int n ++ Py.str "_") (Py.str ".json")
    (Storage.filename_base m title ++ rest) = true ->
  n = m.
Proof.
  unfold Workflow.glob_match. rewrite !andb_true_iff. intros [[Hs _] _].
  apply starts_with_prefix in Hs as [post E]. unfold Storage.filename_base in E.
  rewrite <- !app_assoc in E. symmetry. apply str_of_int_inj.
  exact (first_piece_inj 95%N _ _ _ _ (str_of_int_lacks m 95%N ltac:(lia))
           (str_of_int_lacks n 95%N ltac:(lia)) E).
Qed.

Section Link.
Variable listdir : gmap (list N) Uploader.BookMeta -> list (list N * Uploader.BookMeta).
Hypothesis listdir_lists : Terms.lists_files listdir.

Lemma glob_metadata_exact_aux data_dir gid :
  Terms.paired data_dir ->
  (forall name book,
      In (name, book) (Workflow.glob_metadata listdir data_dir gid) ->
      Storage.metadata data_dir !! name = Some book /\ Uploader.meta_id book = Some gid)
  /\ (forall title book,
      Storage.metadata data_dir !! (Storage.filename_base gid title ++ Py.str ".json")
      = Some book ->
      In (Storage.filename_base gid title ++ Py.str ".json", book)
        (Workflow.glob_metadata listdir data_dir gid)).
Proof.
  intros Hp. unfold Workflow.glob_metadata. split.
  - intros name book Hin. apply List.filter_In in Hin as [Hin Hm]. simpl in Hm.
    apply listdir_lists in Hin. split; [exact Hin|].
    destruct (Hp name book Hin) as (m & title & Hid & -> & _).
    apply glob_match_same_id in Hm. congruence.
  - intros title book Hl. apply List.filter_In. split; [apply listdir_lists; exact Hl|].
    apply glob_match_filename.
Qed.

End Link.

(** X25: in a directory that keeps its files in pairs, as [download_all]
    leaves it, [upload_book] finds the text of every metadata file: it
    neither raises nor stops for a missing text file, and its first request
    creates the draft with the metadata built from that file. *)
Theorem upload_book_finds_text pycountry self
    (server : Workflow.request -> option Workflow.reply)
    (data_dir : Storage.store) (metadata_file : text) (book : Uploader.BookMeta) :
  Terms.paired data_dir ->
  Storage.metadata data_dir !! (metadata_file ++ Py.str ".json") = Some book ->
  exists sent,
    snd (Workflow.upload_book pycountry self server data_dir metadata_file)
    = Workflow.CreateDraft (Uploader.create_metadata pycountry self book) :: sent.
Proof.
  intros Hp Hm.
  destruct (Hp _ _ Hm) as (n & title & Hid & Hname & Hb).
  apply app_inv_tail in Hname. subst metadata_file.
  pose proof (upload_book_cases pycountry self server data_dir
                (Storage.filename_base n title)) as Hcases.
  cbv zeta in Hcases.
  destruct Hcases as [(_ & _ & [E|E])|(book' & content & Hm' & _ & Hrest)].
  - rewrite Hm in E. simpl in E. congruence.
  - rewrite E in Hb. destruct Hb as [x Hx]. discriminate Hx.
  - assert (book' = book) as -> by congruence.
    destruct Hrest as [[Hs _]|(rid & _ & [(k & Hk & Hs & _)|(Hs & _)])]; rewrite Hs.
    + exists []. reflexivity.
    + destruct k as [|k]; [lia|]. eexists. reflexivity.
    + eexists. reflexivity.
Qed.

(** X26: in a directory that keeps its files in pairs, the pattern that
    [update_record] builds from an identifier selects the metadata files of
    that book and of no other: every file it selects holds a book with that
    identifier (the files of book 840 are not taken for book 84), and every
    file that [save_book] named after the identifier is selected. *)
Theorem glob_metadata_exact listdir (data_dir : Storage.store) (gid : Z) :
  Terms.lists_files listdir ->
  Terms.paired data_dir ->
  (forall name book,
      In (name, book) (Workflow.glob_metadata listdir data_dir gid) ->
      Storage.metadata data_dir !! name = Some book /\ Uploader.meta_id book = Some gid)
  /\ (forall title book,
      Storage.metadata data_dir !! (Storage.filename_base gid title ++ Py.str ".json")
      = Some book ->
      In (Storage.filename_base gid title ++ Py.str ".json", book)
        (Workflow.glob_metadata listdir data_dir gid)).
Proof.
  intros Hl Hp. unfold Workflow.glob_metadata. split.
  - intros name book Hin. apply List.filter_In in Hin as [Hin Hm]. simpl in Hm.
    apply Hl in Hin. split; [exact Hin|].
    destruct (Hp name book Hin) as (m & title & Hid & -> & _).
    apply glob_match_same_id in Hm. congruence.
  - intros title book Hlook. apply List.filter_In. split; [apply Hl; exact Hlook|].
    apply glob_match_filename.
Qed.

(** X27: an update keeps the identifier: in a directory that keeps its
    files in pairs, when [update_record] returns [True] the metadata it has
    put on the new version carries the description of the identifier that
    it read from the record, so that the identifier is read again from the
    updated record. *)
Theorem update_record_keeps_identifier `{Py.UnicodeData} pycountry self
    (server : Workflow.request -> option Workflow.reply) listdir
    (data_dir : Storage.store) (record : Uploader.InvenioRecord) sent :
  Terms.lists_files listdir ->
  Terms.paired data_dir ->
  Workflow.update_record pycountry self server listdir data_dir record = (true, sent) ->
  exists gid draft_id metadata,
    Uploader.extract_gutenberg_id record = Some gid
    /\ In (Workflow.UpdateDraft draft_id metadata) sent
    /\ Uploader.additional_descriptions metadata
       = [ {| Uploader.description := Some (Spec.embedded gid);
              Uploader.description_type := Py.str "other" |} ]
    /\ forall updated updated_metadata,
         Uploader.rec_metadata updated = Some updated_metadata ->
         Uploader.rec_additional_descriptions updated_metadata
         = Uploader.additional_descriptions metadata ->
         Uploader.extract_gutenberg_id updated = Some gid.
Proof.
  intros Hl Hp Hrun.
  pose proof (update_record_cases pycountry self server listdir data_dir record) as Hcases.
  cbv zeta in Hcases. rewrite Hrun in Hcases.
  destruct Hcases as [[E _]|(gid & name & book & rest & Hx & Hgid & Hglob & Hrest)];
    [discriminate E|].
  destruct Hrest as [E|(draft_id & _ & [(k & _ & E & _)|(Hs & _)])]; try discriminate E.
  simpl in Hs. subst sent.
  assert (Hid : Uploader.meta_id book = Some gid).
  { apply (proj1 (glob_metadata_exact_aux listdir Hl data_dir gid Hp) name book).
    rewrite Hglob. now left. }
  assert (Hd : Uploader.additional_descriptions (Uploader.create_metadata pycountry self book)
               = [ {| Uploader.description := Some (Spec.embedded gid);
                      Uploader.description_type := Py.str "other" |} ]).
  { rewrite additional_descriptions_of, Hid. reflexivity. }
  exists gid, draft_id, (Uploader.create_metadata pycountry self book).
  split; [exact Hx|split; [right; right; left; reflexivity|split; [exact Hd|]]].
  intros updated updated_metadata Hm Hdescs.
  unfold Uploader.extract_gutenberg_id. rewrite Hm, Hdescs, Hd.
  apply extract_from_embedded.
Qed.

Lemma map_to_list_lists_files : Terms.lists_files map_to_list.
Proof.
  intros m name book. rewrite <- list_elem_of_In. apply elem_of_map_to_list.
Qed.

Lemma harvested_paired : Terms.paired Cases.harvested.
Proof.
  intros name book Hl. simpl in Hl. apply lookup_singleton_Some in Hl as [<- <-].
  exists 84%Z, (Py.str "Frankenstein; Or, The Modern Prometheus").
  split; [reflexivity|split; [reflexivity|]].
  simpl. rewrite lookup_singleton_eq. eexists. reflexivity.
Qed.

Lemma upload_book_finds_text_witness :
  Terms.paired Cases.harvested
  /\ exists sent,
       snd (Workflow.upload_book None Samples.uploader Cases.refusing Cases.harvested
              (Storage.filename_base 84 (Py.str "Frankenstein; Or, The Modern Prometheus")))
       = Workflow.CreateDraft
           (Uploader.create_metadata None Samples.uploader Samples.frankenstein) :: sent.
Proof.
  split; [exact harvested_paired|].
  apply (upload_book_finds_text None Samples.uploader Cases.refusing Cases.harvested
           _ Samples.frankenstein harvested_paired).
  simpl. apply lookup_singleton_eq.
Defined.

Lemma glob_metadata_exact_witness :
  Terms.lists_files map_to_list
  /\ Terms.paired Cases.harvested
  /\ In (Storage.filename_base 84 (Py.str "Frankenstein; Or, The Modern Prometheus")
         ++ Py.str ".json", Samples.frankenstein)
       (Workflow.glob_metadata map_to_list Cases.harvested 84).
Proof.
  split; [exact map_to_list_lists_files|split; [exact harvested_paired|]].
  apply (proj2 (glob_metadata_exact map_to_list Cases.harvested 84
                  map_to_list_lists_files harvested_paired)).
  simpl. apply lookup_singleton_eq.
Defined.

Lemma update_record_keeps_identifier_witness :
  exists sent,
    @Workflow.update_record Py.ascii_digits_only None Samples.uploader Cases.accepting
      map_to_list Cases.harvested Samples.published = (true, sent)
    /\ exists gid draft_id metadata,
         @Uploader.extract_gutenberg_id Py.ascii_digits_only Samples.published = Some gid
         /\ In (Workflow.UpdateDraft draft_id metadata) sent
         /\ Uploader.additional_descriptions metadata
            = [ {| Uploader.description := Some (Spec.embedded gid);
                   Uploader.description_type := Py.str "other" |} ].
Proof.
  destruct (@Workflow.update_record Py.ascii_digits_only None Samples.uploader Cases.accepting
              map_to_list Cases.harvested Samples.published) as [[|] sent] eqn:E;
    [|vm_compute in E; discriminate E].
  exists sent. split; [reflexivity|].
  destruct (@update_record_keeps_identifier Py.ascii_digits_only None Samples.uploader
              Cases.accepting map_to_list Cases.harvested Samples.published sent
              map_to_list_lists_files harvested_paired E)
    as (gid & draft_id & metadata & H1 & H2 & H3 & _).
  exists gid, draft_id, metadata. split; [exact H1|split; [exact H2|exact H3]].
Defined.

Lemma upload_file_sequence_witness :
  In (Workflow.PutContent (Py.str "k3x9q-7c2aa") (Py.str "84_Frankenstein.txt")
        (Py.str "You will rejoice to hear"))
     (snd (Workflow.upload_file Cases.refusing_content (Py.str "k3x9q-7c2aa")
             (Py.str "84_Frankenstein.txt") (Some (Py.str "You will rejoice to hear"))))
  /\ Terms.accepted Cases.refusing_content
       (Workflow.InitFile (Py.str "k3x9q-7c2aa") (Py.str "84_Frankenstein.txt"))
  /\ exists k r,
       (k < 3)%nat
       /\ snd (Workflow.upload_file Cases.refusing_content (Py.str "k3x9q-7c2aa")
                 (Py.str "84_Frankenstein.txt") (Some (Py.str "You will rejoice to hear")))
          = firstn k
              [ Workflow.InitFile (Py.str "k3x9q-7c2aa") (Py.str "84_Frankenstein.txt");
                Workflow.PutContent (Py.str "k3x9q-7c2aa") (Py.str "84_Frankenstein.txt")
                  (Py.str "You will rejoice to hear");
                Workflow.CommitFile (Py.str "k3x9q-7c2aa") (Py.str "84_Frankenstein.txt") ]
       /\ nth_error
            [ Workflow.InitFile (Py.str "k3x9q-7c2aa") (Py.str "84_Frankenstein.txt");
              Workflow.PutContent (Py.str "k3x9q-7c2aa") (Py.str "84_Frankenstein.txt")
                (Py.str "You will rejoice to hear");
              Workflow.CommitFile (Py.str "k3x9q-7c2aa") (Py.str "84_Frankenstein.txt") ]
            (k - 1) = Some r
       /\ Cases.refusing_content r = None.
Proof.
  assert (Hin : In (Workflow.PutContent (Py.str "k3x9q-7c2aa") (Py.str "84_Frankenstein.txt")
                      (Py.str "You will rejoice to hear"))
                   (snd (Workflow.upload_file Cases.refusing_content (Py.str "k3x9q-7c2aa")
                           (Py.str "84_Frankenstein.txt")
                           (Some (Py.str "You will rejoice to hear")))))
    by (right; left; reflexivity).
  destruct (upload_file_sequence Cases.refusing_content (Py.str "k3x9q-7c2aa")
              (Py.str "84_Frankenstein.txt") (Py.str "You will rejoice to hear"))
    as ((k & Hk & Htrace & _ & Hlast) & _ & _ & Hput & _).
  split; [exact Hin|split; [exact (Hput Hin)|]].
  assert (Hk3 : (k < 3)%nat).
  { destruct (Nat.eq_dec k 3) as [->|]; [|lia]. discriminate Htrace. }
  destruct (Hlast Hk3) as (r & Hr & Hnone).
  exists k, r. split; [exact Hk3|split; [exact Htrace|split; [exact Hr|exact Hnone]]].
Defined.

Lemma upload_book_publishes_after_commit_witness :
  fst (Workflow.upload_book None Samples.uploader Cases.accepting Cases.harvested
         (Storage.filename_base 84 (Py.str "Frankenstein; Or, The Modern Prometheus")))
  = Workflow.Done true
  /\ Forall (Terms.accepted Cases.accepting)
       (snd (Workflow.upload_book None Samples.uploader Cases.accepting Cases.harvested
               (Storage.filename_base 84 (Py.str "Frankenstein; Or, The Modern Prometheus")))).
Proof.
  assert (E : fst (Workflow.upload_book None Samples.uploader Cases.accepting Cases.harvested
                     (Storage.filename_base 84
                        (Py.str "Frankenstein; Or, The Modern Prometheus")))
              = Workflow.Done true) by (vm_compute; reflexivity).
  split; [exact E|].
  exact (proj1 (proj2 (upload_book_publishes_after_commit None Samples.uploader
                         Cases.accepting Cases.harvested
                         (Storage.filename_base 84
                            (Py.str "Frankenstein; Or, The Modern Prometheus")))) E).
Defined.

Lemma update_record_sequence_witness :
  fst (@Workflow.update_record Py.ascii_digits_only None Samples.uploader Cases.accepting
         map_to_list Cases.harvested Samples.published) = true
  /\ exists gid name book rest draft_id,
       @Uploader.extract_gutenberg_id Py.ascii_digits_only Samples.published = Some gid
       /\ gid <> 0%Z
       /\ Workflow.glob_metadata map_to_list Cases.harvested gid = (name, book) :: rest
       /\ snd (@Workflow.update_record Py.ascii_digits_only None Samples.uploader
                 Cases.accepting map_to_list Cases.harvested Samples.published)
          = Terms.update_sequence
              (Workflow.format_record_id (Uploader.rec_id Samples.published)) draft_id
              (Uploader.create_metadata None Samples.uploader book)
       /\ Forall (Terms.accepted Cases.accepting)
            (snd (@Workflow.update_record Py.ascii_digits_only None Samples.uploader
                    Cases.accepting map_to_list Cases.harvested Samples.published)).
Proof.
  assert (E : fst (@Workflow.update_record Py.ascii_digits_only None Samples.uploader
                     Cases.accepting map_to_list Cases.harvested Samples.published) = true)
    by (vm_compute; reflexivity).
  split; [exact E|].
  exact (proj1 (proj2 (@update_record_sequence Py.ascii_digits_only None Samples.uploader
                         Cases.accepting map_to_list Cases.harvested Samples.published)) E).
Defined.
